(** * qanta.guesser.abstract: guess generation, persistence and aggregation

    A shallow embedding of [AbstractGuesser] from
    [qanta/guesser/abstract.py]: [generate_guesses], [guess_path],
    [save_guesses], [load_guesses] and [preprocess_all_guesses].

    Modelling choices.
    - A pandas DataFrame is the list of its rows, in row order; a row is a
      record of its columns.  Index labels are not a column and are not
      modelled: every operation used here carries them along untouched and
      none looks at them.
    - Scores are floats that the code only copies and compares for
      duplicate detection; they are an abstract type with decidable
      equality.
    - The file system is a finite map from paths to the pickled Python
      object stored there; writing always succeeds (the directory exists).
    - Exceptions are values of [exn]; code that can raise runs in the
      state-and-exception monad [M].
    - A guesser is any implementation of [guess] and [display_name].  The
      call of [guess] gets the list [question_texts] itself, so its outcome
      includes what it left in that list, besides what it returned or
      raised and the guesser after the call. *)

From stdpp Require Import gmap strings list sorting.
From stdpp Require Import pretty.
From Stdlib Require Import ZArith Ascii.

(** ** Exceptions and the monad *)

Inductive pykey :=
  | StrKey (s : string)
  | IntKey (z : Z).

(** The exceptions the code raises itself, and [OtherError] for any other
    class, which only a [guess] can raise. *)
Inductive exn :=
  | AssertionError
  | FileNotFoundError (path : string)
  | KeyError (k : pykey)
  | IndexError
  | ValueError
  | TypeError
  | AttributeError
  | OtherError (class_name : string).

Inductive result (A : Type) :=
  | Ok (a : A)
  | Raise (e : exn).
Arguments Ok {A} a.
Arguments Raise {A} e.

(** A computation over a store [S]: it ends in a value or an exception, and
    in both cases leaves a store behind (an exception undoes nothing). *)
Definition M (S A : Type) : Type := S → result A * S.

Definition ret {S A} (a : A) : M S A := λ s, (Ok a, s).

Definition bind {S A B} (c : M S A) (k : A → M S B) : M S B :=
  λ s, match c s with
       | (Ok a, s') => k a s'
       | (Raise e, s') => (Raise e, s')
       end.

Definition raise {S A} (e : exn) : M S A := λ s, (Raise e, s).

Definition lift {S A} (r : result A) : M S A := λ s, (r, s).

Definition assert_ {S} (b : bool) : M S unit :=
  if b then ret tt else raise AssertionError.

#[global] Instance M_ret {S} : MRet (M S) := λ A, ret.
#[global] Instance M_bind {S} : MBind (M S) := λ A B k c, bind c k.

(** [for x in l: b = body(b, x)] with the loop-carried locals [b]. *)
Fixpoint foldM {S A B} (body : B → A → M S B) (b : B) (l : list A) : M S B :=
  match l with
  | [] => ret b
  | x :: l' => b' ← body b x; foldM body b' l'
  end.

(** The same loop for a body that touches no store. *)
Fixpoint foldR {A B} (body : B → A → result B) (b : B) (l : list A) : result B :=
  match l with
  | [] => Ok b
  | x :: l' =>
      match body b x with
      | Ok b' => foldR body b' l'
      | Raise e => Raise e
      end
  end.

(** [for x in l: body(x)] *)
Definition for_ {S A} (l : list A) (body : A → M S unit) : M S unit :=
  foldM (λ _ x, body x) tt l.

(** ** os.path and str helpers *)

Definition startswith_slash (s : string) : bool :=
  match s with
  | String c _ => bool_decide (c = "/"%char)
  | EmptyString => false
  end.

Fixpoint endswith_slash (s : string) : bool :=
  match s with
  | EmptyString => false
  | String c EmptyString => bool_decide (c = "/"%char)
  | String _ s' => endswith_slash s'
  end.

(** [os.path.join(a, b)] (posixpath, two components). *)
Definition os_path_join (a b : string) : string :=
  if startswith_slash b then b
  else if bool_decide (a = "") || endswith_slash a then a +:+ b
  else a +:+ "/" +:+ b.

(** ['guesses_{}.pickle'.format(fold)] *)
Definition guesses_filename (fold : string) : string :=
  "guesses_" +:+ fold +:+ ".pickle".

Definition guess_path (directory fold : string) : string :=
  os_path_join directory (guesses_filename fold).

Definition QuestionText := string.
Definition Answer := string.

(** [' '.join(text_list)] *)
Definition str_join (sep : string) (l : list string) : string :=
  String.concat sep l.

(** ** Questions *)

Record Question := {
  q_qnum : Z;
  q_text : list string;
  q_page : Answer;
  q_fold : string
}.

Section Guesses.

Context {Score : Type} `{!EqDecision Score}.

(** ** Guess tables *)

Record Row := {
  row_qnum : Z;
  row_sentence : Z;
  row_token : Z;
  row_guess : Answer;
  row_score : Score;
  row_fold : string;
  row_guesser : string
}.

Definition DataFrame := list Row.

(** A row of a task table: the columns left by [drop('guesser', axis=1)]. *)
Record TaskRow := {
  t_qnum : Z;
  t_sentence : Z;
  t_token : Z;
  t_guess : Answer;
  t_score : Score;
  t_fold : string
}.

Record Task := {
  question : Question;
  guess_df : list TaskRow
}.

Definition Coverage : Type := Z * Z * Z * Answer.

(** The Python values this module pickles and unpickles. *)
Inductive pyobj :=
  | PyNone
  | PyDataFrame (df : DataFrame)
  | PyGuessMap (m : gmap string (gset Coverage))
  | PyTasks (l : list Task).

Abbreviation FS := (gmap string pyobj).

#[global] Instance Row_eq_dec : EqDecision Row.
Proof. solve_decision. Defined.

#[global] Instance TaskRow_eq_dec : EqDecision TaskRow.
Proof. solve_decision. Defined.

(** ** The guesser interface

    [guess] is handed the list object [question_texts] itself, not a copy.
    Besides returning a list of lists of (answer, score) pairs it may update
    the guesser, leave the list it was handed with other contents or another
    length, and raise.  Nothing in the interface forces the outer length of
    what it returns, the inner lengths or the order. *)

(** What a call of [guess] leaves behind: the list it returned or the
    exception it raised, the contents of the list it was handed, and the
    guesser. *)
Record GuessOutcome (G : Type) := {
  returned : result (list (list (Answer * Score)));
  questions_after : list QuestionText;
  guesser_after : G
}.
#[global] Arguments returned {G} _.
#[global] Arguments questions_after {G} _.
#[global] Arguments guesser_after {G} _.

Class AbstractGuesser (G : Type) := {
  guess : G → list QuestionText → Z → GuessOutcome G;
  display_name : G → string
}.

(** The store of a [generate_guesses] run: the guesser object and the
    calls of [guess] made on it so far, oldest first. *)
Record Run (G : Type) := {
  self : G;
  guess_calls : list (list QuestionText * Z)
}.
Arguments self {G} _.
Arguments guess_calls {G} _.

(** Line 163.  The value is what [guess] returned together with the list
    [question_texts] as the call left it: lines 165 and 176 read the length
    of that list again. *)
Definition call_guess `{AbstractGuesser G}
    (questions : list QuestionText) (max_n_guesses : Z)
    : M (Run G) (list (list (Answer * Score)) * list QuestionText) :=
  λ st, let out := guess (self st) questions max_n_guesses in
        let st' := {| self := guesser_after out;
                      guess_calls :=
                        guess_calls st ++ [(questions, max_n_guesses)] |} in
        match returned out with
        | Ok r => (Ok (r, questions_after out), st')
        | Raise e => (Raise e, st')
        end.

Definition get_display_name `{AbstractGuesser G} : M (Run G) string :=
  λ st, (Ok (display_name (self st)), st).

(** [d[k]] on a dict and [l[i]] on a list, with a natural-number index. *)
Definition dict_get `{Countable K} {V} (mk : K → pykey) (d : gmap K V) (k : K)
    : result V :=
  match d !! k with
  | Some v => Ok v
  | None => Raise (KeyError (mk k))
  end.

Definition list_get {A} (l : list A) (i : nat) : result A :=
  match l !! i with
  | Some x => Ok x
  | None => Raise IndexError
  end.

(** The five parallel lists filled by the first loop. *)
Record Batch := {
  q_folds : list string;
  q_qnums : list Z;
  q_sentences : list Z;
  q_tokens : list Z;
  question_texts : list QuestionText
}.

Definition empty_batch : Batch :=
  {| q_folds := []; q_qnums := []; q_sentences := []; q_tokens := [];
     question_texts := [] |}.

(** The seven column lists filled by the second loop. *)
Record Columns := {
  df_qnums : list Z;
  df_sentences : list Z;
  df_tokens : list Z;
  df_guesses : list Answer;
  df_scores : list Score;
  df_folds : list string;
  df_guessers : list string
}.

Definition empty_columns : Columns :=
  {| df_qnums := []; df_sentences := []; df_tokens := []; df_guesses := [];
     df_scores := []; df_folds := []; df_guessers := [] |}.

Fixpoint zip_rows (qs ss ts : list Z) (gs : list Answer) (scs : list Score)
    (fs grs : list string) : DataFrame :=
  match qs, ss, ts, gs, scs, fs, grs with
  | q :: qs', s :: ss', t :: ts', g :: gs', sc :: scs', f :: fs', gr :: grs' =>
      {| row_qnum := q; row_sentence := s; row_token := t; row_guess := g;
         row_score := sc; row_fold := f; row_guesser := gr |}
      :: zip_rows qs' ss' ts' gs' scs' fs' grs'
  | _, _, _, _, _, _, _ => []
  end.

(** [pd.DataFrame({...})] from a dict of column lists: all columns must
    have one length. *)
Definition pd_DataFrame (c : Columns) : result DataFrame :=
  let n := length (df_qnums c) in
  if bool_decide (length (df_sentences c) = n ∧ length (df_tokens c) = n ∧
                  length (df_guesses c) = n ∧ length (df_scores c) = n ∧
                  length (df_folds c) = n ∧ length (df_guessers c) = n)
  then Ok (zip_rows (df_qnums c) (df_sentences c) (df_tokens c) (df_guesses c)
                    (df_scores c) (df_folds c) (df_guessers c))
  else Raise ValueError.

Section Generation.

Context `{AbstractGuesser G}.

(** [Question.partials] and [QuizBowlEvaluationDataset().questions_by_fold()]
    are defined outside this module. *)
Variable partials : Question → list (Z * Z * list string).
Variable questions_by_fold : gmap string (list Question).

Definition add_partial (fold : string) (q : Question) (b : Batch)
    (p : Z * Z * list string) : Batch :=
  let '(sent, token, text_list) := p in
  let text := str_join " " text_list in
  {| question_texts := question_texts b ++ [text];
     q_folds := q_folds b ++ [fold];
     q_qnums := q_qnums b ++ [q_qnum q];
     q_sentences := q_sentences b ++ [sent];
     q_tokens := q_tokens b ++ [token] |}.

Definition add_guess (qnum sentence token : Z) (fold guesser_name : string)
    (c : Columns) (gs : Answer * Score) : Columns :=
  let '(guess, score) := gs in
  {| df_qnums := df_qnums c ++ [qnum];
     df_sentences := df_sentences c ++ [sentence];
     df_tokens := df_tokens c ++ [token];
     df_guesses := df_guesses c ++ [guess];
     df_scores := df_scores c ++ [score];
     df_folds := df_folds c ++ [fold];
     df_guessers := df_guessers c ++ [guesser_name] |}.

(** The body of the loop over the requested folds, lines 153-161. *)
Definition collect_fold (b : Batch) (fold : string) : M (Run G) Batch :=
  questions ← lift (dict_get StrKey questions_by_fold fold);
  mret (foldl (λ b q, foldl (add_partial fold q) b (partials q)) b questions).

(** The body of the loop over batch positions, lines 177-189. *)
Definition expand_position (b : Batch)
    (guesses_per_question : list (list (Answer * Score)))
    (guesser_name : string) (c : Columns) (i : nat) : M (Run G) Columns :=
  guesses_with_scores ← lift (list_get guesses_per_question i);
  fold ← lift (list_get (q_folds b) i);
  qnum ← lift (list_get (q_qnums b) i);
  sentence ← lift (list_get (q_sentences b) i);
  token ← lift (list_get (q_tokens b) i);
  mret (foldl (add_guess qnum sentence token fold guesser_name)
              c guesses_with_scores).

Definition generate_guesses (max_n_guesses : Z) (folds : list string)
    : M (Run G) DataFrame :=
  b ← foldM collect_fold empty_batch folds;
  '(guesses_per_question, question_texts') ←
    call_guess (question_texts b) max_n_guesses;
  assert_ (length guesses_per_question =? length question_texts')%nat;;
  guesser_name ← get_display_name;
  c ← foldM (expand_position b guesses_per_question guesser_name)
            empty_columns (seq 0 (length question_texts'));
  lift (pd_DataFrame c).

(** *** What the spec says [generate_guesses] computes

    The flattened batch: one entry per partial of every question of every
    requested fold, in that order, with the position it came from; and the
    table: every (answer, score) pair of a batch position as one row. *)

Record Prefix := {
  p_fold : string;
  p_qnum : Z;
  p_sentence : Z;
  p_token : Z;
  p_text : QuestionText
}.

Definition prefix_of (fold : string) (q : Question)
    (p : Z * Z * list string) : Prefix :=
  {| p_fold := fold; p_qnum := q_qnum q; p_sentence := p.1.1;
     p_token := p.1.2; p_text := str_join " " p.2 |}.

Definition flattened_batch (folds : list string) : list Prefix :=
  flat_map (λ fold,
    flat_map (λ q, prefix_of fold q <$> partials q)
             (default [] (questions_by_fold !! fold))) folds.

Definition stamp (guesser_name : string) (p : Prefix) (gs : Answer * Score)
    : Row :=
  {| row_qnum := p_qnum p; row_sentence := p_sentence p;
     row_token := p_token p; row_guess := gs.1; row_score := gs.2;
     row_fold := p_fold p; row_guesser := guesser_name |}.

Definition expanded_rows (guesser_name : string) (batch : list Prefix)
    (guesses_per_question : list (list (Answer * Score))) : DataFrame :=
  concat (zip_with (λ p gs, stamp guesser_name p <$> gs)
                   batch guesses_per_question).

(** The five lists that hold a batch, and the seven that hold a table. *)
Definition batch_of (ps : list Prefix) : Batch :=
  {| q_folds := p_fold <$> ps; q_qnums := p_qnum <$> ps;
     q_sentences := p_sentence <$> ps; q_tokens := p_token <$> ps;
     question_texts := p_text <$> ps |}.

Definition columns_of (rows : DataFrame) : Columns :=
  {| df_qnums := row_qnum <$> rows; df_sentences := row_sentence <$> rows;
     df_tokens := row_token <$> rows; df_guesses := row_guess <$> rows;
     df_scores := row_score <$> rows; df_folds := row_fold <$> rows;
     df_guessers := row_guesser <$> rows |}.

End Generation.

(** ** Persistence *)

Definition to_pickle (obj : pyobj) (path : string) : M FS unit :=
  λ fs, (Ok tt, <[path := obj]> fs).

Definition read_pickle (path : string) : M FS pyobj :=
  λ fs, match fs !! path with
        | Some obj => (Ok obj, fs)
        | None => (Raise (FileNotFoundError path), fs)
        end.

(** [pd.concat([a, b])]: [None] entries are dropped, anything that is not a
    DataFrame is refused. *)
Definition pd_concat (a b : pyobj) : result pyobj :=
  match a, b with
  | PyNone, PyNone => Raise ValueError
  | PyDataFrame x, PyNone => Ok (PyDataFrame x)
  | PyNone, PyDataFrame y => Ok (PyDataFrame y)
  | PyDataFrame x, PyDataFrame y => Ok (PyDataFrame (x ++ y))
  | _, _ => Raise TypeError
  end.

Definition is_None (o : pyobj) : bool :=
  match o with PyNone => true | _ => false end.

Definition save_folds : list string := ["train"; "dev"; "test"; "devtest"].

(** [guess_df[guess_df.fold == fold]] *)
Definition select_fold (guess_df : DataFrame) (fold : string) : DataFrame :=
  filter (λ r, row_fold r = fold) guess_df.

Definition save_guesses (guess_df : DataFrame) (directory : string) : M FS unit :=
  let folds := save_folds in
  for_ folds (λ fold,
    let fold_df := select_fold guess_df fold in
    let output_path := guess_path directory fold in
    to_pickle (PyDataFrame fold_df) output_path).

(** What one iteration of the loop of [save_guesses] does to the store. *)
Definition write_fold (guess_df : DataFrame) (directory : string)
    (fs : FS) (fold : string) : FS :=
  <[guess_path directory fold := PyDataFrame (select_fold guess_df fold)]> fs.

(** The body of the loop of [load_guesses], lines 218-223. *)
Definition load_fold (directory : string) (guess_df : pyobj) (fold : string)
    : M FS pyobj :=
  let input_path := guess_path directory fold in
  if is_None guess_df then
    read_pickle input_path
  else
    new_guesses_df ← read_pickle input_path;
    lift (pd_concat guess_df new_guesses_df).

Definition load_guesses (directory : string) (folds : list string) : M FS pyobj :=
  assert_ (0 <? length folds)%nat;;
  foldM (load_fold directory) PyNone folds.

(** ** Cross-guesser aggregation *)

(** Orders used by [groupby] to sort its group keys: integers by value,
    strings by code unit, tuples lexicographically. *)
Definition Z3_le (a b : Z * Z * Z) : Prop :=
  let '(a1, a2, a3) := a in
  let '(b1, b2, b3) := b in
  (a1 < b1 ∨ (a1 = b1 ∧ (a2 < b2 ∨ (a2 = b2 ∧ a3 ≤ b3))))%Z.

Definition str2_le (a b : string * string) : Prop :=
  match String.compare a.1 b.1 with
  | Lt => True
  | Eq => String.leb a.2 b.2 = true
  | Gt => False
  end.

#[global] Instance Z3_le_dec a b : Decision (Z3_le a b).
Proof. destruct a as [[??]?], b as [[??]?]; simpl; apply _. Defined.

#[global] Instance str2_le_dec a b : Decision (str2_le a b).
Proof. unfold str2_le; destruct (String.compare a.1 b.1); apply _. Defined.

(** [df.groupby(cols)] iterated: one (key, sub-table) pair per distinct
    key, keys in sorted order, each sub-table in the table's row order. *)
Definition groupby {K} `{EqDecision K} (key : Row → K)
    (le : K → K → Prop) `{∀ x y, Decision (le x y)}
    (df : DataFrame) : list (K * DataFrame) :=
  (λ k, (k, filter (λ r, key r = k) df))
    <$> merge_sort le (remove_dups (key <$> df)).

(** [df.drop('guesser', axis=1)] *)
Definition drop_guesser (r : Row) : TaskRow :=
  {| t_qnum := row_qnum r; t_sentence := row_sentence r;
     t_token := row_token r; t_guess := row_guess r;
     t_score := row_score r; t_fold := row_fold r |}.

(** [df.drop_duplicates()]: of equal rows the first one stays. *)
Fixpoint drop_duplicates_from {A} `{EqDecision A} (seen l : list A) : list A :=
  match l with
  | [] => []
  | x :: l' =>
      if bool_decide (x ∈ seen) then drop_duplicates_from seen l'
      else x :: drop_duplicates_from (x :: seen) l'
  end.

Definition drop_duplicates {A} `{EqDecision A} (l : list A) : list A :=
  drop_duplicates_from [] l.

(** [guess_map[guesser].add(x)] on a [defaultdict(set)] *)
Definition guess_map_add (guess_map : gmap string (gset Coverage))
    (guesser : string) (x : Coverage) : gmap string (gset Coverage) :=
  <[guesser := default ∅ (guess_map !! guesser) ∪ {[x]}]> guess_map.

Section Aggregation.

(** [c.ALL_FOLDS], [c.GUESSER_LIST], [c.GUESSER_TARGET_PREFIX],
    [c.GUESSER_INDEX] and [c.GUESS_TASKS] of [qanta.util.constants], and
    [QuestionDatabase().all_questions()], are defined outside this module. *)
Context {Config : Type}.
Variable ALL_FOLDS : list string.
Variable GUESSER_LIST : list (string * Config).
Variables GUESSER_TARGET_PREFIX GUESSER_INDEX GUESS_TASKS : string.
Variable question_map : gmap Z Question.

(** The body of the loop over [c.GUESSER_LIST], lines 233-238;
    [load_guesses] is called with its default folds. *)
Definition load_guesser (guess_df : pyobj) (entry : string * Config)
    : M FS pyobj :=
  let '(guesser_class, _) := entry in
  let input_path := os_path_join GUESSER_TARGET_PREFIX guesser_class in
  if is_None guess_df then
    load_guesses input_path ALL_FOLDS
  else
    new_guess_df ← load_guesses input_path ALL_FOLDS;
    lift (pd_concat guess_df new_guess_df).

(** Lines 231-238: the tables of all listed guessers, concatenated. *)
Definition combined_guesses : M FS pyobj :=
  foldM load_guesser PyNone GUESSER_LIST.

(** The loop over the (guess, guesser) sub-groups of a position group,
    lines 246-249. *)
Definition cover_group (qnum sentence token : Z)
    (guess_map : gmap string (gset Coverage)) (group : DataFrame)
    : gmap string (gset Coverage) :=
  foldl (λ guess_map gg,
           let guess_guesser : string * string := gg.1 in
           let guess := guess_guesser.1 in
           let guesser := guess_guesser.2 in
           guess_map_add guess_map guesser (qnum, sentence, token, guess))
        guess_map
        (groupby (λ r, (row_guess r, row_guesser r)) str2_le group).

(** The body of the loop over position groups, lines 243-253. *)
Definition aggregate_group
    (acc : gmap string (gset Coverage) * list Task)
    (g : Z * Z * Z * DataFrame)
    : result (gmap string (gset Coverage) * list Task) :=
  let '(guess_map, tasks) := acc in
  let '(name, group) := g in
  let '(qnum, sentence, token) := name in
  let guess_map := cover_group qnum sentence token guess_map group in
  match dict_get IntKey question_map qnum with
  | Raise e => Raise e
  | Ok question =>
      let guesses := drop_duplicates (drop_guesser <$> group) in
      Ok (guess_map, tasks ++ [{| question := question; guess_df := guesses |}])
  end.

Definition position (r : Row) : Z * Z * Z :=
  (row_qnum r, row_sentence r, row_token r).

(** Lines 240-253; this part touches no file. *)
Definition aggregate (guess_df : DataFrame)
    : result (gmap string (gset Coverage) * list Task) :=
  foldR aggregate_group (∅, []) (groupby position Z3_le guess_df).

(** What the spec says a task is to the position group it is made from:
    the question with the group's qnum, and the group's rows without the
    guesser column and without duplicates. *)
Definition task_of_group (g : Z * Z * Z * DataFrame) (task : Task) : Prop :=
  question_map !! g.1.1.1 = Some (question task) ∧
  guess_df task = drop_duplicates (A := TaskRow) (drop_guesser <$> g.2).

(** [guess_df.groupby] exists on a DataFrame only. *)
Definition as_DataFrame (o : pyobj) : result DataFrame :=
  match o with
  | PyDataFrame df => Ok df
  | _ => Raise AttributeError
  end.

(** [with open(path, 'wb') as f: pickle.dump(obj, f)] *)
Definition pickle_dump (obj : pyobj) (path : string) : M FS unit :=
  λ fs, (Ok tt, <[path := obj]> fs).

(** Two stores hold the same persisted guess tables: they agree on every
    file that [combined_guesses] reads. *)
Definition same_guess_tables (fs1 fs2 : FS) : Prop :=
  ∀ guesser_class cfg fold,
    (guesser_class, cfg) ∈ GUESSER_LIST → fold ∈ ALL_FOLDS →
    fs1 !! guess_path (os_path_join GUESSER_TARGET_PREFIX guesser_class) fold
    = fs2 !! guess_path (os_path_join GUESSER_TARGET_PREFIX guesser_class) fold.

(** The store after the two dumps of lines 255-259. *)
Definition with_artifacts (fs : FS) (guess_map : gmap string (gset Coverage))
    (tasks : list Task) : FS :=
  <[GUESS_TASKS := PyTasks tasks]> (<[GUESSER_INDEX := PyGuessMap guess_map]> fs).

Definition preprocess_all_guesses : M FS unit :=
  guess_df ← combined_guesses;
  guess_df ← lift (as_DataFrame guess_df);
  '(guess_map, tasks) ← lift (aggregate guess_df);
  pickle_dump (PyGuessMap guess_map) GUESSER_INDEX;;
  pickle_dump (PyTasks tasks) GUESS_TASKS.

End Aggregation.

End Guesses.

Abbreviation FS := (gmap string pyobj).

(** ** Example data

    One question with two prefixes, two guessers that agree on their best
    guess, and a guesser that answers nothing.  Scores are in tenths. *)

Definition example_question : Question :=
  {| q_qnum := 7; q_text := ["This emperor"]; q_page := "Napoleon";
     q_fold := "dev" |}.

Definition example_partials (q : Question) : list (Z * Z * list string) :=
  [(0%Z, 1%Z, ["This"]); (0%Z, 2%Z, ["This"; "emperor"])].

Definition example_questions_by_fold : gmap string (list Question) :=
  {[ "dev" := [example_question] ]}.

(** A guesser that gives every text the same answers, whatever the number
    asked for; the second field is its display name. *)
Record canned_guesser := {
  canned_answers : list (Answer * Z);
  canned_name : string
}.

#[global] Instance canned_guesser_impl : AbstractGuesser (Score := Z) canned_guesser :=
  {| guess g questions max_n_guesses :=
       {| returned := Ok ((λ _, canned_answers g) <$> questions);
          questions_after := questions; guesser_after := g |};
     display_name := canned_name |}.

(** A guesser that breaks the contract: it returns no list at all. *)
Inductive mute_guesser := Mute.

#[global] Instance mute_guesser_impl : AbstractGuesser (Score := Z) mute_guesser :=
  {| guess g questions max_n_guesses :=
       {| returned := Ok []; questions_after := questions;
          guesser_after := g |};
     display_name _ := "mute" |}.

(** Two guessers that use the list they are handed as a work list: the
    first pops every text off it and returns no list; the second returns one
    empty list per text and pops the last text. *)
Inductive draining_guesser := Draining.

#[global] Instance draining_guesser_impl
    : AbstractGuesser (Score := Z) draining_guesser :=
  {| guess g questions max_n_guesses :=
       {| returned := Ok []; questions_after := []; guesser_after := g |};
     display_name _ := "draining" |}.

Inductive popping_guesser := Popping.

#[global] Instance popping_guesser_impl
    : AbstractGuesser (Score := Z) popping_guesser :=
  {| guess g questions max_n_guesses :=
       {| returned := Ok ((λ _, []) <$> questions);
          questions_after := removelast questions; guesser_after := g |};
     display_name _ := "popping" |}.

(** A guesser that appends a text to the list it is handed and answers
    every text of the longer list, and one that fails. *)
Inductive appending_guesser := Appending.

#[global] Instance appending_guesser_impl
    : AbstractGuesser (Score := Z) appending_guesser :=
  {| guess g questions max_n_guesses :=
       {| returned := Ok ((λ _, []) <$> (questions ++ ["more"]));
          questions_after := questions ++ ["more"]; guesser_after := g |};
     display_name _ := "appending" |}.

Inductive failing_guesser := Failing.

#[global] Instance failing_guesser_impl
    : AbstractGuesser (Score := Z) failing_guesser :=
  {| guess g questions max_n_guesses :=
       {| returned := Raise ValueError; questions_after := questions;
          guesser_after := g |};
     display_name _ := "failing" |}.

Definition example_row (guess : Answer) (score : Z) (fold guesser : string)
    : Row (Score := Z) :=
  {| row_qnum := 7; row_sentence := 0; row_token := 2; row_guess := guess;
     row_score := score; row_fold := fold; row_guesser := guesser |}.

Definition example_table : DataFrame (Score := Z) :=
  [example_row "Napoleon" 9 "dev" "A"; example_row "Caesar" 3 "train" "A";
   example_row "Nero" 1 "guesstrain" "A"].

Definition example_combined : DataFrame (Score := Z) :=
  [example_row "Napoleon" 9 "dev" "A"; example_row "Caesar" 3 "dev" "A";
   example_row "Napoleon" 9 "dev" "B"].

Definition example_question_map : gmap Z Question :=
  {[ 7%Z := example_question ]}.

Definition example_GUESSER_LIST : list (string * unit) := [("A", tt); ("B", tt)].

Definition example_store : gmap string (pyobj (Score := Z)) :=
  {[ "output/guesser/A/guesses_dev.pickle" :=
       PyDataFrame [example_row "Napoleon" 9 "dev" "A";
                    example_row "Caesar" 3 "dev" "A"];
     "output/guesser/B/guesses_dev.pickle" :=
       PyDataFrame [example_row "Napoleon" 9 "dev" "B"] ]}.

(** * The file list of a guesser, and the commands of cli.py

    [AbstractGuesser.files] of [qanta/guesser/abstract.py], and of [cli.py]
    the commands [export_db], [guesser_pipeline] (through [run_guesser]),
    [sample_answer_pages] and [generate_guesser_slurm] with
    [get_slurm_config_value].

    Modelling choices.
    - What a command leaves behind is its store: the files it wrote and the
      commands it passed to [shell], oldest first.  Opening a file for
      writing and running a command are taken to succeed.  Logging is not
      modelled.
    - What [cli.py] imports from elsewhere is a parameter: the database
      location and its questions, sklearn's [train_test_split], the rows of
      the SQL query, the enabled guessers, the parsed YAML file and the two
      jinja2 templates.
    - The [text] of a question is the sequence of its sentences, indexed
      from 0, as in [Question] above; [to_example] reads it index by
      index. *)

Arguments self {G} _.
Arguments guess_calls {G} _.

(** ** AbstractGuesser.files *)

(** [[os.path.join(directory, file) for file in cls.targets()]]; the
    abstract [targets] is a parameter. *)
Definition files (targets : list string) (directory : string) : list string :=
  (λ file, os_path_join directory file) <$> targets.

(** What [os.path.join] puts before a relative name: the directory, with a
    slash after it unless it is empty or has one. *)
Definition dir_prefix (directory : string) : string :=
  if bool_decide (directory = "") || endswith_slash directory then directory
  else directory +:+ "/".

(** ** Words for the aggregation properties *)

Definition task_position {Score : Type} (row : TaskRow (Score := Score))
    : Z * Z * Z :=
  (t_qnum row, t_sentence row, t_token row).

(** The table [load_guesses] returns for one guesser when [tables] tells
    what each of its fold files holds. *)
Definition guesser_table {Score Config : Type} (ALL_FOLDS : list string)
    (tables : string → string → DataFrame (Score := Score))
    (entry : string * Config) : DataFrame (Score := Score) :=
  concat (tables entry.1 <$> ALL_FOLDS).

(** ** str methods used by cli.py *)

(** [s.startswith(prefix)] *)
Fixpoint str_startswith (prefix s : string) : bool :=
  match prefix, s with
  | EmptyString, _ => true
  | String c prefix', String d s' => bool_decide (c = d) && str_startswith prefix' s'
  | String _ _, EmptyString => false
  end.

(** [sub in s] *)
Fixpoint str_contains (sub s : string) : bool :=
  str_startswith sub s ||
  match s with
  | EmptyString => false
  | String _ s' => str_contains sub s'
  end.

(** [s.endswith(suffix)] *)
Fixpoint str_endswith (suffix s : string) : bool :=
  bool_decide (s = suffix) ||
  match s with
  | EmptyString => false
  | String _ s' => str_endswith suffix s'
  end.

(** [s.replace(old, new)] for a one-character [old] *)
Fixpoint str_replace1 (old : ascii) (new : string) (s : string) : string :=
  match s with
  | EmptyString => EmptyString
  | String c s' =>
      if bool_decide (c = old) then new +:+ str_replace1 old new s'
      else String c (str_replace1 old new s')
  end.

(** ** sample_answer_pages *)

(** [x.replace('{', r'\{').replace('}', r'\}').replace('_', r'\_')],
    lines 142 and 146. *)
Definition latex_escape (s : string) : string :=
  str_replace1 "_" "\_" (str_replace1 "}" "\}" (str_replace1 "{" "\{" s)).

(** The line printed for one row, lines 142-147. *)
Definition latex_row (answer page : string) : string :=
  let answer := latex_escape answer in
  let page :=
    if bool_decide (page = "") then "\textbf{No Mapping Found}"
    else latex_escape page in
  answer +:+ " & " +:+ page +:+ "\\ \hline".

(** The lines printed for the rows the query returned, in order. *)
Definition sample_answer_pages (rows : list (string * string)) : list string :=
  (λ row, latex_row row.1 row.2) <$> rows.

Definition latex_special (c : ascii) : Prop :=
  c = "{"%char ∨ c = "}"%char ∨ c = "_"%char.

#[global] Instance latex_special_dec c : Decision (latex_special c).
Proof. unfold latex_special. apply _. Defined.

(** One pass that puts a backslash before each brace and underscore. *)
Fixpoint escape_pass (s : string) : string :=
  match s with
  | EmptyString => EmptyString
  | String c s' =>
      if decide (latex_special c) then String "\" (String c (escape_pass s'))
      else String c (escape_pass s')
  end.

(** ** get_slurm_config_value and generate_guesser_slurm *)

Definition get_slurm_config_value {V} (name : string)
    (default_config : gmap string V) (guesser_config : option (gmap string V))
    : result V :=
  match guesser_config with
  | None => dict_get StrKey default_config name
  | Some guesser_config =>
      if bool_decide (is_Some (guesser_config !! name))
      then dict_get StrKey guesser_config name
      else dict_get StrKey default_config name
  end.

(** The text files written with [safe_open(path, 'w')] and the commands
    passed to [shell]. *)
Record CliWorld := {
  cli_files : gmap string string;
  cli_shell : list string
}.

Definition write_text (path content : string) : M CliWorld unit :=
  λ w, (Ok tt, {| cli_files := <[path := content]> (cli_files w);
                  cli_shell := cli_shell w |}).

Definition shell (command : string) : M CliWorld unit :=
  λ w, (Ok tt, {| cli_files := cli_files w;
                  cli_shell := cli_shell w ++ [command] |}).

(** [enumerate(l)] *)
Definition enumerate {A} (l : list A) : list (nat * A) :=
  zip (seq 0 (length l)) l.

Section Slurm.

(** A script is rendered from the task, the five fields of the guesser
    spec and the five slurm values; [slurm_config] is the parsed YAML file. *)
Context {GuesserSpec V : Type}.
Variable guesser_class : GuesserSpec → string.
Variable list_enabled_guessers : list GuesserSpec.
Variable render_script : string → GuesserSpec → V → V → V → V → V → string.
Variable render_master : list string → string.

(** [path.join(output_dir, f'slurm-{i}.sh')] *)
Definition slurm_file (output_dir : string) (i : nat) : string :=
  os_path_join output_dir ("slurm-" +:+ pretty i +:+ ".sh").

(** The body of the loop over the enabled guessers, lines 181-207. *)
Definition write_guesser_script (slurm_config : gmap string (gmap string V))
    (default_slurm_config : gmap string V) (task output_dir : string)
    (entry : nat * GuesserSpec) : M CliWorld unit :=
  let '(i, gs) := entry in
  guesser_slurm_config ←
    (if bool_decide (guesser_class gs = "ElasticSearchGuesser") then
       raise ValueError
     else if bool_decide (is_Some (slurm_config !! guesser_class gs)) then
       c ← lift (dict_get StrKey slurm_config (guesser_class gs)); mret (Some c)
     else mret None);
  partition ← lift (get_slurm_config_value "partition" default_slurm_config guesser_slurm_config);
  qos ← lift (get_slurm_config_value "qos" default_slurm_config guesser_slurm_config);
  mem_per_cpu ← lift (get_slurm_config_value "mem_per_cpu" default_slurm_config guesser_slurm_config);
  gres ← lift (get_slurm_config_value "gres" default_slurm_config guesser_slurm_config);
  max_time ← lift (get_slurm_config_value "max_time" default_slurm_config guesser_slurm_config);
  let script := render_script task gs partition qos mem_per_cpu max_time gres in
  write_text (slurm_file output_dir i) script.

Definition generate_guesser_slurm (slurm_config : gmap string (gmap string V))
    (task output_dir : string) : M CliWorld unit :=
  default_slurm_config ← lift (dict_get StrKey slurm_config "default");
  let enabled_guessers := list_enabled_guessers in
  for_ (enumerate enabled_guessers)
       (write_guesser_script slurm_config default_slurm_config task output_dir);;
  let singleton_path := "qanta/slurm/templates/guesser-singleton.sh" in
  let singleton_output := os_path_join output_dir "guesser-singleton.sh" in
  shell ("cp " +:+ singleton_path +:+ " " +:+ singleton_output);;
  let master_script :=
    render_master
      ((slurm_file output_dir <$> seq 0 (length enabled_guessers))
       ++ [singleton_output]) in
  write_text (os_path_join output_dir "slurm-master.sh") master_script.

(** The value of a slurm setting for a guesser: its own entry of the YAML
    file if that has the key, else the default entry. *)
Definition slurm_value (slurm_config : gmap string (gmap string V))
    (default_slurm_config : gmap string V) (gs : GuesserSpec) (name : string)
    : option V :=
  (default ∅ (slurm_config !! guesser_class gs) ∪ default_slurm_config) !! name.

(** The script of a guesser, when all five settings have a value. *)
Definition guesser_script (slurm_config : gmap string (gmap string V))
    (default_slurm_config : gmap string V) (task : string) (gs : GuesserSpec)
    : option string :=
  partition ← slurm_value slurm_config default_slurm_config gs "partition";
  qos ← slurm_value slurm_config default_slurm_config gs "qos";
  mem_per_cpu ← slurm_value slurm_config default_slurm_config gs "mem_per_cpu";
  gres ← slurm_value slurm_config default_slurm_config gs "gres";
  max_time ← slurm_value slurm_config default_slurm_config gs "max_time";
  Some (render_script task gs partition qos mem_per_cpu max_time gres).

(** A guesser the loop body gets through. *)
Definition slurm_ready (slurm_config : gmap string (gmap string V))
    (default_slurm_config : gmap string V) (task : string) (gs : GuesserSpec)
    : Prop :=
  guesser_class gs ≠ "ElasticSearchGuesser" ∧
  is_Some (guesser_script slurm_config default_slurm_config task gs).

End Slurm.

Fixpoint all_digits (s : string) : bool :=
  match s with
  | EmptyString => true
  | String c s' => bool_decide (is_Some (Ascii.is_nat c)) && all_digits s'
  end.

(** ** run_guesser *)

Inductive flow := Continue | Return.

(** A [for] loop whose body may [return] from the function. *)
Fixpoint for_return {S A} (l : list A) (body : A → M S flow) : M S unit :=
  match l with
  | [] => mret tt
  | x :: l' =>
      f ← body x;
      match f with
      | Return => mret tt
      | Continue => for_return l' body
      end
  end.

(** [range(n)] *)
Definition range (n : Z) : list Z := Z.of_nat <$> seq 0 (Z.to_nat n).

Definition run_guesser (n_times workers : Z) (guesser_qualified_class : string)
    : M CliWorld unit :=
  for_return (range n_times) (λ _,
    if negb (str_contains "qanta.guesser" guesser_qualified_class) then
      mret Return
    else
      shell "rm -rf /tmp/qanta";;
      shell ("rm -rf output/guesser/" +:+ guesser_qualified_class);;
      shell ("luigi --local-scheduler --module qanta.pipeline.guesser --workers "
             +:+ pretty workers +:+ " AllSingleGuesserReports");;
      mret Continue).

(** The three commands of one iteration. *)
Definition guesser_commands (workers : Z) (guesser_qualified_class : string)
    : list string :=
  ["rm -rf /tmp/qanta";
   "rm -rf output/guesser/" +:+ guesser_qualified_class;
   "luigi --local-scheduler --module qanta.pipeline.guesser --workers "
   +:+ pretty workers +:+ " AllSingleGuesserReports"].

(** ** export_db *)

(** The dict built by [to_example]. *)
Record QuestionExample := {
  ex_qnum : Z;
  ex_sentences : list string;
  ex_page : Answer;
  ex_fold : string
}.

(** A JSON file: just opened for writing, or holding [{'questions': [...]}]. *)
Inductive json_file :=
  | JsonEmpty
  | JsonQuestions (questions : list QuestionExample).

(** [[f(x) for x in l]] with an [f] that can raise. *)
Fixpoint mapR {A B} (f : A → result B) (l : list A) : result (list B) :=
  match l with
  | [] => Ok []
  | x :: l' =>
      match f x with
      | Raise e => Raise e
      | Ok y =>
          match mapR f l' with
          | Raise e => Raise e
          | Ok ys => Ok (y :: ys)
          end
      end
  end.

Definition to_example (question : Question) : result QuestionExample :=
  match mapR (λ i, list_get (q_text question) i)
             (seq 0 (length (q_text question))) with
  | Raise e => Raise e
  | Ok sentences =>
      Ok {| ex_qnum := q_qnum question; ex_sentences := sentences;
            ex_page := q_page question; ex_fold := q_fold question |}
  end.

(** [safe_open(path, 'w')] leaves an empty file; [json.dump] fills it. *)
Definition safe_open_w (path : string) : M (gmap string json_file) unit :=
  λ fs, (Ok tt, <[path := JsonEmpty]> fs).

Definition json_dump (questions : list QuestionExample) (path : string)
    : M (gmap string json_file) unit :=
  λ fs, (Ok tt, <[path := JsonQuestions questions]> fs).

(** The example of a question: what [to_example] is meant to build. *)
Definition example_of (question : Question) : QuestionExample :=
  {| ex_qnum := q_qnum question; ex_sentences := q_text question;
     ex_page := q_page question; ex_fold := q_fold question |}.

Section Export_db.

(** [QuestionDatabase().location], [db.all_questions().values()] and
    [train_test_split(_, train_size=.9, test_size=.1, random_state=_)]. *)
Variable db_location : string.
Variable all_questions_values : list Question.
Variable train_test_split :
  list QuestionExample → Z → result (list QuestionExample * list QuestionExample).

Definition export_db (fold : list string) (merged_output : bool)
    (random_state : Z) (output_dir : string) : M (gmap string json_file) unit :=
  let fold_set : gset string := list_to_set fold in
  if negb (str_endswith "non_naqt.db" db_location) then raise ValueError
  else
    let questions := filter (λ q, q_fold q ∈ fold_set) all_questions_values in
    if merged_output then
      let path := os_path_join output_dir "quiz-bowl.all.json" in
      safe_open_w path;;
      examples ← lift (mapR to_example questions);
      json_dump examples path
    else
      all_train ← lift (mapR to_example
                          (filter (λ q, str_contains "train" (q_fold q)) questions));
      split ← lift (train_test_split all_train random_state);
      let '(train, val) := split in
      dev ← lift (mapR to_example
                    (filter (λ q, str_contains "dev" (q_fold q)) questions));
      safe_open_w (os_path_join output_dir "quiz-bowl.train.json");;
      json_dump train (os_path_join output_dir "quiz-bowl.train.json");;
      safe_open_w (os_path_join output_dir "quiz-bowl.val.json");;
      json_dump val (os_path_join output_dir "quiz-bowl.val.json");;
      safe_open_w (os_path_join output_dir "quiz-bowl.dev.json");;
      json_dump dev (os_path_join output_dir "quiz-bowl.dev.json").

(** The questions a run selects, and the examples it takes for the train
    pool and for dev. *)
Definition selected (fold : list string) : list Question :=
  filter (λ q, q_fold q ∈ fold) all_questions_values.

Definition train_pool (fold : list string) : list QuestionExample :=
  example_of <$> filter (λ q, str_contains "train" (q_fold q)) (selected fold).

Definition dev_examples (fold : list string) : list QuestionExample :=
  example_of <$> filter (λ q, str_contains "dev" (q_fold q)) (selected fold).

End Export_db.

(** ** More example data *)

Definition example_tables (guesser_class fold : string) : DataFrame (Score := Z) :=
  if bool_decide (guesser_class = "A")
  then [example_row "Napoleon" 9 "dev" "A"; example_row "Caesar" 3 "dev" "A"]
  else [example_row "Napoleon" 9 "dev" "B"].

Definition example_questions : list Question :=
  [example_question;
   {| q_qnum := 8; q_text := ["This general"; "He crossed the Alps"];
      q_page := "Hannibal"; q_fold := "guesstrain" |};
   {| q_qnum := 9; q_text := ["This city"]; q_page := "Carthage";
      q_fold := "test" |}].

(** A split that keeps everything for training. *)
Definition example_split (l : list QuestionExample) (random_state : Z)
    : result (list QuestionExample * list QuestionExample) :=
  Ok (l, []).

(** Guesser specs that are just the class name, string settings, and
    templates that list their arguments. *)
Definition example_render_script (task gs partition qos mem_per_cpu max_time
    gres : string) : string :=
  String.concat " " [task; gs; partition; qos; mem_per_cpu; max_time; gres].

Definition example_render_master (script_list : list string) : string :=
  String.concat " " script_list.

Definition example_default_slurm : gmap string string :=
  {[ "partition" := "dpart"; "qos" := "batch"; "mem_per_cpu" := "4g";
     "gres" := "none"; "max_time" := "1-00:00:00" ]}.

Definition example_slurm_config : gmap string (gmap string string) :=
  {[ "default" := example_default_slurm;
     "DanGuesser" := {[ "gres" := "gpu:1" ]} ]}.

(** * Properties *)

(** ** Paths *)

Lemma string_app_length (s t : string) :
  String.length (s +:+ t) = String.length s + String.length t.
Proof. induction s as [|c s IH]; simpl; [done | by rewrite IH]. Qed.

Lemma string_app_inj_r (t s1 s2 : string) : s1 +:+ t = s2 +:+ t → s1 = s2.
Proof.
  revert s2; induction s1 as [|c s1 IH]; intros [|c' s2] Heq; simpl in *.
  - done.
  - apply (f_equal String.length) in Heq.
    rewrite !string_app_length in Heq; simpl in Heq; lia.
  - apply (f_equal String.length) in Heq.
    rewrite !string_app_length in Heq; simpl in Heq; lia.
  - injection Heq as -> Heq. f_equal. by apply IH.
Qed.

Lemma guesses_filename_inj : Inj (=) (=) guesses_filename.
Proof.
  intros f1 f2 Heq. unfold guesses_filename in Heq.
  apply String.app_inj in Heq. by apply string_app_inj_r in Heq.
Qed.

Lemma guess_path_inj directory : Inj (=) (=) (guess_path directory).
Proof.
  intros f1 f2. unfold guess_path, os_path_join.
  change (startswith_slash (guesses_filename f1)) with false.
  change (startswith_slash (guesses_filename f2)) with false.
  simpl. destruct (bool_decide (directory = "") || endswith_slash directory);
    intros Heq; repeat apply (inj (String.app _)) in Heq;
    by apply string_app_inj_r in Heq.
Qed.

Lemma guess_paths_NoDup directory (folds : list string) :
  NoDup folds → NoDup (guess_path directory <$> folds).
Proof. apply NoDup_fmap_2, guess_path_inj. Qed.

Lemma save_folds_NoDup : NoDup save_folds.
Proof. apply (bool_decide_unpack (NoDup save_folds)). by vm_compute. Qed.

(** ** Lists *)

Lemma elem_of_concat {A} (x : A) (ls : list (list A)) :
  x ∈ concat ls ↔ ∃ l, x ∈ l ∧ l ∈ ls.
Proof.
  induction ls as [|l ls IH]; simpl.
  - split; [by intros ?%elem_of_nil | by intros (? & _ & ?%elem_of_nil)].
  - rewrite elem_of_app, IH. split.
    + intros [?|(l' & ? & ?)]; [exists l | exists l']; split; try done;
        [left | by right].
    + intros (l' & Hx & [->|?]%elem_of_cons); [by left | right; eauto].
Qed.

(** ** The monad *)

Ltac run :=
  unfold mbind, M_bind, bind, mret, M_ret, ret, lift, raise, assert_ in *.

Lemma foldM_cons {S A B} (body : B → A → M S B) b x l s :
  foldM body b (x :: l) s =
  match body b x s with
  | (Ok b', s') => foldM body b' l s'
  | (Raise e, s') => (Raise e, s')
  end.
Proof. done. Qed.

Lemma foldR_cons {A B} (body : B → A → result B) b x l :
  foldR body b (x :: l) =
  match body b x with
  | Ok b' => foldR body b' l
  | Raise e => Raise e
  end.
Proof. done. Qed.

Lemma foldM_app {S A B} (body : B → A → M S B) b l1 l2 s :
  foldM body b (l1 ++ l2) s =
  match foldM body b l1 s with
  | (Ok b', s') => foldM body b' l2 s'
  | (Raise e, s') => (Raise e, s')
  end.
Proof.
  revert b s; induction l1 as [|x l1 IH]; intros b s; [done|].
  rewrite <-app_comm_cons, !foldM_cons.
  destruct (body b x s) as [[b'|e] s']; [apply IH | done].
Qed.

(** A loop whose body never writes gives the same result in two stores in
    which every iteration does. *)
Lemma foldM_agree {S A B} (body : B → A → M S B) l s1 s2 :
  (∀ b x s, (body b x s).2 = s) →
  (∀ b x, x ∈ l → (body b x s1).1 = (body b x s2).1) →
  ∀ b, (foldM body b l s1).1 = (foldM body b l s2).1.
Proof.
  intros Hst; induction l as [|x l IH]; intros Hbody b; [done|].
  rewrite !foldM_cons.
  pose proof (Hst b x s1) as H1. pose proof (Hst b x s2) as H2.
  pose proof (Hbody b x) as Hx.
  destruct (body b x s1) as [r1 s1'], (body b x s2) as [r2 s2'].
  simpl in *. subst s1' s2'. rewrite <-Hx by left.
  destruct r1 as [b'|e]; [|done]. apply IH. intros; apply Hbody; by right.
Qed.

(** A loop whose body never writes leaves the store as it was. *)
Lemma foldM_store {S A B} (body : B → A → M S B) b l s :
  (∀ b x s, (body b x s).2 = s) → (foldM body b l s).2 = s.
Proof.
  intros Hbody; revert b s; induction l as [|x l IH]; intros b s; [done|].
  rewrite foldM_cons. specialize (Hbody b x s).
  destruct (body b x s) as [[b'|e] s']; simpl in Hbody; subst s'; [apply IH | done].
Qed.

Section Persistence_properties.

Context {Score : Type} `{!EqDecision Score}.
Implicit Types (fs : gmap string (pyobj (Score := Score))).
Implicit Types (guess_df t : DataFrame (Score := Score)).
Implicit Types (directory fold : string) (folds : list string).

(** *** save_guesses *)

Lemma save_guesses_run guess_df directory fs :
  save_guesses guess_df directory fs =
  (Ok tt, foldl (write_fold guess_df directory) fs save_folds).
Proof. done. Qed.

Lemma write_folds_other guess_df directory folds fs p :
  p ∉ guess_path directory <$> folds →
  foldl (write_fold guess_df directory) fs folds !! p = fs !! p.
Proof.
  revert fs; induction folds as [|f folds IH]; intros fs Hp; [done|].
  rewrite fmap_cons, not_elem_of_cons in Hp. destruct Hp as [Hne Hp].
  simpl. rewrite IH by done. unfold write_fold. by rewrite lookup_insert_ne.
Qed.

Lemma write_folds_lookup guess_df directory folds fs fold :
  NoDup folds → fold ∈ folds →
  foldl (write_fold guess_df directory) fs folds !! guess_path directory fold
  = Some (PyDataFrame (select_fold guess_df fold)).
Proof.
  revert fs; induction folds as [|f folds IH]; intros fs Hnd Hin.
  - by apply elem_of_nil in Hin.
  - apply NoDup_cons in Hnd as [Hf Hnd]. simpl.
    destruct (decide (fold ∈ folds)) as [Hin'|Hnin]; [by apply IH|].
    apply elem_of_cons in Hin as [->|?]; [|done].
    rewrite write_folds_other.
    + unfold write_fold. by rewrite lookup_insert_eq.
    + intros [f' [Heq Hf']]%list_elem_of_fmap.
      apply guess_path_inj in Heq. by subst.
Qed.

Lemma elem_of_select_fold guess_df fold (r : Row) :
  r ∈ select_fold guess_df fold ↔ r ∈ guess_df ∧ row_fold r = fold.
Proof. unfold select_fold. rewrite list_elem_of_filter. tauto. Qed.

(** *** load_guesses *)

Lemma read_pickle_store path fs : (read_pickle path fs).2 = fs.
Proof. unfold read_pickle. by destruct (fs !! path). Qed.

Lemma load_fold_store directory o fold fs : (load_fold directory o fold fs).2 = fs.
Proof.
  unfold load_fold. destruct (is_None o); [apply read_pickle_store|].
  run. pose proof (read_pickle_store (guess_path directory fold) fs) as Hr.
  destruct (read_pickle _ fs) as [[new|e] s']; simpl in *; by subst.
Qed.

Lemma load_guesses_store directory folds fs :
  (load_guesses directory folds fs).2 = fs.
Proof.
  unfold load_guesses. run. destruct (0 <? length folds)%nat; [|done].
  apply foldM_store. intros; apply load_fold_store.
Qed.

Lemma load_guesses_nil directory fs :
  load_guesses directory [] fs = (Raise AssertionError, fs).
Proof. done. Qed.

Lemma load_guesses_cons directory fold folds fs :
  load_guesses directory (fold :: folds) fs =
  foldM (load_fold directory) PyNone (fold :: folds) fs.
Proof. done. Qed.

(** Reading on from a table, through files that all hold tables. *)
Lemma load_loop_tables directory folds (ts : list DataFrame) acc fs :
  Forall2 (λ f t, fs !! guess_path directory f = Some (PyDataFrame t)) folds ts →
  foldM (load_fold directory) (PyDataFrame acc) folds fs
  = (Ok (PyDataFrame (acc ++ concat ts)), fs).
Proof.
  intros Hall; revert acc; induction Hall as [|f t folds ts Hf _ IH]; intros acc.
  - simpl. by rewrite app_nil_r.
  - rewrite foldM_cons. unfold load_fold at 1; simpl. run.
    unfold read_pickle. rewrite Hf; simpl.
    rewrite IH. by rewrite <-app_assoc.
Qed.

Lemma load_guesses_tables directory folds (ts : list DataFrame) fs :
  folds ≠ [] →
  Forall2 (λ f t, fs !! guess_path directory f = Some (PyDataFrame t)) folds ts →
  load_guesses directory folds fs = (Ok (PyDataFrame (concat ts)), fs).
Proof.
  intros Hne Hall. destruct Hall as [|f t folds ts Hf Hall]; [done|].
  rewrite load_guesses_cons, foldM_cons.
  unfold load_fold at 1; simpl. unfold read_pickle. rewrite Hf.
  by apply load_loop_tables.
Qed.

(** The first absent file stops the loop with its path. *)
Lemma load_guesses_absent directory pre fold post (ts : list DataFrame) fs :
  Forall2 (λ f t, fs !! guess_path directory f = Some (PyDataFrame t)) pre ts →
  fs !! guess_path directory fold = None →
  load_guesses directory (pre ++ fold :: post) fs
  = (Raise (FileNotFoundError (guess_path directory fold)), fs).
Proof.
  intros Hall Hf. destruct Hall as [|f t pre ts Hf' Hall].
  - simpl. rewrite load_guesses_cons, foldM_cons.
    unfold load_fold; simpl. unfold read_pickle. by rewrite Hf.
  - rewrite <-app_comm_cons, load_guesses_cons, foldM_cons.
    unfold load_fold at 1; simpl. unfold read_pickle at 1. rewrite Hf'.
    rewrite foldM_app, (load_loop_tables _ _ ts) by done.
    rewrite foldM_cons. unfold load_fold at 1; simpl. run.
    unfold read_pickle. by rewrite Hf.
Qed.

(** Whatever the other files hold, an absent file makes the load fail. *)
Lemma load_loop_absent_fails directory folds fold acc fs :
  fold ∈ folds → fs !! guess_path directory fold = None →
  ∃ e, foldM (load_fold directory) acc folds fs = (Raise e, fs).
Proof.
  intros Hin Hf; revert acc; induction folds as [|f folds IH]; intros acc.
  - by apply elem_of_nil in Hin.
  - rewrite foldM_cons.
    pose proof (load_fold_store directory acc f fs) as Hst.
    destruct (load_fold directory acc f fs) as [[o|e] s'] eqn:Hstep;
      simpl in Hst; subst s'; [|by eexists].
    apply elem_of_cons in Hin as [->|Hin]; [|by apply IH].
    exfalso. unfold load_fold in Hstep. run.
    destruct (is_None acc); unfold read_pickle in Hstep; by rewrite Hf in Hstep.
Qed.

(** Every row of a loaded table was read from one of the requested files. *)
Lemma load_loop_rows directory folds acc fs t fs' (r : Row) :
  foldM (load_fold directory) acc folds fs = (Ok (PyDataFrame t), fs') →
  r ∈ t →
  (∃ x, acc = PyDataFrame x ∧ r ∈ x) ∨
  (∃ fold t0, fold ∈ folds ∧
     fs !! guess_path directory fold = Some (PyDataFrame t0) ∧ r ∈ t0).
Proof.
  revert acc; induction folds as [|f folds IH]; intros acc Hrun Hr.
  - simpl in Hrun. injection Hrun as -> _. left; eauto.
  - rewrite foldM_cons in Hrun.
    pose proof (load_fold_store directory acc f fs) as Hst.
    destruct (load_fold directory acc f fs) as [[o|e] s'] eqn:Hstep;
      simpl in Hst; subst s'; [|done].
    destruct (IH _ Hrun Hr) as [(x & -> & Hx)|(fold & t0 & Hin & Hf & Ht0)].
    + unfold load_fold in Hstep. run. unfold read_pickle in Hstep.
      destruct acc as [|a|m|l]; simpl in Hstep;
        destruct (fs !! guess_path directory f) as [new|] eqn:Hf; try done.
      * injection Hstep as ->. right. exists f, x. set_solver.
      * destruct new as [|y|m|l]; simpl in Hstep; try done.
        -- injection Hstep as <-. left; eauto.
        -- injection Hstep as <-. apply elem_of_app in Hx as [Hx|Hx].
           ++ left; eauto.
           ++ right. exists f, y. set_solver.
    + right. exists fold, t0. set_solver.
Qed.

Lemma load_guesses_rows directory folds fs t fs' (r : Row) :
  load_guesses directory folds fs = (Ok (PyDataFrame t), fs') →
  r ∈ t →
  ∃ fold t0, fold ∈ folds ∧
    fs !! guess_path directory fold = Some (PyDataFrame t0) ∧ r ∈ t0.
Proof.
  intros Hrun Hr. destruct folds as [|f folds]; [done|].
  rewrite load_guesses_cons in Hrun.
  destruct (load_loop_rows _ _ _ _ _ _ _ Hrun Hr) as [(x & ? & _)|?]; done.
Qed.

(** C6: for every guess table and directory, [save_guesses] writes one file
    per fold of train, dev, test, devtest; the four paths, given by
    [guess_path], are distinct; the file of a fold holds exactly the rows of
    the table with that fold, in table order; a fold without rows gets a file
    with an empty table; no other path is touched. *)
Theorem save_guesses_one_file_per_fold guess_df directory fs :
  ∃ fs', save_guesses guess_df directory fs = (Ok tt, fs') ∧
    save_folds = ["train"; "dev"; "test"; "devtest"] ∧
    NoDup (guess_path directory <$> save_folds) ∧
    (∀ fold, fold ∈ save_folds →
       ∃ t, fs' !! guess_path directory fold = Some (PyDataFrame t) ∧
            t = filter (λ r, row_fold r = fold) guess_df ∧
            (∀ r, r ∈ t ↔ r ∈ guess_df ∧ row_fold r = fold) ∧
            ((∀ r, r ∈ guess_df → row_fold r ≠ fold) → t = [])) ∧
    (∀ p, p ∉ guess_path directory <$> save_folds → fs' !! p = fs !! p).
Proof.
  eexists. split; [apply save_guesses_run|].
  split; [done|]. split; [apply guess_paths_NoDup, save_folds_NoDup|].
  split.
  - intros fold Hin. exists (select_fold guess_df fold).
    split; [by apply write_folds_lookup; [apply save_folds_NoDup|]|].
    split; [done|]. split; [apply elem_of_select_fold|].
    intros Hnone. destruct (select_fold guess_df fold) as [|r t] eqn:Hsel; [done|].
    assert (r ∈ select_fold guess_df fold) as Hr by (rewrite Hsel; left).
    apply elem_of_select_fold in Hr as [Hr Hfold]. by destruct (Hnone r).
  - intros p Hp. by apply write_folds_other.
Qed.

(** C4: saving a table and loading a non-empty selection of the four saved
    folds gives a table with the same set of rows as the rows of the saved
    table whose fold is in the selection. *)
Theorem save_load_round_trip guess_df directory folds fs :
  folds ≠ [] → folds ⊆ save_folds →
  ∃ fs' t, save_guesses guess_df directory fs = (Ok tt, fs') ∧
    load_guesses directory folds fs' = (Ok (PyDataFrame t), fs') ∧
    ∀ r, r ∈ t ↔ r ∈ guess_df ∧ row_fold r ∈ folds.
Proof.
  intros Hne Hsub. eexists; exists (concat (select_fold guess_df <$> folds)).
  split; [apply save_guesses_run|]. split.
  - apply load_guesses_tables; [done|]. apply Forall2_fmap_r, Forall_Forall2_diag.
    apply Forall_forall; intros f Hf.
    apply write_folds_lookup; [apply save_folds_NoDup | by apply Hsub].
  - intros r. rewrite elem_of_concat. split.
    + intros (t & Hr & (f & -> & Hf)%list_elem_of_fmap).
      apply elem_of_select_fold in Hr as [? <-]. done.
    + intros [Hr Hf]. exists (select_fold guess_df (row_fold r)).
      split; [by apply elem_of_select_fold|]. apply list_elem_of_fmap; eauto.
Qed.

(** C5: [load_guesses] fails its assertion on an empty fold list; when the
    requested files hold tables it returns them concatenated in the order
    requested; the first requested file that is absent raises
    [FileNotFoundError] with its path; and whatever the files hold, a load
    with an absent requested file ends in an exception, never in a table.
    The store is never changed. *)
Theorem load_guesses_spec directory folds fs :
  (folds = [] → load_guesses directory folds fs = (Raise AssertionError, fs)) ∧
  (∀ ts : list DataFrame,
     folds ≠ [] →
     Forall2 (λ f t, fs !! guess_path directory f = Some (PyDataFrame t)) folds ts →
     load_guesses directory folds fs = (Ok (PyDataFrame (concat ts)), fs)) ∧
  (∀ pre fold post (ts : list DataFrame),
     folds = pre ++ fold :: post →
     Forall2 (λ f t, fs !! guess_path directory f = Some (PyDataFrame t)) pre ts →
     fs !! guess_path directory fold = None →
     load_guesses directory folds fs
     = (Raise (FileNotFoundError (guess_path directory fold)), fs)) ∧
  (∀ fold, fold ∈ folds → fs !! guess_path directory fold = None →
     ∃ e, load_guesses directory folds fs = (Raise e, fs)).
Proof.
  repeat split.
  - by intros ->.
  - intros ts Hne Hall. by apply load_guesses_tables.
  - intros pre fold post ts -> Hall Hf. by apply load_guesses_absent with ts.
  - intros fold Hin Hf. destruct folds as [|f folds]; [by apply elem_of_nil in Hin|].
    rewrite load_guesses_cons. by apply load_loop_absent_fails with fold.
Qed.

(** C9: a row whose fold is none of train, dev, test, devtest is in no file
    that [save_guesses] writes: a file that holds it afterwards is a file
    that was there before and was left alone.  So a later [load_guesses] on
    the directory returns the row only from such a file, for a fold outside
    the four; if no table in the directory held the row before, no load
    returns it. *)
Theorem save_guesses_drops_other_folds guess_df directory fs (r : Row) :
  r ∈ guess_df → row_fold r ∉ save_folds →
  ∃ fs', save_guesses guess_df directory fs = (Ok tt, fs') ∧
    (∀ p t, fs' !! p = Some (PyDataFrame t) → r ∈ t →
       (p ∉ guess_path directory <$> save_folds) ∧ fs !! p = fs' !! p) ∧
    (∀ folds t fs'',
       load_guesses directory folds fs' = (Ok (PyDataFrame t), fs'') → r ∈ t →
       ∃ fold t0, fold ∈ folds ∧ (fold ∉ save_folds) ∧
         fs !! guess_path directory fold = Some (PyDataFrame t0) ∧ r ∈ t0) ∧
    ((∀ fold t0,
        fs !! guess_path directory fold = Some (PyDataFrame t0) → r ∉ t0) →
     ∀ folds t fs'',
       load_guesses directory folds fs' = (Ok (PyDataFrame t), fs'') → r ∉ t).
Proof.
  intros Hr Hfold. eexists. split; [apply save_guesses_run|].
  assert (∀ p t,
    foldl (write_fold guess_df directory) fs save_folds !! p
      = Some (PyDataFrame t) →
    r ∈ t →
    (p ∉ guess_path directory <$> save_folds) ∧
    fs !! p = foldl (write_fold guess_df directory) fs save_folds !! p)
    as Hfiles.
  { intros p t Hp Hin.
    destruct (decide (p ∈ guess_path directory <$> save_folds)) as [Hw|Hw].
    - apply list_elem_of_fmap in Hw as (f & -> & Hf).
      rewrite write_folds_lookup in Hp by (done || apply save_folds_NoDup).
      injection Hp as <-. apply elem_of_select_fold in Hin as [_ Heq].
      by subst f.
    - split; [done|]. by rewrite write_folds_other. }
  assert (∀ folds t fs'',
    load_guesses directory folds
      (foldl (write_fold guess_df directory) fs save_folds)
      = (Ok (PyDataFrame t), fs'') → r ∈ t →
    ∃ fold t0, fold ∈ folds ∧ (fold ∉ save_folds) ∧
      fs !! guess_path directory fold = Some (PyDataFrame t0) ∧ r ∈ t0)
    as Hload.
  { intros folds t fs'' Hrun Hin.
    destruct (load_guesses_rows _ _ _ _ _ _ Hrun Hin) as (f & t0 & Hf & Hp & Hin0).
    destruct (Hfiles _ _ Hp Hin0) as [Hw Hsame].
    exists f, t0. split; [done|]. split; [|by rewrite Hsame].
    intros Hsaved. apply Hw, list_elem_of_fmap. eauto. }
  split; [done|]. split; [done|].
  intros Hold folds t fs'' Hrun Hin.
  destruct (Hload _ _ _ Hrun Hin) as (f & t0 & _ & _ & Hp & Hin0).
  by apply (Hold f t0).
Qed.

(** Loading looks at the requested files only. *)
Lemma load_guesses_agree directory folds fs1 fs2 :
  (∀ fold, fold ∈ folds →
     fs1 !! guess_path directory fold = fs2 !! guess_path directory fold) →
  (load_guesses directory folds fs1).1 = (load_guesses directory folds fs2).1.
Proof.
  intros Hagree. unfold load_guesses. run.
  destruct (0 <? length folds)%nat; [|done].
  apply foldM_agree; [intros; apply load_fold_store|].
  intros o fold Hin. unfold load_fold. run.
  destruct (is_None o); unfold read_pickle; rewrite (Hagree fold Hin);
    by destruct (fs2 !! guess_path directory fold).
Qed.

End Persistence_properties.

Section Generation_properties.

Context {Score : Type} `{!EqDecision Score} `{!AbstractGuesser (Score := Score) G}.
Variable partials : Question → list (Z * Z * list string).
Variable questions_by_fold : gmap string (list Question).

Implicit Types (ps batch : list Prefix) (rows : DataFrame (Score := Score)).
Implicit Types (st : Run G) (folds : list string).

Local Abbreviation flattened_batch := (flattened_batch partials questions_by_fold).
Local Abbreviation generate_guesses := (generate_guesses partials questions_by_fold).
Local Abbreviation collect_fold := (collect_fold partials questions_by_fold).

(** *** The first loop *)

Lemma add_partial_batch_of fold q ps p :
  add_partial fold q (batch_of ps) p = batch_of (ps ++ [prefix_of fold q p]).
Proof.
  destruct p as [[sent token] text_list]. unfold add_partial, batch_of; simpl.
  by rewrite !fmap_app.
Qed.

Lemma collect_partials fold q ps (l : list (Z * Z * list string)) :
  foldl (add_partial fold q) (batch_of ps) l
  = batch_of (ps ++ (prefix_of fold q <$> l)).
Proof.
  revert ps; induction l as [|p l IH]; intros ps; simpl.
  - by rewrite app_nil_r.
  - rewrite add_partial_batch_of, IH. by rewrite <-app_assoc.
Qed.

Lemma collect_questions fold ps (qs : list Question) :
  foldl (λ b q, foldl (add_partial fold q) b (partials q)) (batch_of ps) qs
  = batch_of (ps ++ flat_map (λ q, prefix_of fold q <$> partials q) qs).
Proof.
  revert ps; induction qs as [|q qs IH]; intros ps; simpl.
  - by rewrite app_nil_r.
  - rewrite collect_partials, IH. by rewrite <-app_assoc.
Qed.

Lemma collect_folds folds ps st :
  (∀ fold, fold ∈ folds → is_Some (questions_by_fold !! fold)) →
  foldM collect_fold (batch_of ps) folds st
  = (Ok (batch_of (ps ++ flattened_batch folds)), st).
Proof.
  revert ps; induction folds as [|fold folds IH]; intros ps Hkeys.
  - simpl. by rewrite app_nil_r.
  - rewrite foldM_cons. unfold collect_fold at 1, dict_get. run.
    destruct (Hkeys fold) as [qs Hqs]; [left|]. rewrite Hqs.
    rewrite collect_questions, IH by (intros; apply Hkeys; by right).
    simpl. by rewrite Hqs, <-app_assoc.
Qed.

(** A fold that the question source does not know stops the run before
    [guess] is called. *)
Lemma collect_folds_unknown pre fold post ps st :
  (∀ f, f ∈ pre → is_Some (questions_by_fold !! f)) →
  questions_by_fold !! fold = None →
  foldM collect_fold (batch_of ps) (pre ++ fold :: post) st
  = (Raise (KeyError (StrKey fold)), st).
Proof.
  intros Hpre Hfold. rewrite foldM_app, collect_folds by done.
  rewrite foldM_cons. unfold collect_fold at 1, dict_get. run. by rewrite Hfold.
Qed.

(** *** The second loop *)

Lemma add_guess_columns_of name p rows (gs : Answer * Score) :
  add_guess (p_qnum p) (p_sentence p) (p_token p) (p_fold p) name
            (columns_of rows) gs
  = columns_of (rows ++ [stamp name p gs]).
Proof.
  destruct gs as [guess score]. unfold add_guess, columns_of; simpl.
  by rewrite !fmap_app.
Qed.

Lemma expand_guesses name p rows (l : list (Answer * Score)) :
  foldl (add_guess (p_qnum p) (p_sentence p) (p_token p) (p_fold p) name)
        (columns_of rows) l
  = columns_of (rows ++ (stamp name p <$> l)).
Proof.
  revert rows; induction l as [|gs l IH]; intros rows; simpl.
  - by rewrite app_nil_r.
  - rewrite add_guess_columns_of, IH. by rewrite <-app_assoc.
Qed.

Lemma expand_position_run batch res name rows i p gs st :
  batch !! i = Some p → res !! i = Some gs →
  expand_position (batch_of batch) res name (columns_of rows) i st
  = (Ok (columns_of (rows ++ (stamp name p <$> gs))), st).
Proof.
  intros Hp Hgs. unfold expand_position, list_get. run. simpl.
  rewrite Hgs, !list_lookup_fmap, Hp. simpl. by rewrite expand_guesses.
Qed.

Lemma expand_positions batch res name len : ∀ start rows st,
  start + len ≤ length batch → start + len ≤ length res →
  foldM (expand_position (batch_of batch) res name) (columns_of rows)
        (seq start len) st
  = (Ok (columns_of
           (rows ++ expanded_rows name (take len (drop start batch))
                                       (take len (drop start res)))), st).
Proof.
  induction len as [|len IH]; intros start rows st Hb Hr.
  - simpl. unfold expanded_rows. by rewrite !take_0, app_nil_r.
  - destruct (lookup_lt_is_Some_2 batch start) as [p Hp]; [lia|].
    destruct (lookup_lt_is_Some_2 res start) as [gs Hgs]; [lia|].
    simpl seq. rewrite foldM_cons, (expand_position_run _ _ _ _ _ p gs) by done.
    rewrite IH by lia.
    rewrite (drop_S batch p start), (drop_S res gs start) by done.
    unfold expanded_rows. simpl. by rewrite <-app_assoc.
Qed.

Lemma zip_rows_columns_of rows :
  zip_rows (row_qnum <$> rows) (row_sentence <$> rows) (row_token <$> rows)
           (row_guess <$> rows) (row_score <$> rows) (row_fold <$> rows)
           (row_guesser <$> rows) = rows.
Proof.
  induction rows as [|[] rows IH]; csimpl; [done|]. by rewrite IH.
Qed.

Lemma pd_DataFrame_columns_of rows : pd_DataFrame (columns_of rows) = Ok rows.
Proof.
  unfold pd_DataFrame, columns_of.
  cbn [df_qnums df_sentences df_tokens df_guesses df_scores df_folds df_guessers].
  rewrite !length_fmap, bool_decide_true by done.
  by rewrite zip_rows_columns_of.
Qed.

(** An index past the end of the batch: [q_folds[i]] raises, or
    [guesses_per_question[i]] before it. *)
Lemma expand_position_past_end batch (res : list (list (Answer * Score))) name
    (c : Columns (Score := Score)) i st :
  length batch ≤ i →
  expand_position (batch_of batch) res name c i st = (Raise IndexError, st).
Proof.
  intros Hi. unfold expand_position, list_get. run. simpl.
  destruct (res !! i); [|done].
  by rewrite list_lookup_fmap, (lookup_ge_None_2 batch i).
Qed.

Lemma expand_positions_past_end batch (res : list (list (Answer * Score))) name n st :
  length batch < n → length batch ≤ length res →
  foldM (expand_position (batch_of batch) res name) (columns_of []) (seq 0 n) st
  = (Raise IndexError, st).
Proof.
  intros Hn Hres.
  replace n with (length batch + S (n - S (length batch))) by lia.
  rewrite seq_app, foldM_app, expand_positions by (simpl; lia).
  simpl seq. by rewrite foldM_cons, expand_position_past_end by (simpl; lia).
Qed.

Lemma expanded_rows_take name batch (res : list (list (Answer * Score))) :
  expanded_rows name (take (length res) batch) res = expanded_rows name batch res.
Proof.
  unfold expanded_rows. revert batch.
  induction res as [|gs res IH]; intros [|p batch]; simpl; try done.
  by rewrite IH.
Qed.

(** *** The whole run *)

Lemma generate_guesses_run max_n_guesses folds g calls :
  (∀ fold, fold ∈ folds → is_Some (questions_by_fold !! fold)) →
  let batch := flattened_batch folds in
  let texts := p_text <$> batch in
  let out := guess g texts max_n_guesses in
  generate_guesses max_n_guesses folds {| self := g; guess_calls := calls |}
  = (match returned out with
     | Raise e => Raise e
     | Ok res =>
         if decide (length res = length (questions_after out))
         then if decide (length (questions_after out) ≤ length batch)
              then Ok (expanded_rows (display_name (guesser_after out)) batch res)
              else Raise IndexError
         else Raise AssertionError
     end,
     {| self := guesser_after out;
        guess_calls := calls ++ [(texts, max_n_guesses)] |}).
Proof.
  intros Hkeys batch texts out. unfold generate_guesses.
  unfold mbind at 1, M_bind at 1, bind at 1.
  change empty_batch with (batch_of []). rewrite collect_folds by done.
  rewrite app_nil_l. fold batch. simpl question_texts. fold texts.
  unfold mbind at 1, M_bind at 1, bind at 1, call_guess at 1; simpl self.
  fold out. destruct (returned out) as [res|e]; [|done].
  cbn [fst snd guess_calls].
  unfold mbind at 1, M_bind at 1, bind at 1, assert_.
  destruct (decide (length res = length (questions_after out))) as [Hlen|Hlen];
    [|by rewrite (proj2 (Nat.eqb_neq _ _) Hlen)].
  rewrite (proj2 (Nat.eqb_eq _ _) Hlen). unfold ret at 1.
  unfold mbind at 1, M_bind at 1, bind at 1, get_display_name at 1; simpl self.
  unfold mbind at 1, M_bind at 1, bind at 1.
  change empty_columns with (columns_of (Score := Score) []).
  destruct (decide (length (questions_after out) ≤ length batch)) as [Hle|Hgt].
  - rewrite expand_positions by (simpl; lia).
    rewrite !drop_0, app_nil_l, <-Hlen, firstn_all, expanded_rows_take.
    unfold lift. by rewrite pd_DataFrame_columns_of.
  - by rewrite expand_positions_past_end by lia.
Qed.

(** *** Shape of the expanded table *)

Lemma length_expanded_rows name batch (res : list (list (Answer * Score))) :
  length res ≤ length batch →
  length (expanded_rows name batch res) = sum_list (length <$> res).
Proof.
  unfold expanded_rows. revert batch; induction res as [|gs res IH];
    intros [|p batch] Hlen; simpl in *; try done; try lia.
  rewrite length_app, length_fmap, IH; [done | lia].
Qed.

Lemma expanded_rows_split name batch (res : list (list (Answer * Score))) i p gs :
  batch !! i = Some p → res !! i = Some gs →
  expanded_rows name batch res
  = expanded_rows name (take i batch) (take i res)
    ++ (stamp name p <$> gs)
    ++ expanded_rows name (drop (S i) batch) (drop (S i) res).
Proof.
  intros Hp Hgs. unfold expanded_rows.
  rewrite <-(take_drop_middle batch i p) at 1 by done.
  rewrite <-(take_drop_middle res i gs) at 1 by done.
  rewrite zip_with_app, concat_app; [done|].
  apply lookup_lt_Some in Hp, Hgs. rewrite !length_take. lia.
Qed.

Lemma stamp_guess_score name p (gs : list (Answer * Score)) :
  (λ r, (row_guess r, row_score r)) <$> (stamp name p <$> gs) = gs.
Proof.
  induction gs as [|[a sc] gs IH]; csimpl; [done|]. by rewrite IH.
Qed.

(** C2: when the requested folds are folds of the question source and the
    guesser answers with one list per text of the list it was handed, as it
    left it, [generate_guesses] calls [guess] once, on the flattened batch of
    all prefix texts with [max_n_guesses]; the table has, for each batch
    position in order, one row per returned pair, stamped with the
    position's fold, qnum, sentence and token and the guesser's display
    name; so it has as many rows as pairs were returned, also where a
    position got few pairs or none.  A guesser that leaves the number of
    texts as it is answers so exactly when it returns one list per text of
    the batch. *)
Theorem generate_guesses_single_batch max_n_guesses folds g calls res :
  (∀ fold, fold ∈ folds → is_Some (questions_by_fold !! fold)) →
  let batch := flattened_batch folds in
  let texts := p_text <$> batch in
  let out := guess g texts max_n_guesses in
  let g' := guesser_after out in
  returned out = Ok res →
  length res = length (questions_after out) →
  length (questions_after out) ≤ length batch →
  ∃ df,
    generate_guesses max_n_guesses folds {| self := g; guess_calls := calls |}
    = (Ok df, {| self := g';
                 guess_calls := calls ++ [(texts, max_n_guesses)] |}) ∧
    df = concat (zip_with (λ p gs, stamp (display_name g') p <$> gs) batch res) ∧
    length df = sum_list (length <$> res) ∧
    (∀ r, r ∈ df ↔
       ∃ i p gs a, batch !! i = Some p ∧ res !! i = Some gs ∧ a ∈ gs ∧
                   r = stamp (display_name g') p a).
Proof.
  intros Hkeys batch texts out g' Hres Hlen Hle.
  exists (expanded_rows (display_name g') batch res).
  split; [|split; [done|split]].
  - rewrite generate_guesses_run by done. fold batch texts out g'.
    by rewrite Hres, !decide_True.
  - apply length_expanded_rows. lia.
  - intros r. unfold expanded_rows. rewrite elem_of_concat. split.
    + intros (l & Hr & Hl). apply list_elem_of_lookup in Hl as [i Hi].
      apply lookup_zip_with_Some in Hi as (p & gs & -> & Hp & Hgs).
      apply list_elem_of_fmap in Hr as (a & -> & Ha). by exists i, p, gs, a.
    + intros (i & p & gs & a & Hp & Hgs & Ha & ->).
      exists (stamp (display_name g') p <$> gs). split.
      * apply list_elem_of_fmap; eauto.
      * apply list_elem_of_lookup. exists i.
        apply lookup_zip_with_Some. by exists p, gs.
Qed.

(** C3, as amended: when the requested folds are folds of the question
    source and [guess] returns, [generate_guesses] fails with
    [AssertionError], after the one call of [guess], exactly when the
    returned list is not as long as the list of texts is after the call.
    For a guesser that leaves the number of texts as it is, that is the
    length of the batch: the run fails with [AssertionError] if the returned
    list has any other length, and returns a table if it has that length. *)
Theorem generate_guesses_length_assertion max_n_guesses folds g calls res :
  (∀ fold, fold ∈ folds → is_Some (questions_by_fold !! fold)) →
  let batch := flattened_batch folds in
  let texts := p_text <$> batch in
  let out := guess g texts max_n_guesses in
  let run := generate_guesses max_n_guesses folds
               {| self := g; guess_calls := calls |} in
  let st' := {| self := guesser_after out;
                guess_calls := calls ++ [(texts, max_n_guesses)] |} in
  returned out = Ok res →
  (length res ≠ length (questions_after out) ↔
   run = (Raise AssertionError, st')) ∧
  (length (questions_after out) = length texts →
     (length res ≠ length texts → run = (Raise AssertionError, st')) ∧
     (length res = length texts → ∃ df, run = (Ok df, st'))).
Proof.
  intros Hkeys batch texts out run st' Hres. unfold run.
  rewrite generate_guesses_run by done. fold batch texts out st'.
  rewrite Hres. unfold texts. rewrite length_fmap. split; [split|].
  - intros Hlen. by rewrite decide_False.
  - intros Hrun Hlen. rewrite decide_True in Hrun by done.
    by destruct (decide (length (questions_after out) ≤ length batch)).
  - intros Hsame. rewrite Hsame. split; intros Hlen.
    + by rewrite decide_False.
    + rewrite !decide_True by lia. by eexists.
Qed.

(** C10: under the same conditions as for C2, the pairs returned for a batch
    position appear in the table as one contiguous run of rows, all of them
    and in the order returned, whatever their number and their scores; the
    run starts after the rows of the earlier positions. *)
Theorem generate_guesses_keeps_all_pairs max_n_guesses folds g calls res i p gs :
  (∀ fold, fold ∈ folds → is_Some (questions_by_fold !! fold)) →
  let batch := flattened_batch folds in
  let texts := p_text <$> batch in
  let out := guess g texts max_n_guesses in
  let g' := guesser_after out in
  returned out = Ok res →
  length res = length (questions_after out) →
  length (questions_after out) ≤ length batch →
  batch !! i = Some p → res !! i = Some gs →
  ∃ df before run after,
    generate_guesses max_n_guesses folds {| self := g; guess_calls := calls |}
    = (Ok df, {| self := g';
                 guess_calls := calls ++ [(texts, max_n_guesses)] |}) ∧
    df = before ++ run ++ after ∧
    length before = sum_list (length <$> take i res) ∧
    run = stamp (display_name g') p <$> gs ∧
    (λ r, (row_guess r, row_score r)) <$> run = gs.
Proof.
  intros Hkeys batch texts out g' Hres Hlen Hle Hp Hgs.
  exists (expanded_rows (display_name g') batch res),
         (expanded_rows (display_name g') (take i batch) (take i res)),
         (stamp (display_name g') p <$> gs),
         (expanded_rows (display_name g') (drop (S i) batch) (drop (S i) res)).
  split; [|split; [|split; [|split]]].
  - rewrite generate_guesses_run by done. fold batch texts out g'.
    by rewrite Hres, !decide_True.
  - by apply expanded_rows_split.
  - apply length_expanded_rows. rewrite !length_take. lia.
  - done.
  - apply stamp_guess_score.
Qed.

End Generation_properties.

Section Grouping_properties.

Context {Score : Type} `{!EqDecision Score}.
Implicit Types (df group : DataFrame (Score := Score)).

(** *** groupby *)

Section groupby.
Context {K : Type} `{!EqDecision K} (key : Row (Score := Score) → K).
Context (le : K → K → Prop) `{!∀ x y, Decision (le x y)}.

Lemma groupby_keys_perm df :
  (groupby key le df).*1 ≡ₚ remove_dups (key <$> df).
Proof.
  unfold groupby. rewrite <-list_fmap_compose.
  rewrite (list_fmap_ext _ id (merge_sort le (remove_dups (key <$> df))))
    by done.
  rewrite list_fmap_id. apply merge_sort_Permutation.
Qed.

Lemma groupby_keys_NoDup df : NoDup (groupby key le df).*1.
Proof. rewrite groupby_keys_perm. apply NoDup_remove_dups. Qed.

Lemma elem_of_groupby df k group :
  (k, group) ∈ groupby key le df ↔
  k ∈ key <$> df ∧ group = filter (λ r, key r = k) df.
Proof.
  unfold groupby. rewrite list_elem_of_fmap. split.
  - intros (k' & [= -> ->] & Hk).
    rewrite merge_sort_Permutation, elem_of_remove_dups in Hk. done.
  - intros [Hk ->]. exists k. split; [done|].
    by rewrite merge_sort_Permutation, elem_of_remove_dups.
Qed.

Lemma groupby_covers df r :
  r ∈ df → (key r, filter (λ r', key r' = key r) df) ∈ groupby key le df.
Proof.
  intros Hr. apply elem_of_groupby. split; [|done].
  apply list_elem_of_fmap; eauto.
Qed.
End groupby.

(** *** drop_duplicates *)

Lemma elem_of_drop_duplicates_from {A} `{!EqDecision A} (seen l : list A) x :
  x ∈ drop_duplicates_from seen l ↔ x ∈ l ∧ x ∉ seen.
Proof.
  revert seen; induction l as [|y l IH]; intros seen; simpl.
  - split; [by intros ?%elem_of_nil | by intros [?%elem_of_nil _]].
  - case_bool_decide as Hy.
    + rewrite IH, elem_of_cons. split; [tauto|].
      intros [[->|?] ?]; [done | tauto].
    + rewrite !elem_of_cons, IH, not_elem_of_cons. split.
      * intros [->|(? & ? & ?)]; tauto.
      * intros [[->|?] ?]; [by left|].
        destruct (decide (x = y)); [by left | right; tauto].
Qed.

Lemma drop_duplicates_from_NoDup {A} `{!EqDecision A} (seen l : list A) :
  NoDup (drop_duplicates_from seen l).
Proof.
  revert seen; induction l as [|y l IH]; intros seen; simpl.
  - constructor.
  - case_bool_decide; [apply IH|]. constructor; [|apply IH].
    rewrite elem_of_drop_duplicates_from, not_elem_of_cons. tauto.
Qed.

Lemma elem_of_drop_duplicates {A} `{!EqDecision A} (l : list A) x :
  x ∈ drop_duplicates l ↔ x ∈ l.
Proof.
  unfold drop_duplicates. rewrite elem_of_drop_duplicates_from.
  split; [tauto|]. intros ?; split; [done | apply not_elem_of_nil].
Qed.

Lemma drop_duplicates_NoDup {A} `{!EqDecision A} (l : list A) :
  NoDup (drop_duplicates l).
Proof. apply drop_duplicates_from_NoDup. Qed.

Lemma NoDup_count_one {A} `{!EqDecision A} (l : list A) x :
  NoDup l → x ∈ l → length (filter (λ y, y = x) l) = 1.
Proof.
  induction 1 as [|y l Hy Hnd IH]; intros Hx; [by apply elem_of_nil in Hx|].
  rewrite filter_cons. destruct (decide (y = x)) as [->|Hne]; simpl.
  - f_equal. destruct (filter (λ y, y = x) l) as [|z l'] eqn:Hf; [done|].
    assert (z ∈ filter (λ y, y = x) l) as Hz by (rewrite Hf; left).
    apply list_elem_of_filter in Hz as [-> ?]. done.
  - apply elem_of_cons in Hx as [->|Hx]; [done | by apply IH].
Qed.

End Grouping_properties.

Section Aggregation_properties.

Context {Score : Type} `{!EqDecision Score} {Config : Type}.
Variable ALL_FOLDS : list string.
Variable GUESSER_LIST : list (string * Config).
Variables GUESSER_TARGET_PREFIX GUESSER_INDEX GUESS_TASKS : string.
Variable question_map : gmap Z Question.

Implicit Types (df group : DataFrame (Score := Score)).
Implicit Types (guess_map gm : gmap string (gset Coverage)).
Implicit Types (tasks : list (Task (Score := Score))) (x : Coverage).
Implicit Types (groups : list (Z * Z * Z * DataFrame (Score := Score))).
Implicit Types (acc : gmap string (gset Coverage) * list (Task (Score := Score))).
Implicit Types (fs : gmap string (pyobj (Score := Score))).

Local Abbreviation aggregate_group := (aggregate_group question_map).
Local Abbreviation aggregate := (aggregate question_map).
Local Abbreviation task_of_group := (task_of_group question_map).
Local Abbreviation combined_guesses :=
  (combined_guesses ALL_FOLDS GUESSER_LIST GUESSER_TARGET_PREFIX).
Local Abbreviation with_artifacts := (with_artifacts GUESSER_INDEX GUESS_TASKS).
Local Abbreviation same_guess_tables :=
  (same_guess_tables ALL_FOLDS GUESSER_LIST GUESSER_TARGET_PREFIX).
Local Abbreviation preprocess_all_guesses :=
  (preprocess_all_guesses ALL_FOLDS GUESSER_LIST GUESSER_TARGET_PREFIX
     GUESSER_INDEX GUESS_TASKS question_map).

(** *** The coverage index *)

Lemma elem_of_guess_map_add gm guesser y g x :
  x ∈ default ∅ (guess_map_add gm guesser y !! g) ↔
  x ∈ default ∅ (gm !! g) ∨ (guesser = g ∧ x = y).
Proof.
  unfold guess_map_add. destruct (decide (guesser = g)) as [->|Hne].
  - rewrite lookup_insert_eq. simpl. rewrite elem_of_union, elem_of_singleton.
    split; [intros [?|?]; [by left | by right] | intros [?|[_ ?]]; [by left | by right]].
  - rewrite lookup_insert_ne by done.
    split; [by left | intros [?|[? _]]; done].
Qed.

Lemma elem_of_cover_keys (pos : Z * Z * Z) {B} (ks : list (string * string * B))
    gm g x :
  x ∈ default ∅
        (foldl (λ guess_map gg, guess_map_add guess_map gg.1.2 (pos, gg.1.1))
               gm ks !! g) ↔
  x ∈ default ∅ (gm !! g) ∨ ∃ gg, gg ∈ ks ∧ gg.1.2 = g ∧ x = (pos, gg.1.1).
Proof.
  revert gm; induction ks as [|k ks IH]; intros gm; simpl.
  - split; [by left|]. intros [?|(? & ?%elem_of_nil & _)]; done.
  - rewrite IH, elem_of_guess_map_add. split.
    + intros [[?|[? ?]]|(gg & ? & ? & ?)]; [by left|..].
      * right. exists k. split; [left|done].
      * right. exists gg. split; [by right|done].
    + intros [?|(gg & [->|?]%elem_of_cons & ? & ?)]; [by left; left|..].
      * left; right; done.
      * right. by exists gg.
Qed.

Lemma elem_of_cover_group qnum sentence token gm group g x :
  x ∈ default ∅ (cover_group qnum sentence token gm group !! g) ↔
  x ∈ default ∅ (gm !! g) ∨
  ∃ r, r ∈ group ∧ row_guesser r = g ∧ x = (qnum, sentence, token, row_guess r).
Proof.
  unfold cover_group.
  rewrite (elem_of_cover_keys (qnum, sentence, token)).
  apply or_iff_compat_l. split.
  - intros ([[guess guesser] sub] & Hin & Hg & ->). simpl in *.
    apply elem_of_groupby in Hin as [Hk _].
    apply list_elem_of_fmap in Hk as (r & [= -> ->] & Hr). by exists r.
  - intros (r & Hr & Hg & ->).
    eexists. split; [by apply (groupby_covers _ _ _ r)|]. done.
Qed.

(** *** The loop over position groups *)

Lemma aggregate_group_ok gm0 tasks0 g gm tasks :
  aggregate_group (gm0, tasks0) g = Ok (gm, tasks) →
  ∃ task, tasks = tasks0 ++ [task] ∧ task_of_group g task ∧
    gm = cover_group g.1.1.1 g.1.1.2 g.1.2 gm0 g.2.
Proof.
  destruct g as [[[qnum sentence] token] group]. unfold aggregate_group, dict_get.
  simpl. destruct (question_map !! qnum) as [q|] eqn:Hq; [|done].
  intros [= <- <-]. eexists. split; [done|]. by split.
Qed.

Lemma aggregate_loop_ok groups : ∀ gm0 tasks0 gm tasks,
  foldR aggregate_group (gm0, tasks0) groups = Ok (gm, tasks) →
  ∃ new, tasks = tasks0 ++ new ∧ Forall2 task_of_group groups new ∧
    ∀ g x, x ∈ default ∅ (gm !! g) ↔
      x ∈ default ∅ (gm0 !! g) ∨
      ∃ grp r, grp ∈ groups ∧ r ∈ grp.2 ∧ row_guesser r = g ∧
               x = (grp.1, row_guess r).
Proof.
  induction groups as [|grp groups IH]; intros gm0 tasks0 gm tasks Hrun.
  - injection Hrun as <- <-. exists []. rewrite app_nil_r.
    split; [done|]. split; [constructor|].
    intros g x. split; [by left|]. intros [?|(? & ? & ?%elem_of_nil & _)]; done.
  - rewrite foldR_cons in Hrun.
    destruct (aggregate_group (gm0, tasks0) grp) as [[gm1 tasks1]|e] eqn:Hstep;
      [|done].
    apply aggregate_group_ok in Hstep as (task & -> & Htask & ->).
    apply IH in Hrun as (new & -> & Hall & Hcov).
    exists (task :: new). rewrite <-app_assoc. split; [done|].
    split; [by constructor|].
    intros g x. rewrite Hcov, elem_of_cover_group.
    destruct grp as [[[qnum sentence] token] group]; simpl. split.
    + intros [[?|(r & ? & ? & ?)]|(grp' & r & ? & ?)]; [by left|..].
      * right. eexists _, r. split; [left|]. done.
      * right. exists grp', r. split; [by right|done].
    + intros [?|(grp' & r & [->|?]%elem_of_cons & ?)]; [by left; left|..].
      * left; right. by exists r.
      * right. by exists grp', r.
Qed.

Lemma aggregate_loop_raise groups : ∀ acc,
  (∃ g, g ∈ groups ∧ question_map !! g.1.1.1 = None) →
  ∃ g, g ∈ groups ∧ question_map !! g.1.1.1 = None ∧
    foldR aggregate_group acc groups = Raise (KeyError (IntKey g.1.1.1)).
Proof.
  induction groups as [|grp groups IH]; intros acc (g & Hin & Hg).
  - by apply elem_of_nil in Hin.
  - rewrite foldR_cons.
    destruct (aggregate_group acc grp) as [acc'|e] eqn:Hstep.
    + assert (is_Some (question_map !! grp.1.1.1)) as Hgrp.
      { destruct acc as [gm0 tasks0], acc' as [gm1 tasks1].
        apply aggregate_group_ok in Hstep as (task & _ & [Hq _] & _). eauto. }
      apply elem_of_cons in Hin as [->|Hin].
      * rewrite Hg in Hgrp. by destruct Hgrp.
      * destruct (IH acc') as (g' & ? & ? & ?); [eauto|].
        exists g'. split; [by right|done].
    + exists grp. split; [left|].
      destruct acc as [gm0 tasks0], grp as [[[qnum sentence] token] group].
      unfold aggregate_group, dict_get in Hstep. simpl in *.
      destruct (question_map !! qnum); [done|]. by injection Hstep as <-.
Qed.

(** *** aggregate *)

Lemma aggregate_ok df gm tasks :
  aggregate df = Ok (gm, tasks) →
  Forall2 task_of_group (groupby position Z3_le df) tasks ∧
  ∀ g x, x ∈ default ∅ (gm !! g) ↔
    ∃ r, r ∈ df ∧ row_guesser r = g ∧ x = (position r, row_guess r).
Proof.
  intros (new & -> & Hall & Hcov)%aggregate_loop_ok. split; [done|].
  intros g x. rewrite Hcov, lookup_empty. simpl. split.
  - intros [?%elem_of_empty|(grp & r & Hgrp & Hr & Hg & ->)]; [done|].
    destruct grp as [k group]. apply elem_of_groupby in Hgrp as [_ ->].
    apply list_elem_of_filter in Hr as [<- Hr]. by exists r.
  - intros (r & Hr & Hg & ->). right.
    exists (position r, filter (λ r', position r' = position r) df), r.
    split; [by apply groupby_covers|]. split; [|done].
    by apply list_elem_of_filter.
Qed.

Lemma aggregate_unknown_qnum df r :
  r ∈ df → question_map !! row_qnum r = None →
  ∃ q, q ∈ row_qnum <$> df ∧ question_map !! q = None ∧
       aggregate df = Raise (KeyError (IntKey q)).
Proof.
  intros Hr Hq. unfold aggregate.
  destruct (aggregate_loop_raise (groupby position Z3_le df) (∅, []))
    as ([k group] & Hin & Hnone & Hrun).
  { eexists. split; [by apply (groupby_covers _ _ _ r)|]. done. }
  exists k.1.1. split; [|done].
  apply elem_of_groupby in Hin as [Hk _].
  apply list_elem_of_fmap in Hk as (r' & -> & Hr').
  apply list_elem_of_fmap. by exists r'.
Qed.

(** C1: when aggregation succeeds, the tasks are, group by group, the
    question of the group's qnum with the group's rows without the guesser
    column and without duplicates; two rows of the combined table that differ
    at most in the guesser give one row in one task's table and in no other
    task's table; and the position and guess of each is in the coverage set
    of its guesser. *)
Theorem aggregate_collapses_agreeing_guessers df gm tasks (r1 r2 : Row) :
  aggregate df = Ok (gm, tasks) →
  r1 ∈ df → r2 ∈ df → drop_guesser r1 = drop_guesser r2 →
  Forall2 task_of_group (groupby position Z3_le df) tasks ∧
  (∃ i task, tasks !! i = Some task ∧
     length (filter (λ row, row = drop_guesser r1) (guess_df task)) = 1 ∧
     ∀ j task', tasks !! j = Some task' →
                drop_guesser r1 ∈ guess_df task' → j = i) ∧
  (∃ s1, gm !! row_guesser r1 = Some s1 ∧ (position r1, row_guess r1) ∈ s1) ∧
  (∃ s2, gm !! row_guesser r2 = Some s2 ∧ (position r1, row_guess r1) ∈ s2).
Proof.
  intros [Hall Hcov]%aggregate_ok Hr1 Hr2 Heq.
  assert (∀ r r' : Row (Score := Score),
            drop_guesser r = drop_guesser r' →
            position r = position r' ∧ row_guess r = row_guess r') as Hpos.
  { intros [] [] [=]; simpl in *. by subst. }
  split; [done|]. split; [|split].
  - pose proof (groupby_covers position Z3_le df r1 Hr1) as Hgrp.
    apply list_elem_of_lookup in Hgrp as [i Hi].
    destruct (Forall2_lookup_l _ _ _ _ _ Hall Hi) as (task & Htask & _ & Hdf).
    exists i, task. split; [done|]. simpl in Hdf. split.
    + apply NoDup_count_one; rewrite Hdf; [apply drop_duplicates_NoDup|].
      apply elem_of_drop_duplicates, list_elem_of_fmap. exists r1.
      split; [done|]. by apply list_elem_of_filter.
    + intros j task' Hj Hin.
      destruct (Forall2_lookup_r _ _ _ _ _ Hall Hj) as ([k grp] & Hgj & _ & Hdf').
      simpl in Hdf'. rewrite Hdf' in Hin.
      apply elem_of_drop_duplicates, list_elem_of_fmap in Hin as (r' & Hr' & Hin).
      assert ((k, grp) ∈ groupby position Z3_le df) as Hk
        by (apply list_elem_of_lookup; eauto).
      apply elem_of_groupby in Hk as [_ ->].
      apply list_elem_of_filter in Hin as [<- _].
      destruct (Hpos _ _ Hr') as [Hp _].
      apply (NoDup_lookup (groupby position Z3_le df).*1 j i (position r1)).
      * apply groupby_keys_NoDup.
      * by rewrite list_lookup_fmap, Hgj, Hp.
      * by rewrite list_lookup_fmap, Hi.
  - assert ((position r1, row_guess r1) ∈ default ∅ (gm !! row_guesser r1)) as Hin
      by (apply Hcov; eauto).
    destruct (gm !! row_guesser r1) as [s1|]; [eauto | by apply elem_of_empty in Hin].
  - destruct (Hpos _ _ Heq) as [Hp Hg].
    assert ((position r1, row_guess r1) ∈ default ∅ (gm !! row_guesser r2)) as Hin
      by (apply Hcov; exists r2; by rewrite Hp, Hg).
    destruct (gm !! row_guesser r2) as [s2|]; [eauto | by apply elem_of_empty in Hin].
Qed.

(** *** preprocess_all_guesses *)

Lemma combined_guesses_store fs : (combined_guesses fs).2 = fs.
Proof.
  apply foldM_store. intros o [guesser_class cfg] s. unfold load_guesser.
  pose proof (load_guesses_store
    (os_path_join GUESSER_TARGET_PREFIX guesser_class) ALL_FOLDS s) as Hst.
  destruct (is_None o); [done|]. run.
  destruct (load_guesses _ _ s) as [[new|e] s']; simpl in *; by subst.
Qed.

Lemma preprocess_all_guesses_run fs :
  preprocess_all_guesses fs =
  match (combined_guesses fs).1 with
  | Ok o =>
      match as_DataFrame o with
      | Ok df =>
          match aggregate df with
          | Ok (gm, tasks) => (Ok tt, with_artifacts fs gm tasks)
          | Raise e => (Raise e, fs)
          end
      | Raise e => (Raise e, fs)
      end
  | Raise e => (Raise e, fs)
  end.
Proof.
  unfold preprocess_all_guesses. run.
  pose proof (combined_guesses_store fs) as Hst.
  destruct (combined_guesses fs) as [[o|e] s']; simpl in *; subst s'; [|done].
  destruct (as_DataFrame o) as [df|e]; [|done].
  by destruct (aggregate df) as [[gm tasks]|e].
Qed.

Lemma combined_guesses_agree fs1 fs2 :
  same_guess_tables fs1 fs2 →
  (combined_guesses fs1).1 = (combined_guesses fs2).1.
Proof.
  intros Hsame. apply foldM_agree.
  - intros o [guesser_class cfg] s. unfold load_guesser.
    pose proof (load_guesses_store
      (os_path_join GUESSER_TARGET_PREFIX guesser_class) ALL_FOLDS s) as Hst.
    destruct (is_None o); [done|]. run.
    destruct (load_guesses _ _ s) as [[new|e] s']; simpl in *; by subst.
  - intros o [guesser_class cfg] Hin. unfold load_guesser.
    pose proof (load_guesses_agree
      (os_path_join GUESSER_TARGET_PREFIX guesser_class) ALL_FOLDS fs1 fs2) as Hl.
    specialize (Hl (λ fold Hfold, Hsame guesser_class cfg fold Hin Hfold)).
    destruct (is_None o); [done|]. run.
    destruct (load_guesses _ _ fs1) as [r1 s1], (load_guesses _ _ fs2) as [r2 s2].
    simpl in Hl. subst r2. by destruct r1.
Qed.

Lemma with_artifacts_idemp fs gm tasks :
  with_artifacts (with_artifacts fs gm tasks) gm tasks = with_artifacts fs gm tasks.
Proof.
  unfold with_artifacts. apply map_eq; intros p.
  destruct (decide (GUESS_TASKS = p)) as [->|Hp];
    [by rewrite !lookup_insert_eq | rewrite !(lookup_insert_ne _ GUESS_TASKS) by done].
  destruct (decide (GUESSER_INDEX = p)) as [->|Hp'];
    [by rewrite !lookup_insert_eq | by rewrite !lookup_insert_ne by done].
Qed.

(** A run leaves the guess tables alone when neither artifact path is the
    path of a guess file. *)
Lemma preprocess_all_guesses_keeps_tables fs :
  (∀ guesser_class cfg fold,
     (guesser_class, cfg) ∈ GUESSER_LIST → fold ∈ ALL_FOLDS →
     GUESSER_INDEX
       ≠ guess_path (os_path_join GUESSER_TARGET_PREFIX guesser_class) fold ∧
     GUESS_TASKS
       ≠ guess_path (os_path_join GUESSER_TARGET_PREFIX guesser_class) fold) →
  same_guess_tables (preprocess_all_guesses fs).2 fs.
Proof.
  intros Hapart guesser_class cfg fold Hg Hfold.
  destruct (Hapart guesser_class cfg fold Hg Hfold) as [Hindex Htasks].
  rewrite preprocess_all_guesses_run.
  destruct (combined_guesses fs).1 as [o|e]; [|done].
  destruct (as_DataFrame o) as [df|e]; [|done].
  destruct (aggregate df) as [[gm tasks]|e]; [|done].
  simpl. unfold with_artifacts. by rewrite !lookup_insert_ne.
Qed.

(** C8: if the first run of [preprocess_all_guesses] left the persisted
    guess tables as they were, a second run ends as the first did, whether
    with success or with an exception, and leaves the store of the first,
    so the same coverage index and the same task list. *)
Theorem preprocess_all_guesses_idempotent fs :
  let run1 := preprocess_all_guesses fs in
  let run2 := preprocess_all_guesses run1.2 in
  same_guess_tables run1.2 fs →
  run2 = run1 ∧
  run2.2 !! GUESSER_INDEX = run1.2 !! GUESSER_INDEX ∧
  run2.2 !! GUESS_TASKS = run1.2 !! GUESS_TASKS.
Proof.
  intros run1 run2 Hsame.
  assert (run2 = run1) as Heq; [|by rewrite Heq].
  unfold run2. rewrite preprocess_all_guesses_run.
  rewrite (combined_guesses_agree _ _ Hsame).
  unfold run1 in *. clear run1 run2 Hsame. rewrite preprocess_all_guesses_run.
  destruct (combined_guesses fs).1 as [o|e]; [|done].
  destruct (as_DataFrame o) as [df|e]; [|done].
  destruct (aggregate df) as [[gm tasks]|e]; [|done].
  simpl. by rewrite with_artifacts_idemp.
Qed.

(** C7: when a row of the combined table has a qnum that the question map
    does not know, [preprocess_all_guesses] ends in [KeyError] for such a
    qnum and leaves the store as it was: neither artifact is written. *)
Theorem preprocess_all_guesses_unknown_qnum fs df (r : Row) :
  (combined_guesses fs).1 = Ok (PyDataFrame df) →
  r ∈ df → question_map !! row_qnum r = None →
  ∃ q, q ∈ row_qnum <$> df ∧ question_map !! q = None ∧
    preprocess_all_guesses fs = (Raise (KeyError (IntKey q)), fs).
Proof.
  intros Hcomb Hr Hq.
  destruct (aggregate_unknown_qnum df r Hr Hq) as (q & Hin & Hnone & Hagg).
  exists q. split; [done|]. split; [done|].
  rewrite preprocess_all_guesses_run, Hcomb. simpl. by rewrite Hagg.
Qed.

End Aggregation_properties.

(** ** The theorems at the example data *)

Example guess_path_example :
  guess_path "output/guesser/A" "dev" = "output/guesser/A/guesses_dev.pickle".
Proof. reflexivity. Qed.

Lemma save_load_round_trip_witness :
  ∃ fs' t,
    save_guesses example_table "out" ∅ = (Ok tt, fs') ∧
    load_guesses "out" ["dev"; "train"] fs' = (Ok (PyDataFrame t), fs') ∧
    ∀ r, r ∈ t ↔ r ∈ example_table ∧ row_fold r ∈ ["dev"; "train"].
Proof.
  apply (save_load_round_trip example_table "out" ["dev"; "train"] ∅).
  - discriminate.
  - apply (bool_decide_unpack (["dev"; "train"] ⊆ save_folds)). by vm_compute.
Defined.

Lemma load_guesses_spec_witness :
  load_guesses "out" ["dev"]
    ({[ "out/guesses_train.pickle" := PyDataFrame example_table ]})
  = (Raise (FileNotFoundError "out/guesses_dev.pickle"),
     {[ "out/guesses_train.pickle" := PyDataFrame example_table ]}).
Proof.
  destruct (load_guesses_spec "out" ["dev"]
              ({[ "out/guesses_train.pickle" := PyDataFrame example_table ]}))
    as (_ & _ & Habsent & _).
  apply (Habsent [] "dev" [] []); [reflexivity | constructor | reflexivity].
Defined.

Lemma save_guesses_drops_other_folds_witness :
  ∃ fs', save_guesses example_table "out" ∅ = (Ok tt, fs') ∧
    ∀ folds t fs'',
      load_guesses "out" folds fs' = (Ok (PyDataFrame t), fs'') →
      example_row "Nero" 1 "guesstrain" "A" ∉ t.
Proof.
  destruct (save_guesses_drops_other_folds example_table "out" ∅
              (example_row "Nero" 1 "guesstrain" "A"))
    as (fs' & Hsave & _ & _ & Hload).
  - apply (bool_decide_unpack (_ ∈ example_table)). by vm_compute.
  - apply (bool_decide_unpack (_ ∉ save_folds)). by vm_compute.
  - exists fs'. split; [exact Hsave|]. apply Hload.
    intros fold t0 Hnone. by rewrite lookup_empty in Hnone.
Defined.

Lemma example_folds_known :
  ∀ fold, fold ∈ ["dev"] → is_Some (example_questions_by_fold !! fold).
Proof. intros fold ->%list_elem_of_singleton. by eexists. Qed.

Lemma generate_guesses_single_batch_witness :
  ∃ df,
    generate_guesses example_partials example_questions_by_fold 5 ["dev"]
      {| self := {| canned_answers := [("Napoleon", 9%Z); ("Caesar", 3%Z)];
                    canned_name := "canned" |};
         guess_calls := [] |}
    = (Ok df,
       {| self := {| canned_answers := [("Napoleon", 9%Z); ("Caesar", 3%Z)];
                     canned_name := "canned" |};
          guess_calls := [(["This"; "This emperor"], 5%Z)] |}) ∧
    length df = 4.
Proof.
  destruct (generate_guesses_single_batch example_partials
              example_questions_by_fold 5 ["dev"]
              {| canned_answers := [("Napoleon", 9%Z); ("Caesar", 3%Z)];
                 canned_name := "canned" |} []
              [[("Napoleon", 9%Z); ("Caesar", 3%Z)];
               [("Napoleon", 9%Z); ("Caesar", 3%Z)]])
    as (df & Hrun & _ & Hlen & _).
  - exact example_folds_known.
  - reflexivity.
  - reflexivity.
  - vm_compute. lia.
  - exists df. split; [exact Hrun | exact Hlen].
Defined.

Lemma generate_guesses_length_assertion_witness :
  generate_guesses example_partials example_questions_by_fold 5 ["dev"]
    {| self := Mute; guess_calls := [] |}
  = (Raise AssertionError,
     {| self := Mute; guess_calls := [(["This"; "This emperor"], 5%Z)] |}).
Proof.
  destruct (generate_guesses_length_assertion example_partials
              example_questions_by_fold 5 ["dev"] Mute [] [])
    as [Hfail _].
  - exact example_folds_known.
  - reflexivity.
  - apply Hfail. discriminate.
Defined.

(** Two guessers that resize the list they are handed.  The first returns
    no list for a batch of two texts, and the run returns an empty table;
    the second returns one list per text of the batch, and the run fails
    with [AssertionError]. *)
Lemma generate_guesses_length_assertion_counterexample :
  length (flattened_batch example_partials example_questions_by_fold ["dev"]) = 2 ∧
  (returned (guess Draining ["This"; "This emperor"] 5) = Ok [] ∧
   generate_guesses example_partials example_questions_by_fold 5 ["dev"]
     {| self := Draining; guess_calls := [] |}
   = (Ok [],
      {| self := Draining;
         guess_calls := [(["This"; "This emperor"], 5%Z)] |})) ∧
  (returned (guess Popping ["This"; "This emperor"] 5) = Ok [[]; []] ∧
   generate_guesses example_partials example_questions_by_fold 5 ["dev"]
     {| self := Popping; guess_calls := [] |}
   = (Raise AssertionError,
      {| self := Popping;
         guess_calls := [(["This"; "This emperor"], 5%Z)] |})).
Proof.
  split; [reflexivity|]. split; (split; [reflexivity|]).
  - by rewrite generate_guesses_run by exact example_folds_known.
  - by rewrite generate_guesses_run by exact example_folds_known.
Qed.

(** The two endings that no ordinary guesser reaches: a guesser that
    appends to the list runs the second loop past the batch, and a guesser
    that raises ends the run with its exception. *)
Example generate_guesses_other_endings :
  generate_guesses example_partials example_questions_by_fold 5 ["dev"]
    {| self := Appending; guess_calls := [] |}
  = (Raise IndexError,
     {| self := Appending;
        guess_calls := [(["This"; "This emperor"], 5%Z)] |}) ∧
  generate_guesses example_partials example_questions_by_fold 5 ["dev"]
    {| self := Failing; guess_calls := [] |}
  = (Raise ValueError,
     {| self := Failing;
        guess_calls := [(["This"; "This emperor"], 5%Z)] |}).
Proof.
  split; by rewrite generate_guesses_run by exact example_folds_known.
Qed.

Lemma generate_guesses_keeps_all_pairs_witness :
  ∃ df before after,
    generate_guesses example_partials example_questions_by_fold 1 ["dev"]
      {| self := {| canned_answers :=
                      [("Caesar", 3%Z); ("Napoleon", 9%Z); ("Nero", 1%Z)];
                    canned_name := "canned" |};
         guess_calls := [] |}
    = (Ok df,
       {| self := {| canned_answers :=
                       [("Caesar", 3%Z); ("Napoleon", 9%Z); ("Nero", 1%Z)];
                     canned_name := "canned" |};
          guess_calls := [(["This"; "This emperor"], 1%Z)] |}) ∧
    df = before
         ++ [ {| row_qnum := 7; row_sentence := 0; row_token := 2;
                 row_guess := "Caesar"; row_score := 3%Z; row_fold := "dev";
                 row_guesser := "canned" |};
              {| row_qnum := 7; row_sentence := 0; row_token := 2;
                 row_guess := "Napoleon"; row_score := 9%Z; row_fold := "dev";
                 row_guesser := "canned" |};
              {| row_qnum := 7; row_sentence := 0; row_token := 2;
                 row_guess := "Nero"; row_score := 1%Z; row_fold := "dev";
                 row_guesser := "canned" |} ]
         ++ after ∧
    length before = 3.
Proof.
  destruct (generate_guesses_keeps_all_pairs example_partials
              example_questions_by_fold 1 ["dev"]
              {| canned_answers :=
                   [("Caesar", 3%Z); ("Napoleon", 9%Z); ("Nero", 1%Z)];
                 canned_name := "canned" |} []
              [[("Caesar", 3%Z); ("Napoleon", 9%Z); ("Nero", 1%Z)];
               [("Caesar", 3%Z); ("Napoleon", 9%Z); ("Nero", 1%Z)]] 1
              {| p_fold := "dev"; p_qnum := 7; p_sentence := 0; p_token := 2;
                 p_text := "This emperor" |}
              [("Caesar", 3%Z); ("Napoleon", 9%Z); ("Nero", 1%Z)])
    as (df & before & run & after & Hrun & Hdf & Hlen & Hstamp & _).
  - exact example_folds_known.
  - reflexivity.
  - reflexivity.
  - vm_compute. lia.
  - reflexivity.
  - reflexivity.
  - exists df, before, after. rewrite Hstamp in Hdf.
    split; [exact Hrun|]. split; [exact Hdf | exact Hlen].
Defined.

Lemma aggregate_collapses_agreeing_guessers_witness :
  ∃ gm tasks,
    aggregate example_question_map example_combined = Ok (gm, tasks) ∧
    (∃ i task, tasks !! i = Some task ∧
       length (filter (λ row, row = drop_guesser (example_row "Napoleon" 9 "dev" "A"))
                      (guess_df task)) = 1) ∧
    (∃ s1, gm !! "A" = Some s1 ∧ (7%Z, 0%Z, 2%Z, "Napoleon") ∈ s1) ∧
    (∃ s2, gm !! "B" = Some s2 ∧ (7%Z, 0%Z, 2%Z, "Napoleon") ∈ s2).
Proof.
  destruct (aggregate example_question_map example_combined)
    as [[gm tasks]|e] eqn:Hagg; [|by vm_compute in Hagg].
  destruct (aggregate_collapses_agreeing_guessers example_question_map
              example_combined gm tasks
              (example_row "Napoleon" 9 "dev" "A")
              (example_row "Napoleon" 9 "dev" "B") Hagg)
    as (_ & (i & task & Hi & Hone & _) & HA & HB).
  - apply (bool_decide_unpack (_ ∈ example_combined)). by vm_compute.
  - apply (bool_decide_unpack (_ ∈ example_combined)). by vm_compute.
  - reflexivity.
  - exists gm, tasks. split; [reflexivity|]. split; [by exists i, task|].
    split; [exact HA | exact HB].
Defined.

Lemma preprocess_all_guesses_unknown_qnum_witness :
  ∃ q,
    preprocess_all_guesses ["dev"] example_GUESSER_LIST "output/guesser"
      "output/guesser_index.pickle" "output/guess_tasks.pickle" ∅ example_store
    = (Raise (KeyError (IntKey q)), example_store).
Proof.
  destruct (preprocess_all_guesses_unknown_qnum ["dev"] example_GUESSER_LIST
              "output/guesser" "output/guesser_index.pickle"
              "output/guess_tasks.pickle" ∅ example_store example_combined
              (example_row "Napoleon" 9 "dev" "A"))
    as (q & _ & _ & Hrun).
  - by vm_compute.
  - apply (bool_decide_unpack (_ ∈ example_combined)). by vm_compute.
  - reflexivity.
  - by exists q.
Defined.

Lemma preprocess_all_guesses_idempotent_witness :
  preprocess_all_guesses ["dev"] example_GUESSER_LIST "output/guesser"
    "output/guesser_index.pickle" "output/guess_tasks.pickle"
    example_question_map
    (preprocess_all_guesses ["dev"] example_GUESSER_LIST "output/guesser"
       "output/guesser_index.pickle" "output/guess_tasks.pickle"
       example_question_map example_store).2
  = preprocess_all_guesses ["dev"] example_GUESSER_LIST "output/guesser"
      "output/guesser_index.pickle" "output/guess_tasks.pickle"
      example_question_map example_store.
Proof.
  apply (preprocess_all_guesses_idempotent ["dev"] example_GUESSER_LIST
           "output/guesser" "output/guesser_index.pickle"
           "output/guess_tasks.pickle" example_question_map example_store).
  intros guesser_class cfg fold Hg ->%list_elem_of_singleton.
  repeat (apply elem_of_cons in Hg as [[= -> ->]|Hg]; [by vm_compute|]).
  by apply elem_of_nil in Hg.
Defined.

(** * Further properties

    ** Lists and loops *)

Lemma first_failure {A} (P : A → Prop) `{!∀ x, Decision (P x)} (l : list A) :
  Forall P l ∨ ∃ pre x post, l = pre ++ x :: post ∧ Forall P pre ∧ ¬ P x.
Proof.
  induction l as [|x l [IH|(pre & y & post & -> & Hpre & Hy)]].
  - left; constructor.
  - destruct (decide (P x)) as [Hx|Hx].
    + left; by constructor.
    + right. exists [], x, l. done.
  - destruct (decide (P x)) as [Hx|Hx].
    + right. exists (x :: pre), y, post. split; [done|]. split; [by constructor|done].
    + right. exists [], x, (pre ++ y :: post). done.
Qed.

Section Generation_more.

Context {Score : Type} `{!EqDecision Score} `{!AbstractGuesser (Score := Score) G}.
Variable partials : Question → list (Z * Z * list string).
Variable questions_by_fold : gmap string (list Question).

Implicit Types (ps batch : list Prefix) (rows : DataFrame (Score := Score)).
Implicit Types (st : Run G) (folds : list string).

Local Abbreviation flattened_batch := (flattened_batch partials questions_by_fold).
Local Abbreviation generate_guesses := (generate_guesses partials questions_by_fold).
Local Abbreviation collect_fold := (collect_fold partials questions_by_fold).

Lemma generate_guesses_unknown pre fold post max_n_guesses st :
  (∀ f, f ∈ pre → is_Some (questions_by_fold !! f)) →
  questions_by_fold !! fold = None →
  generate_guesses max_n_guesses (pre ++ fold :: post) st
  = (Raise (KeyError (StrKey fold)), st).
Proof.
  intros Hpre Hfold. unfold generate_guesses.
  unfold mbind at 1, M_bind at 1, bind at 1.
  change empty_batch with (batch_of []).
  by rewrite (collect_folds_unknown partials questions_by_fold pre fold post [] st).
Qed.

(** X1: a requested fold that the question source does not know, after
    folds that it knows, ends [generate_guesses] in [KeyError] for that fold;
    [guess] is not called and the guesser is left as it was. *)
Theorem generate_guesses_unknown_fold pre fold post max_n_guesses g calls :
  (∀ f, f ∈ pre → is_Some (questions_by_fold !! f)) →
  questions_by_fold !! fold = None →
  generate_guesses max_n_guesses (pre ++ fold :: post)
    {| self := g; guess_calls := calls |}
  = (Raise (KeyError (StrKey fold)), {| self := g; guess_calls := calls |}).
Proof. intros. by apply generate_guesses_unknown. Qed.

(** X2: [generate_guesses] ends in one of these ways and no other.  With a
    requested fold that is unknown: [KeyError] for such a fold, without a
    call of [guess].  Otherwise, after one call of [guess] on the flattened
    batch: the exception [guess] raised; [AssertionError] when the returned
    list is not as long as the list of texts is after the call; the table
    when it is and that list has not grown past the batch; [IndexError]
    (from [q_folds[i]]) when it has.  The table constructor never fails. *)
Theorem generate_guesses_outcomes max_n_guesses folds g calls :
  let run := generate_guesses max_n_guesses folds
               {| self := g; guess_calls := calls |} in
  let batch := flattened_batch folds in
  let texts := p_text <$> batch in
  let out := guess g texts max_n_guesses in
  let called := {| self := guesser_after out;
                   guess_calls := calls ++ [(texts, max_n_guesses)] |} in
  (∃ fold, fold ∈ folds ∧ questions_by_fold !! fold = None ∧
     run = (Raise (KeyError (StrKey fold)),
            {| self := g; guess_calls := calls |})) ∨
  ((∀ fold, fold ∈ folds → is_Some (questions_by_fold !! fold)) ∧
   ((∃ e, returned out = Raise e ∧ run = (Raise e, called)) ∨
    (∃ res, returned out = Ok res ∧
       ((length res ≠ length (questions_after out) ∧
         run = (Raise AssertionError, called)) ∨
        (length res = length (questions_after out) ∧
         length (questions_after out) ≤ length batch ∧
         run = (Ok (expanded_rows (display_name (guesser_after out)) batch res),
                called)) ∨
        (length res = length (questions_after out) ∧
         length batch < length (questions_after out) ∧
         run = (Raise IndexError, called)))))).
Proof.
  intros run batch texts out called. unfold run.
  destruct (first_failure (λ f, is_Some (questions_by_fold !! f)) folds)
    as [Hall|(pre & f & post & -> & Hpre & Hf)].
  - rewrite Forall_forall in Hall. right. split; [done|].
    rewrite (generate_guesses_run partials questions_by_fold) by done.
    fold batch texts out called.
    destruct (returned out) as [res|e]; [right; exists res|left; by exists e].
    split; [done|].
    destruct (decide (length res = _)) as [Hlen|Hlen]; [|by left].
    destruct (decide (_ ≤ _)) as [Hle|Hgt]; right; [by left|right].
    split; [done|]. split; [lia|done].
  - left. exists f. split; [set_solver|].
    apply eq_None_not_Some in Hf. split; [done|].
    apply generate_guesses_unknown; [|done]. by apply Forall_forall.
Qed.

Lemma generate_guesses_ok_inv max_n_guesses folds g calls df st' :
  generate_guesses max_n_guesses folds {| self := g; guess_calls := calls |}
  = (Ok df, st') →
  let batch := flattened_batch folds in
  let texts := p_text <$> batch in
  let out := guess g texts max_n_guesses in
  (∀ fold, fold ∈ folds → is_Some (questions_by_fold !! fold)) ∧
  ∃ res, returned out = Ok res ∧
    length res = length (questions_after out) ∧
    length (questions_after out) ≤ length batch ∧
    df = expanded_rows (display_name (guesser_after out)) batch res ∧
    st' = {| self := guesser_after out;
             guess_calls := calls ++ [(texts, max_n_guesses)] |}.
Proof.
  intros Hrun batch texts out.
  destruct (first_failure (λ f, is_Some (questions_by_fold !! f)) folds)
    as [Hall|(pre & f & post & -> & Hpre & Hf)].
  - rewrite Forall_forall in Hall. split; [done|].
    rewrite (generate_guesses_run partials questions_by_fold) in Hrun by done.
    fold batch texts out in Hrun.
    destruct (returned out) as [res|e]; [|done]. exists res.
    destruct (decide (length res = _)) as [Hlen|Hlen]; [|done].
    destruct (decide (_ ≤ _)) as [Hle|Hgt]; [|done].
    by injection Hrun as <- <-.
  - apply eq_None_not_Some in Hf.
    rewrite generate_guesses_unknown in Hrun; [done| |done].
    by apply Forall_forall.
Qed.

Lemma elem_of_flattened_batch folds p :
  p ∈ flattened_batch folds ↔
  ∃ fold q part, fold ∈ folds ∧ q ∈ default [] (questions_by_fold !! fold) ∧
                 part ∈ partials q ∧ p = prefix_of fold q part.
Proof.
  unfold flattened_batch.
  rewrite list_elem_of_In, in_flat_map. split.
  - intros (fold & Hfold & Hp). apply in_flat_map in Hp as (q & Hq & Hp).
    apply list_elem_of_In, list_elem_of_fmap in Hp as (part & -> & Hpart).
    exists fold, q, part. repeat split; try done; by apply list_elem_of_In.
  - intros (fold & q & part & Hfold & Hq & Hpart & ->).
    exists fold. split; [by apply list_elem_of_In|].
    apply in_flat_map. exists q. split; [by apply list_elem_of_In|].
    apply list_elem_of_In, list_elem_of_fmap. eauto.
Qed.

Lemma elem_of_expanded_rows name batch (res : list (list (Answer * Score))) r :
  r ∈ expanded_rows name batch res ↔
  ∃ i p gs a, batch !! i = Some p ∧ res !! i = Some gs ∧ a ∈ gs ∧
              r = stamp name p a.
Proof.
  unfold expanded_rows. rewrite elem_of_concat. split.
  - intros (l & Hr & Hl). apply list_elem_of_lookup in Hl as [i Hi].
    apply lookup_zip_with_Some in Hi as (p & gs & -> & Hp & Hgs).
    apply list_elem_of_fmap in Hr as (a & -> & Ha). by exists i, p, gs, a.
  - intros (i & p & gs & a & Hp & Hgs & Ha & ->).
    exists (stamp name p <$> gs). split.
    + apply list_elem_of_fmap; eauto.
    + apply list_elem_of_lookup. exists i.
      apply lookup_zip_with_Some. by exists p, gs.
Qed.

(** X3: every row of a generated table carries the guesser's display name
    and a requested fold, and its qnum, sentence and token are those of a
    partial of a question that the source lists under that fold, whatever
    [guess] did to the list of texts it was handed. *)
Theorem generate_guesses_rows_from_questions max_n_guesses folds g calls df st'
    (r : Row) :
  generate_guesses max_n_guesses folds {| self := g; guess_calls := calls |}
  = (Ok df, st') →
  r ∈ df →
  row_guesser r = display_name (self st') ∧
  row_fold r ∈ folds ∧
  ∃ q part,
    q ∈ default [] (questions_by_fold !! row_fold r) ∧ part ∈ partials q ∧
    row_qnum r = q_qnum q ∧ row_sentence r = part.1.1 ∧
    row_token r = part.1.2.
Proof.
  intros (_ & res & _ & _ & _ & -> & ->)%generate_guesses_ok_inv Hr.
  apply elem_of_expanded_rows in Hr as (i & p & gs & a & Hp & _ & _ & ->).
  apply list_elem_of_lookup_2, elem_of_flattened_batch in Hp
    as (fold & q & part & Hfold & Hq & Hpart & ->).
  simpl. split; [done|]. split; [done|]. by exists q, part.
Qed.

End Generation_more.

(** ** More on persistence *)


Lemma string_app_assoc (a b c : string) : (a +:+ b) +:+ c = a +:+ (b +:+ c).
Proof.
  induction a as [|x a IH]; [done|].
  change (String x ((a +:+ b) +:+ c) = String x (a +:+ b +:+ c)). by f_equal.
Qed.

Section Persistence_more.

Context {Score : Type} `{!EqDecision Score}.
Implicit Types (fs : gmap string (pyobj (Score := Score))).
Implicit Types (guess_df t : DataFrame (Score := Score)).
Implicit Types (directory fold : string) (folds : list string).

(** X5: a save after an earlier save to the same directory leaves the
    store that the later save alone leaves: nothing of the earlier table
    stays. *)
Theorem save_guesses_replaces t t' directory fs :
  save_guesses t directory (save_guesses t' directory fs).2
  = save_guesses t directory fs.
Proof.
  rewrite !save_guesses_run. cbn [snd]. f_equal. apply map_eq; intros p.
  destruct (decide (p ∈ guess_path directory <$> save_folds)) as [Hp|Hp].
  - apply list_elem_of_fmap in Hp as (f & -> & Hf).
    by rewrite !write_folds_lookup by (done || apply save_folds_NoDup).
  - by rewrite !write_folds_other.
Qed.

(** X6: after a save into a directory that had no file for it, loading a
    fold that is none of train, dev, test, devtest raises
    [FileNotFoundError] for that fold's file, also when the folds requested
    before it are saved ones. *)
Theorem load_guesses_unsaved_fold t directory pre fold post fs :
  pre ⊆ save_folds → fold ∉ save_folds →
  fs !! guess_path directory fold = None →
  load_guesses directory (pre ++ fold :: post) (save_guesses t directory fs).2
  = (Raise (FileNotFoundError (guess_path directory fold)),
     (save_guesses t directory fs).2).
Proof.
  intros Hpre Hfold Hnone. rewrite save_guesses_run. cbn [snd].
  apply load_guesses_absent with (select_fold t <$> pre).
  - apply Forall2_fmap_r, Forall_Forall2_diag, Forall_forall. intros f Hf.
    apply write_folds_lookup; [apply save_folds_NoDup | by apply Hpre].
  - rewrite write_folds_other; [done|].
    intros (f & Heq & Hf)%list_elem_of_fmap.
    apply guess_path_inj in Heq. by subst.
Qed.

End Persistence_more.

(** ** AbstractGuesser.files *)


Lemma os_path_join_relative directory file :
  startswith_slash file = false →
  os_path_join directory file = dir_prefix directory +:+ file.
Proof.
  intros Hrel. unfold os_path_join, dir_prefix. rewrite Hrel.
  destruct (bool_decide (directory = "") || endswith_slash directory); [done|].
  by rewrite string_app_assoc.
Qed.

(** X7: for targets that are distinct and do not start with a slash,
    [files] gives as many paths, distinct, each the directory (with its
    slash) followed by the target. *)
Theorem files_distinct targets directory :
  NoDup targets → Forall (λ file, startswith_slash file = false) targets →
  length (files targets directory) = length targets ∧
  NoDup (files targets directory) ∧
  Forall2 (λ file p, p = dir_prefix directory +:+ file)
          targets (files targets directory).
Proof.
  intros Hnd Hrel. unfold files. split; [apply length_fmap|]. split.
  - apply NoDup_fmap_2_strong; [|done].
    intros f1 f2 H1 H2. rewrite Forall_forall in Hrel.
    rewrite !os_path_join_relative by auto. apply (inj (String.app _)).
  - apply Forall2_fmap_r, Forall_Forall2_diag.
    eapply Forall_impl; [exact Hrel|]. intros file Hfile.
    by apply os_path_join_relative.
Qed.

(** ** More on aggregation *)

#[global] Instance Z3_le_total : Total Z3_le.
Proof. intros [[a1 a2] a3] [[b1 b2] b3]. unfold Z3_le. lia. Qed.

#[global] Instance Z3_le_trans : Transitive Z3_le.
Proof. intros [[a1 a2] a3] [[b1 b2] b3] [[c1 c2] c3]. unfold Z3_le. lia. Qed.

Lemma Z3_le_qnum (a b : Z * Z * Z) : Z3_le a b → (a.1.1 ≤ b.1.1)%Z.
Proof. destruct a as [[a1 a2] a3], b as [[b1 b2] b3]. unfold Z3_le. simpl. lia. Qed.

Lemma StronglySorted_NoDup_strict {A} (R : A → A → Prop) (l : list A) :
  StronglySorted R l → NoDup l → StronglySorted (λ a b, R a b ∧ a ≠ b) l.
Proof.
  induction 1 as [|x l Hl IH Hx]; intros Hnd; [constructor|].
  apply NoDup_cons in Hnd as [Hnin Hnd]. constructor; [by apply IH|].
  rewrite Forall_forall in Hx. apply Forall_forall. intros y Hy.
  split; [by apply Hx|]. by intros ->.
Qed.

Lemma length_remove_dups {A} `{!EqDecision A} (l : list A) :
  length (remove_dups l) ≤ length l.
Proof.
  induction l as [|x l IH]; simpl; [done|].
  destruct (decide_rel elem_of x l); simpl; lia.
Qed.

Lemma NoDup_concat_keyed {A K} (key : A → K) (ks : list K) (ls : list (list A)) :
  NoDup ks →
  Forall2 (λ k l, NoDup l ∧ ∀ x, x ∈ l → key x = k) ks ls →
  NoDup (concat ls).
Proof.
  intros Hnd Hall. induction Hall as [|k l ks ls [Hl Hk] Hall IH]; simpl.
  - constructor.
  - apply NoDup_cons in Hnd as [Hnin Hnd]. apply NoDup_app.
    split; [done|]. split; [|by apply IH].
    intros x Hx (l' & Hx' & Hl')%elem_of_concat.
    apply list_elem_of_lookup in Hl' as [i Hi].
    destruct (Forall2_lookup_r _ _ _ _ _ Hall Hi) as (k' & Hk' & _ & Hkey).
    apply Hnin. rewrite <-(Hk x Hx), (Hkey x Hx').
    by apply list_elem_of_lookup_2 in Hk'.
Qed.

Lemma foldM_raises {S A B} (body : B → A → M S B) l x s :
  (∀ b y s, (body b y s).2 = s) → x ∈ l →
  (∀ b, ∃ e, body b x s = (Raise e, s)) →
  ∀ b, ∃ e, foldM body b l s = (Raise e, s).
Proof.
  intros Hst Hin Hx; induction l as [|y l IH]; intros b.
  - by apply elem_of_nil in Hin.
  - rewrite foldM_cons. pose proof (Hst b y s) as Hy.
    destruct (body b y s) as [[b'|e] s'] eqn:Hstep; simpl in Hy; subst s';
      [|eauto].
    apply elem_of_cons in Hin as [->|Hin]; [|by apply IH].
    destruct (Hx b) as [e He]. congruence.
Qed.

Section Aggregation_more.

Context {Score : Type} `{!EqDecision Score} {Config : Type}.
Variable ALL_FOLDS : list string.
Variable GUESSER_LIST : list (string * Config).
Variables GUESSER_TARGET_PREFIX GUESSER_INDEX GUESS_TASKS : string.
Variable question_map : gmap Z Question.

Implicit Types (df group : DataFrame (Score := Score)).
Implicit Types (guess_map gm : gmap string (gset Coverage)).
Implicit Types (tasks : list (Task (Score := Score))) (x : Coverage).
Implicit Types (groups : list (Z * Z * Z * DataFrame (Score := Score))).
Implicit Types (acc : gmap string (gset Coverage) * list (Task (Score := Score))).
Implicit Types (fs : gmap string (pyobj (Score := Score))).

Local Abbreviation aggregate_group := (aggregate_group question_map).
Local Abbreviation aggregate := (aggregate question_map).
Local Abbreviation task_of_group := (task_of_group question_map).


Lemma task_position_drop_guesser (r : Row (Score := Score)) :
  task_position (drop_guesser r) = position r.
Proof. done. Qed.

Lemma positions_sorted df :
  StronglySorted Z3_le (groupby position Z3_le df).*1.
Proof.
  unfold groupby. rewrite <-list_fmap_compose.
  rewrite (list_fmap_ext _ id (merge_sort Z3_le (remove_dups (position <$> df))))
    by done.
  rewrite list_fmap_id. apply StronglySorted_merge_sort; apply _.
Qed.

(** The first group with an unknown qnum stops the loop. *)
Lemma aggregate_loop_raise_inv groups : ∀ acc e,
  foldR aggregate_group acc groups = Raise e →
  ∃ pre g post, groups = pre ++ g :: post ∧
    Forall (λ g', is_Some (question_map !! g'.1.1.1)) pre ∧
    question_map !! g.1.1.1 = None ∧ e = KeyError (IntKey g.1.1.1).
Proof.
  induction groups as [|grp groups IH]; intros acc e Hrun; [done|].
  rewrite foldR_cons in Hrun.
  destruct (aggregate_group acc grp) as [acc'|e'] eqn:Hstep.
  - destruct (IH _ _ Hrun) as (pre & g & post & -> & Hpre & Hg & ->).
    exists (grp :: pre), g, post. split; [done|]. split; [|done].
    constructor; [|done]. destruct acc as [gm0 tasks0], acc' as [gm1 tasks1].
    apply (aggregate_group_ok question_map) in Hstep as (task & _ & [Hq _] & _).
    eauto.
  - injection Hrun as ->. exists [], grp, groups. split; [done|].
    split; [constructor|].
    destruct acc as [gm0 tasks0], grp as [[[qnum sentence] token] group].
    unfold aggregate_group, dict_get in Hstep. simpl in *.
    destruct (question_map !! qnum); [done|]. by injection Hstep as <-.
Qed.

Lemma aggregate_raise_inv df e :
  aggregate df = Raise e →
  ∃ q, e = KeyError (IntKey q) ∧ q ∈ row_qnum <$> df ∧
       question_map !! q = None ∧
       ∀ r, r ∈ df → question_map !! row_qnum r = None → (q ≤ row_qnum r)%Z.
Proof.
  intros Hrun. unfold aggregate in Hrun.
  apply aggregate_loop_raise_inv in Hrun
    as (pre & [k grp] & post & Hsplit & Hpre & Hnone & ->).
  exists k.1.1. split; [done|].
  assert ((k, grp) ∈ groupby position Z3_le df) as Hin
    by (rewrite Hsplit; set_solver).
  apply elem_of_groupby in Hin as [Hk _].
  apply list_elem_of_fmap in Hk as (r0 & -> & Hr0).
  split; [apply list_elem_of_fmap; by exists r0|]. split; [done|].
  intros r Hr Hq.
  pose proof (groupby_covers position Z3_le df r Hr) as Hgrp.
  rewrite Hsplit in Hgrp.
  apply elem_of_app in Hgrp as [Hgrp|Hgrp].
  { rewrite Forall_forall in Hpre. apply Hpre in Hgrp. simpl in Hgrp.
    rewrite Hq in Hgrp. by destruct Hgrp. }
  apply elem_of_cons in Hgrp as [Heq|Hgrp].
  { assert (position r = position r0) as Hp by congruence.
    apply (f_equal (λ k : Z * Z * Z, k.1.1)) in Hp. simpl in *. lia. }
  pose proof (positions_sorted df) as Hsorted.
  rewrite Hsplit, fmap_app, fmap_cons in Hsorted.
  apply StronglySorted_app_1_r in Hsorted.
  apply StronglySorted_inv in Hsorted as [_ Hle].
  rewrite Forall_forall in Hle.
  apply (Z3_le_qnum (position r0) (position r)). apply Hle.
  apply list_elem_of_fmap. by eexists (_, _).
Qed.

Lemma aggregate_total df :
  (∀ r, r ∈ df → is_Some (question_map !! row_qnum r)) →
  ∃ gm tasks, aggregate df = Ok (gm, tasks).
Proof.
  intros Hknown. destruct (aggregate df) as [[gm tasks]|e] eqn:Hrun; [eauto|].
  destruct (aggregate_raise_inv df e Hrun) as (q & _ & Hq & Hnone & _).
  apply list_elem_of_fmap in Hq as (r & -> & Hr).
  apply Hknown in Hr. rewrite Hnone in Hr. by destruct Hr.
Qed.

(** X8: [aggregate] succeeds exactly when the question map knows the qnum
    of every row; when it fails it is with [KeyError] for the smallest qnum
    of the table that the map does not know. *)
Theorem aggregate_succeeds_iff df :
  ((∃ gm tasks, aggregate df = Ok (gm, tasks)) ↔
   ∀ r, r ∈ df → is_Some (question_map !! row_qnum r)) ∧
  (∀ e, aggregate df = Raise e →
     ∃ q, e = KeyError (IntKey q) ∧ q ∈ row_qnum <$> df ∧
          question_map !! q = None ∧
          ∀ r, r ∈ df → question_map !! row_qnum r = None → (q ≤ row_qnum r)%Z).
Proof.
  split; [|apply aggregate_raise_inv]. split; [|apply aggregate_total].
  intros (gm & tasks & Hrun) r Hr.
  apply (aggregate_ok question_map) in Hrun as [Hall _].
  pose proof (groupby_covers position Z3_le df r Hr) as Hgrp.
  apply list_elem_of_lookup in Hgrp as [i Hi].
  destruct (Forall2_lookup_l _ _ _ _ _ Hall Hi) as (task & _ & Hq & _). eauto.
Qed.

(** Every coverage set of the index has an element. *)
Lemma guess_map_add_nonempty gm guesser y :
  (∀ g s, gm !! g = Some s → s ≠ ∅) →
  ∀ g s, guess_map_add gm guesser y !! g = Some s → s ≠ ∅.
Proof.
  intros Hgm g s. unfold guess_map_add.
  destruct (decide (guesser = g)) as [->|Hne].
  - rewrite lookup_insert_eq. intros [= <-]. set_solver.
  - rewrite lookup_insert_ne by done. apply Hgm.
Qed.

Lemma cover_group_nonempty qnum sentence token gm group :
  (∀ g s, gm !! g = Some s → s ≠ ∅) →
  ∀ g s, cover_group qnum sentence token gm group !! g = Some s → s ≠ ∅.
Proof.
  unfold cover_group.
  generalize (groupby (λ r, (row_guess r, row_guesser r)) str2_le group).
  intros ks; revert gm; induction ks as [|k ks IH]; intros gm Hgm; [done|].
  simpl. apply IH. by apply guess_map_add_nonempty.
Qed.

Lemma aggregate_loop_nonempty groups : ∀ gm0 tasks0 gm tasks,
  foldR aggregate_group (gm0, tasks0) groups = Ok (gm, tasks) →
  (∀ g s, gm0 !! g = Some s → s ≠ ∅) →
  ∀ g s, gm !! g = Some s → s ≠ ∅.
Proof.
  induction groups as [|grp groups IH]; intros gm0 tasks0 gm tasks Hrun Hgm.
  - by injection Hrun as <- <-.
  - rewrite foldR_cons in Hrun.
    destruct (aggregate_group (gm0, tasks0) grp) as [[gm1 tasks1]|e] eqn:Hstep;
      [|done].
    apply (aggregate_group_ok question_map) in Hstep as (task & -> & _ & ->).
    apply (IH _ _ _ _ Hrun). by apply cover_group_nonempty.
Qed.

(** X9: the guesser index has a key exactly for the guessers that have a row
    in the combined table, and maps each to exactly the (qnum, sentence,
    token, guess) tuples of its rows. *)
Theorem aggregate_coverage_exact df gm tasks :
  aggregate df = Ok (gm, tasks) →
  ∀ g, gm !! g =
    if decide (g ∈ row_guesser <$> df)
    then Some (list_to_set ((λ r, (position r, row_guess r))
                              <$> filter (λ r, row_guesser r = g) df))
    else None.
Proof.
  intros Hrun g.
  pose proof (aggregate_loop_nonempty _ _ _ _ _ Hrun) as Hne.
  apply (aggregate_ok question_map) in Hrun as [_ Hcov].
  specialize (Hcov g). destruct (decide _) as [Hg|Hg].
  - apply list_elem_of_fmap in Hg as (r & -> & Hr).
    destruct (gm !! row_guesser r) as [s|] eqn:Hs.
    + f_equal. apply set_eq. intros x. rewrite (Hcov x), elem_of_list_to_set,
        list_elem_of_fmap. split.
      * intros (r' & Hr' & Hg' & ->). exists r'. split; [done|].
        by apply list_elem_of_filter.
      * intros (r' & -> & [Hg' Hr']%list_elem_of_filter). by exists r'.
    + exfalso. eapply (not_elem_of_empty (C := gset Coverage)).
      apply (Hcov (position r, row_guess r)). by exists r.
  - destruct (gm !! g) as [s|] eqn:Hs; [|done]. exfalso.
    assert (s ≠ ∅) as Hs' by (apply (Hne ltac:(done) g s Hs)).
    apply set_choose_L in Hs' as [x Hx].
    apply (Hcov x) in Hx as (r & Hr & <- & _).
    apply Hg, list_elem_of_fmap. by exists r.
Qed.

(** X10: the tasks are in strictly increasing order of (qnum, sentence,
    token), one for each position that occurs in the combined table; each
    has the question of its qnum and a non-empty table of rows of that
    position. *)
Theorem aggregate_tasks_sorted df gm tasks :
  aggregate df = Ok (gm, tasks) →
  ∃ keys : list (Z * Z * Z),
    Forall2 (λ k task,
               guess_df task ≠ [] ∧
               question_map !! k.1.1 = Some (question task) ∧
               ∀ row, row ∈ guess_df task → task_position row = k)
            keys tasks ∧
    StronglySorted (λ a b, Z3_le a b ∧ a ≠ b) keys ∧
    ∀ k, k ∈ keys ↔ ∃ r, r ∈ df ∧ position r = k.
Proof.
  intros [Hall _]%(aggregate_ok question_map).
  exists (groupby position Z3_le df).*1. split; [|split].
  - apply Forall2_fmap_l.
    apply Forall2_same_length_lookup_2; [by eapply Forall2_length|].
    intros i [k grp] task Hi Htask.
    destruct (Forall2_lookup_lr _ _ _ _ _ _ Hall Hi Htask) as [Hq Hdf].
    simpl in *.
    apply list_elem_of_lookup_2, elem_of_groupby in Hi as [Hk ->].
    apply list_elem_of_fmap in Hk as (r & -> & Hr).
    split; [|split; [done|]].
    + intros Hnil.
      assert (drop_guesser r ∈ guess_df task) as Hin.
      { rewrite Hdf. apply elem_of_drop_duplicates, list_elem_of_fmap.
        exists r. split; [done|]. by apply list_elem_of_filter. }
      rewrite Hnil in Hin. by apply elem_of_nil in Hin.
    + intros row. rewrite Hdf, elem_of_drop_duplicates, list_elem_of_fmap.
      intros (r' & -> & [Hp _]%list_elem_of_filter). done.
  - apply StronglySorted_NoDup_strict;
      [apply positions_sorted | apply groupby_keys_NoDup].
  - intros k. rewrite groupby_keys_perm, elem_of_remove_dups, list_elem_of_fmap.
    split; intros (r & ? & ?); by exists r.
Qed.

(** X11: taken together, the task tables hold each distinct row of the
    combined table without its guesser column exactly once, so no more rows
    than the combined table. *)
Theorem aggregate_task_rows df gm tasks :
  aggregate df = Ok (gm, tasks) →
  concat (guess_df <$> tasks) ≡ₚ remove_dups (drop_guesser <$> df) ∧
  length (concat (guess_df <$> tasks)) ≤ length df.
Proof.
  intros [Hall _]%(aggregate_ok question_map).
  assert (concat (guess_df <$> tasks) ≡ₚ remove_dups (drop_guesser <$> df))
    as Hperm.
  { apply NoDup_Permutation; [|apply NoDup_remove_dups|].
    - apply (NoDup_concat_keyed task_position (groupby position Z3_le df).*1);
        [apply groupby_keys_NoDup|].
      apply Forall2_fmap_l, Forall2_fmap_r.
      apply Forall2_same_length_lookup_2; [by eapply Forall2_length|].
      intros i [k grp] task Hi Htask.
      destruct (Forall2_lookup_lr _ _ _ _ _ _ Hall Hi Htask) as [_ Hdf].
      simpl in *. rewrite Hdf. split; [apply drop_duplicates_NoDup|].
      apply list_elem_of_lookup_2, elem_of_groupby in Hi as [_ ->].
      intros row. rewrite elem_of_drop_duplicates, list_elem_of_fmap.
      intros (r' & -> & [Hp _]%list_elem_of_filter). done.
    - intros row. rewrite elem_of_concat, elem_of_remove_dups, list_elem_of_fmap.
      split.
      + intros (l & Hrow & (task & -> & Htask)%list_elem_of_fmap).
        apply list_elem_of_lookup in Htask as [i Hi].
        destruct (Forall2_lookup_r _ _ _ _ _ Hall Hi) as ([k grp] & Hg & _ & Hdf).
        simpl in Hdf. rewrite Hdf in Hrow.
        apply elem_of_drop_duplicates, list_elem_of_fmap in Hrow as (r & -> & Hr).
        apply list_elem_of_lookup_2, elem_of_groupby in Hg as [_ ->].
        apply list_elem_of_filter in Hr as [_ Hr]. by exists r.
      + intros (r & -> & Hr).
        pose proof (groupby_covers position Z3_le df r Hr) as Hgrp.
        apply list_elem_of_lookup in Hgrp as [i Hi].
        destruct (Forall2_lookup_l _ _ _ _ _ Hall Hi) as (task & Htask & _ & Hdf).
        exists (guess_df task). split.
        * simpl in Hdf. rewrite Hdf.
          apply elem_of_drop_duplicates, list_elem_of_fmap. exists r.
          split; [done|]. by apply list_elem_of_filter.
        * apply list_elem_of_fmap. exists task. split; [done|].
          by apply list_elem_of_lookup_2 in Htask. }
  split; [done|]. rewrite Hperm.
  etrans; [apply length_remove_dups|]. by rewrite length_fmap.
Qed.

Local Abbreviation combined_guesses :=
  (combined_guesses ALL_FOLDS GUESSER_LIST GUESSER_TARGET_PREFIX).
Local Abbreviation load_guesser := (load_guesser ALL_FOLDS GUESSER_TARGET_PREFIX).
Local Abbreviation guesser_table := (guesser_table ALL_FOLDS).
Local Abbreviation preprocess_all_guesses :=
  (preprocess_all_guesses ALL_FOLDS GUESSER_LIST GUESSER_TARGET_PREFIX
     GUESSER_INDEX GUESS_TASKS question_map).

Lemma load_guesser_store o (entry : string * Config) fs :
  (load_guesser o entry fs).2 = fs.
Proof.
  destruct entry as [guesser_class cfg]. unfold load_guesser.
  pose proof (load_guesses_store
    (os_path_join GUESSER_TARGET_PREFIX guesser_class) ALL_FOLDS fs) as Hst.
  destruct (is_None o); [done|]. run.
  destruct (load_guesses _ _ fs) as [[new|e] s']; simpl in *; by subst.
Qed.

Lemma load_guesser_absent o guesser_class (cfg : Config) fold fs :
  fold ∈ ALL_FOLDS →
  fs !! guess_path (os_path_join GUESSER_TARGET_PREFIX guesser_class) fold = None →
  ∃ e, load_guesser o (guesser_class, cfg) fs = (Raise e, fs).
Proof.
  intros Hfold Hnone.
  assert (∃ e, load_guesses (os_path_join GUESSER_TARGET_PREFIX guesser_class)
                 ALL_FOLDS fs = (Raise e, fs)) as [e He].
  { destruct ALL_FOLDS as [|f folds] eqn:Hfolds; [by apply elem_of_nil in Hfold|].
    rewrite load_guesses_cons. by apply load_loop_absent_fails with fold. }
  unfold load_guesser. destruct (is_None o); [eauto|]. run. rewrite He. eauto.
Qed.

(** X12: [preprocess_all_guesses] fails and leaves the store as it was when
    no guesser is listed ([AttributeError], from [None.groupby]), when
    guessers are listed but no fold ([AssertionError]), and when a fold file
    of a listed guesser is absent. *)
Theorem preprocess_all_guesses_load_failures fs :
  (GUESSER_LIST = [] → preprocess_all_guesses fs = (Raise AttributeError, fs)) ∧
  (GUESSER_LIST ≠ [] → ALL_FOLDS = [] →
     preprocess_all_guesses fs = (Raise AssertionError, fs)) ∧
  (∀ guesser_class cfg fold,
     (guesser_class, cfg) ∈ GUESSER_LIST → fold ∈ ALL_FOLDS →
     fs !! guess_path (os_path_join GUESSER_TARGET_PREFIX guesser_class) fold
       = None →
     ∃ e, preprocess_all_guesses fs = (Raise e, fs)).
Proof.
  split; [|split].
  - intros Hnil. rewrite (preprocess_all_guesses_run ALL_FOLDS GUESSER_LIST).
    unfold combined_guesses. by rewrite Hnil.
  - intros Hne Hnil. rewrite (preprocess_all_guesses_run ALL_FOLDS GUESSER_LIST).
    unfold combined_guesses. destruct GUESSER_LIST as [|[gc cfg] l]; [done|].
    rewrite foldM_cons. unfold load_guesser at 1. simpl.
    by rewrite Hnil.
  - intros guesser_class cfg fold Hg Hfold Hnone.
    destruct (foldM_raises load_guesser GUESSER_LIST (guesser_class, cfg) fs)
      with (b := PyNone (Score := Score)) as [e He].
    + intros; apply load_guesser_store.
    + done.
    + intros o. by apply load_guesser_absent with fold.
    + exists e. rewrite (preprocess_all_guesses_run ALL_FOLDS GUESSER_LIST).
      unfold combined_guesses. by rewrite He.
Qed.


Lemma load_guesses_of_tables (tables : string → string → DataFrame) guesser_class fs :
  ALL_FOLDS ≠ [] →
  (∀ fold, fold ∈ ALL_FOLDS →
     fs !! guess_path (os_path_join GUESSER_TARGET_PREFIX guesser_class) fold
     = Some (PyDataFrame (tables guesser_class fold))) →
  load_guesses (os_path_join GUESSER_TARGET_PREFIX guesser_class) ALL_FOLDS fs
  = (Ok (PyDataFrame (concat (tables guesser_class <$> ALL_FOLDS))), fs).
Proof.
  intros Hne Hfiles. apply load_guesses_tables; [done|].
  apply Forall2_fmap_r, Forall_Forall2_diag, Forall_forall. exact Hfiles.
Qed.

Lemma load_guessers_tables (tables : string → string → DataFrame)
    (entries : list (string * Config)) fs :
  ALL_FOLDS ≠ [] →
  (∀ guesser_class cfg fold,
     (guesser_class, cfg) ∈ entries → fold ∈ ALL_FOLDS →
     fs !! guess_path (os_path_join GUESSER_TARGET_PREFIX guesser_class) fold
     = Some (PyDataFrame (tables guesser_class fold))) →
  ∀ acc : DataFrame,
    foldM load_guesser (PyDataFrame acc) entries fs
    = (Ok (PyDataFrame (acc ++ concat (guesser_table tables <$> entries))), fs).
Proof.
  intros Hne; induction entries as [|[gc cfg] entries IH]; intros Hfiles acc.
  - simpl. by rewrite app_nil_r.
  - rewrite foldM_cons. unfold load_guesser at 1. simpl. run.
    rewrite (load_guesses_of_tables tables)
      by first [done | intros; eapply Hfiles; [left|done]].
    simpl. rewrite IH by first [done | intros; eapply Hfiles; [by right|done]].
    by rewrite <-app_assoc.
Qed.

(** X13: when every fold file of every listed guesser holds a table and
    every qnum in them is known, [preprocess_all_guesses] succeeds: it
    aggregates the tables concatenated guesser by guesser, fold by fold, and
    dumps the index and then the task list. *)
Theorem preprocess_all_guesses_success
    (tables : string → string → DataFrame) fs :
  GUESSER_LIST ≠ [] → ALL_FOLDS ≠ [] →
  (∀ guesser_class cfg fold,
     (guesser_class, cfg) ∈ GUESSER_LIST → fold ∈ ALL_FOLDS →
     fs !! guess_path (os_path_join GUESSER_TARGET_PREFIX guesser_class) fold
     = Some (PyDataFrame (tables guesser_class fold))) →
  (∀ guesser_class cfg fold r,
     (guesser_class, cfg) ∈ GUESSER_LIST → fold ∈ ALL_FOLDS →
     r ∈ tables guesser_class fold → is_Some (question_map !! row_qnum r)) →
  ∃ gm tasks,
    aggregate (concat (guesser_table tables <$> GUESSER_LIST)) = Ok (gm, tasks) ∧
    preprocess_all_guesses fs
    = (Ok tt, <[GUESS_TASKS := PyTasks tasks]>
                (<[GUESSER_INDEX := PyGuessMap gm]> fs)).
Proof.
  intros Hlist Hfolds Hfiles Hknown.
  destruct (aggregate_total (concat (guesser_table tables <$> GUESSER_LIST)))
    as (gm & tasks & Hagg).
  { intros r (t & Hr & ([gc cfg] & -> & Hentry)%list_elem_of_fmap)%elem_of_concat.
    apply elem_of_concat in Hr as (t' & Hr & (fold & -> & Hfold)%list_elem_of_fmap).
    by apply (Hknown gc cfg fold). }
  exists gm, tasks. split; [done|].
  rewrite (preprocess_all_guesses_run ALL_FOLDS GUESSER_LIST).
  assert (combined_guesses fs
          = (Ok (PyDataFrame (concat (guesser_table tables <$> GUESSER_LIST))), fs))
    as ->; [|simpl; by rewrite Hagg].
  unfold combined_guesses. destruct GUESSER_LIST as [|[gc cfg] entries]; [done|].
  rewrite foldM_cons. unfold load_guesser at 1. simpl.
  rewrite (load_guesses_of_tables tables)
    by first [done | intros; eapply Hfiles; [left|done]].
  rewrite (load_guessers_tables tables)
    by first [done | intros; eapply Hfiles; [by right|done]].
  done.
Qed.

End Aggregation_more.

(** ** cli.py: strings *)

Lemma string_app_cons (c : ascii) (s t : string) :
  String c s +:+ t = String c (s +:+ t).
Proof. done. Qed.

Lemma str_startswith_spec prefix s :
  str_startswith prefix s = true ↔ ∃ post, s = prefix +:+ post.
Proof.
  revert s; induction prefix as [|c prefix IH]; intros s; simpl.
  - split; [by exists s | done].
  - destruct s as [|d s]; simpl.
    + split; [done | by intros [post [=]]].
    + rewrite andb_true_iff, bool_decide_eq_true, IH. split.
      * intros [-> [post ->]]. by exists post.
      * intros [post Heq]. rewrite string_app_cons in Heq.
        injection Heq as -> ->. eauto.
Qed.

Lemma str_contains_spec sub s :
  str_contains sub s = true ↔ ∃ pre post, s = pre +:+ sub +:+ post.
Proof.
  induction s as [|c s IH]; simpl; rewrite orb_true_iff, str_startswith_spec.
  - split.
    + intros [[post Hs]|?]; [|done]. by exists "", post.
    + intros (pre & post & Hs). left.
      destruct pre as [|? ?]; [by exists post | done].
  - rewrite IH. split.
    + intros [[post Hs]|(pre & post & ->)]; [by exists "", post|].
      by exists (String c pre), post.
    + intros ([|d pre] & post & Hs); [left; by exists post|].
      rewrite string_app_cons in Hs. injection Hs as -> ->. right; eauto.
Qed.

Lemma str_endswith_spec suffix s :
  str_endswith suffix s = true ↔ ∃ pre, s = pre +:+ suffix.
Proof.
  induction s as [|c s IH]; simpl; rewrite orb_true_iff, bool_decide_eq_true.
  - split.
    + intros [->|?]; [by exists "" | done].
    + intros ([|? ?] & Hs); [by left | done].
  - rewrite IH. split.
    + intros [->|[pre ->]]; [by exists "" | by exists (String c pre)].
    + intros ([|d pre] & Hs); [by left|].
      rewrite string_app_cons in Hs. injection Hs as -> ->. right; eauto.
Qed.


Lemma string_app_2 (a b : ascii) (x : string) :
  String a (String b "") +:+ x = String a (String b x).
Proof. done. Qed.

Lemma latex_escape_cons c s :
  latex_escape (String c s) =
  if decide (latex_special c) then String "\" (String c (latex_escape s))
  else String c (latex_escape s).
Proof.
  destruct (decide (latex_special c)) as [Hs|Hs]; unfold latex_escape; simpl.
  - destruct Hs as [-> | [-> | ->]];
      repeat (first [rewrite bool_decide_true by done
                    |rewrite bool_decide_false by done
                    |rewrite string_app_2]; simpl); done.
  - unfold latex_special in Hs.
    repeat (rewrite bool_decide_false by (intros ->; tauto); simpl). done.
Qed.

Lemma latex_escape_single_pass s : latex_escape s = escape_pass s.
Proof.
  induction s as [|c s IH]; [done|].
  rewrite latex_escape_cons. simpl. by rewrite IH.
Qed.

Lemma escape_pass_escapes s : ∀ pre c post,
  escape_pass s = pre +:+ String c post → latex_special c →
  ∃ pre', pre = pre' +:+ "\".
Proof.
  induction s as [|d s IH]; intros pre c post Heq Hc; simpl in Heq.
  - by destruct pre.
  - destruct (decide (latex_special d)) as [Hd|Hd].
    + destruct pre as [|x [|y pre]].
      * injection Heq as <- _. by destruct Hc as [[=] | [[=] | [=]]].
      * injection Heq as <- _ _. by exists "".
      * rewrite !string_app_cons in Heq. injection Heq as <- <- Heq.
        destruct (IH _ _ _ Heq Hc) as [pre' ->]. by exists (String "\" (String d pre')).
    + destruct pre as [|x pre].
      * injection Heq as <- _. done.
      * rewrite string_app_cons in Heq. injection Heq as <- Heq.
        destruct (IH _ _ _ Heq Hc) as [pre' ->]. by exists (String d pre').
Qed.

(** X18: in the escaped text every brace and underscore comes right after
    a backslash. *)
Theorem latex_escape_escapes s pre c post :
  latex_escape s = pre +:+ String c post → latex_special c →
  ∃ pre', pre = pre' +:+ "\".
Proof. rewrite latex_escape_single_pass. apply escape_pass_escapes. Qed.

Lemma escape_pass_inj s1 : ∀ s2, escape_pass s1 = escape_pass s2 → s1 = s2.
Proof.
  assert (∀ s c rest, escape_pass s = String c rest → ¬ latex_special c) as Hhead.
  { intros s c rest Heq Hc.
    destruct (escape_pass_escapes s "" c rest Heq Hc) as [[|? ?] [=]]. }
  induction s1 as [|c1 s1 IH]; intros [|c2 s2] Heq; simpl in Heq.
  - done.
  - by destruct (decide (latex_special c2)).
  - by destruct (decide (latex_special c1)).
  - destruct (decide (latex_special c1)) as [H1|H1],
             (decide (latex_special c2)) as [H2|H2].
    + injection Heq as -> Heq. f_equal. by apply IH.
    + injection Heq as <- Heq. symmetry in Heq. by apply Hhead in Heq.
    + injection Heq as -> Heq. by apply Hhead in Heq.
    + injection Heq as -> Heq. f_equal. by apply IH.
Qed.

(** X19: escaping loses nothing: texts with the same escaped text are the
    same text. *)
Theorem latex_escape_inj s1 s2 : latex_escape s1 = latex_escape s2 → s1 = s2.
Proof. rewrite !latex_escape_single_pass. apply escape_pass_inj. Qed.

(** X20: [sample_answer_pages] prints one line per row, in order: the
    escaped answer, [" & "], a cell and the row end; the cell is the escaped
    page, or the no-mapping note for an empty page, and is never empty. *)
Theorem sample_answer_pages_lines rows :
  Forall2 (λ row line, ∃ cell,
             line = latex_escape row.1 +:+ " & " +:+ cell +:+ "\\ \hline" ∧
             cell ≠ "" ∧
             (row.2 = "" → cell = "\textbf{No Mapping Found}") ∧
             (row.2 ≠ "" → cell = latex_escape row.2))
          rows (sample_answer_pages rows).
Proof.
  unfold sample_answer_pages. apply Forall2_fmap_r, Forall_Forall2_diag.
  apply Forall_forall. intros [answer page] _. unfold latex_row. simpl.
  case_bool_decide as Hpage.
  - eexists. split; [done|]. split; [done|]. split; [done|]. done.
  - eexists. split; [done|]. split; [|split; [done|done]].
    rewrite latex_escape_single_pass. destruct page as [|c page]; [done|].
    simpl. by destruct (decide (latex_special c)).
Qed.


Lemma get_slurm_config_value_union {V} name (d : gmap string V) gc :
  get_slurm_config_value name d gc = dict_get StrKey (default ∅ gc ∪ d) name.
Proof.
  unfold get_slurm_config_value, dict_get. destruct gc as [g|]; simpl.
  - case_bool_decide as Hg.
    + destruct Hg as [v Hv]. by rewrite Hv, (lookup_union_Some_l _ _ _ _ Hv).
    + apply eq_None_not_Some in Hg. by rewrite lookup_union_r.
  - by rewrite (left_id_L ∅ (∪)).
Qed.

Lemma pretty_N_go_digits x : ∀ s,
  all_digits s = true → all_digits (pretty_N_go x s) = true.
Proof.
  induction (N.lt_wf_0 x) as [x _ IH]; intros s Hs.
  destruct (decide (x = 0)%N) as [->|Hx]; [by rewrite pretty_N_go_0|].
  rewrite pretty_N_go_step by lia. apply IH.
  - apply N.div_lt; lia.
  - simpl. rewrite Hs, andb_true_r. apply bool_decide_eq_true.
    assert (x `mod` 10 < 10)%N as Hlt by (apply N.mod_lt; lia).
    destruct (x `mod` 10)%N as [|p] eqn:Hm; [by eexists|].
    unfold pretty_N_char.
    do 4 (destruct p as [p|p|]; try (by eexists); try lia).
Qed.

Lemma pretty_nat_digits (n : nat) : all_digits (pretty n) = true.
Proof.
  unfold pretty, pretty_nat, pretty, pretty_N.
  destruct (decide _); [done|]. by apply pretty_N_go_digits.
Qed.

Lemma slurm_file_inj output_dir : Inj (=) (=) (slurm_file output_dir).
Proof.
  intros i j. unfold slurm_file.
  rewrite !os_path_join_relative by done. intros Heq.
  do 2 apply (inj (String.app _)) in Heq.
  apply string_app_inj_r in Heq. by apply (inj pretty).
Qed.

Lemma slurm_file_not_master output_dir i :
  slurm_file output_dir i ≠ os_path_join output_dir "slurm-master.sh".
Proof.
  unfold slurm_file. rewrite !os_path_join_relative by done. intros Heq.
  apply (inj (String.app _)) in Heq.
  change "slurm-master.sh" with ("slurm-" +:+ "master" +:+ ".sh") in Heq.
  apply (inj (String.app _)), string_app_inj_r in Heq.
  pose proof (pretty_nat_digits i) as Hd. by rewrite Heq in Hd.
Qed.

Lemma enumerate_from_app {A} (l1 l2 : list A) start :
  zip (seq start (length (l1 ++ l2))) (l1 ++ l2)
  = zip (seq start (length l1)) l1
    ++ zip (seq (start + length l1) (length l2)) l2.
Proof.
  rewrite length_app, seq_app. apply zip_with_app. by rewrite length_seq.
Qed.

Section Slurm_properties.

Context {GuesserSpec V : Type}.
Variable guesser_class : GuesserSpec → string.
Variable list_enabled_guessers : list GuesserSpec.
Variable render_script : string → GuesserSpec → V → V → V → V → V → string.
Variable render_master : list string → string.

Implicit Types (gs : GuesserSpec) (l : list GuesserSpec) (w : CliWorld).
Implicit Types (slurm_config : gmap string (gmap string V)).
Implicit Types (d : gmap string V) (task output_dir : string).

Local Abbreviation write_guesser_script :=
  (write_guesser_script guesser_class render_script).
Local Abbreviation generate_guesser_slurm :=
  (generate_guesser_slurm guesser_class list_enabled_guessers render_script
     render_master).
Local Abbreviation guesser_script := (guesser_script guesser_class render_script).
Local Abbreviation slurm_value := (slurm_value guesser_class).
Local Abbreviation slurm_ready := (slurm_ready guesser_class render_script).


Lemma write_guesser_script_ok slurm_config d task output_dir i gs script w :
  guesser_class gs ≠ "ElasticSearchGuesser" →
  guesser_script slurm_config d task gs = Some script →
  write_guesser_script slurm_config d task output_dir (i, gs) w
  = (Ok tt, {| cli_files := <[slurm_file output_dir i := script]> (cli_files w);
               cli_shell := cli_shell w |}).
Proof.
  intros Hes Hscript. unfold write_guesser_script. simpl.
  rewrite bool_decide_false by done.
  assert (∀ name,
    (if bool_decide (is_Some (slurm_config !! guesser_class gs))
     then c ← lift (dict_get StrKey slurm_config (guesser_class gs)); mret (Some c)
     else mret None) w
    = (Ok (slurm_config !! guesser_class gs), w) ∧
    get_slurm_config_value name d (slurm_config !! guesser_class gs)
    = match slurm_value slurm_config d gs name with
      | Some v => Ok v
      | None => Raise (KeyError (StrKey name))
      end) as Hstep.
  { intros name. split.
    - unfold dict_get. case_bool_decide as Hc; run.
      + by destruct Hc as [c ->].
      + apply eq_None_not_Some in Hc. by rewrite Hc.
    - by rewrite get_slurm_config_value_union. }
  unfold guesser_script in Hscript.
  run. rewrite (proj1 (Hstep "")).
  destruct (slurm_value slurm_config d gs "partition") as [v1|] eqn:H1; [|done].
  destruct (slurm_value slurm_config d gs "qos") as [v2|] eqn:H2; [|done].
  destruct (slurm_value slurm_config d gs "mem_per_cpu") as [v3|] eqn:H3; [|done].
  destruct (slurm_value slurm_config d gs "gres") as [v4|] eqn:H4; [|done].
  destruct (slurm_value slurm_config d gs "max_time") as [v5|] eqn:H5; [|done].
  simpl in Hscript. injection Hscript as <-.
  rewrite !(proj2 (Hstep _)), H1, H2, H3, H4, H5. done.
Qed.

Lemma write_guesser_script_es slurm_config d task output_dir i gs w :
  guesser_class gs = "ElasticSearchGuesser" →
  write_guesser_script slurm_config d task output_dir (i, gs) w
  = (Raise ValueError, w).
Proof.
  intros Hes. unfold write_guesser_script. simpl.
  by rewrite bool_decide_true by done.
Qed.

(** The scripts of the guessers handled so far, and nothing else. *)
Lemma write_scripts_ok slurm_config d task output_dir l : ∀ start w,
  Forall (slurm_ready slurm_config d task) l →
  ∃ files,
    foldM (λ _ x, write_guesser_script slurm_config d task output_dir x) tt
          (zip (seq start (length l)) l) w
    = (Ok tt, {| cli_files := files; cli_shell := cli_shell w |}) ∧
    (∀ i gs, l !! i = Some gs →
       files !! slurm_file output_dir (start + i)
       = guesser_script slurm_config d task gs) ∧
    (∀ p, (∀ i, i < length l → p ≠ slurm_file output_dir (start + i)) →
       files !! p = cli_files w !! p).
Proof.
  induction l as [|gs l IH]; intros start w Hall.
  - exists (cli_files w). split; [by destruct w|]. split; [done|done].
  - apply Forall_cons in Hall as [[Hes [script Hscript]] Hall].
    change (zip (seq start (length (gs :: l))) (gs :: l))
      with ((start, gs) :: zip (seq (S start) (length l)) l).
    rewrite foldM_cons, (write_guesser_script_ok _ _ _ _ _ _ script) by done.
    destruct (IH (S start)
      {| cli_files := <[slurm_file output_dir start := script]> (cli_files w);
         cli_shell := cli_shell w |} Hall) as (files & Hrun & Hscripts & Hother).
    exists files. split; [exact Hrun|]. split.
    + intros [|i] gs' Hi; simpl in Hi.
      * injection Hi as <-. rewrite Nat.add_0_r, Hother; cbn [cli_files].
        -- by rewrite lookup_insert_eq.
        -- intros i _ Heq. apply slurm_file_inj in Heq. lia.
      * replace (start + S i) with (S start + i) by lia. by apply Hscripts.
    + intros p Hp. rewrite Hother; cbn [cli_files].
      * rewrite lookup_insert_ne; [done|]. specialize (Hp 0).
        rewrite Nat.add_0_r in Hp. intros Heq. apply Hp; [simpl; lia | done].
      * intros i Hi. replace (S start + i) with (start + S i) by lia.
        apply Hp. simpl. lia.
Qed.

Lemma slurm_ready_default slurm_config d task gs :
  guesser_class gs ≠ "ElasticSearchGuesser" →
  (∀ name, name ∈ ["partition"; "qos"; "mem_per_cpu"; "gres"; "max_time"] →
           is_Some (d !! name)) →
  slurm_ready slurm_config d task gs.
Proof.
  intros Hes Hd. split; [done|].
  assert (∀ name,
    name ∈ ["partition"; "qos"; "mem_per_cpu"; "gres"; "max_time"] →
    is_Some (slurm_value slurm_config d gs name)) as Hv.
  { intros name [v Hname]%Hd. unfold slurm_value.
    destruct (default ∅ (slurm_config !! guesser_class gs) !! name) as [v'|] eqn:Hg.
    - exists v'. by apply lookup_union_Some_l.
    - exists v. by rewrite lookup_union_r. }
  unfold guesser_script.
  destruct (Hv "partition") as [v1 ->]; [set_solver|].
  destruct (Hv "qos") as [v2 ->]; [set_solver|].
  destruct (Hv "mem_per_cpu") as [v3 ->]; [set_solver|].
  destruct (Hv "gres") as [v4 ->]; [set_solver|].
  destruct (Hv "max_time") as [v5 ->]; [set_solver|].
  by eexists.
Qed.

(** X15: with a default entry that has the five settings and no
    ElasticSearchGuesser enabled, [generate_guesser_slurm] succeeds: it
    issues the one [cp], writes a script per enabled guesser and the master
    script, all to different paths, lists in the master exactly the scripts
    it wrote and the singleton, and touches no other file. *)
Theorem generate_guesser_slurm_success slurm_config d task output_dir w :
  slurm_config !! "default" = Some d →
  (∀ name, name ∈ ["partition"; "qos"; "mem_per_cpu"; "gres"; "max_time"] →
           is_Some (d !! name)) →
  Forall (λ gs, guesser_class gs ≠ "ElasticSearchGuesser")
         list_enabled_guessers →
  let singleton_output := os_path_join output_dir "guesser-singleton.sh" in
  let master := os_path_join output_dir "slurm-master.sh" in
  let scripts := slurm_file output_dir <$> seq 0 (length list_enabled_guessers) in
  ∃ files,
    generate_guesser_slurm slurm_config task output_dir w
    = (Ok tt,
       {| cli_files := files;
          cli_shell := cli_shell w ++
            ["cp qanta/slurm/templates/guesser-singleton.sh "
             +:+ singleton_output] |}) ∧
    NoDup (scripts ++ [master]) ∧
    Forall2 (λ gs p, ∃ script,
               guesser_script slurm_config d task gs = Some script ∧
               files !! p = Some script)
            list_enabled_guessers scripts ∧
    files !! master = Some (render_master (scripts ++ [singleton_output])) ∧
    (∀ p, p ∉ scripts ++ [master] → files !! p = cli_files w !! p).
Proof.
  intros Hdefault Hd Hnoes singleton_output master scripts.
  assert (Forall (slurm_ready slurm_config d task) list_enabled_guessers) as Hready.
  { eapply Forall_impl; [exact Hnoes|]. intros gs Hgs.
    by apply slurm_ready_default. }
  destruct (write_scripts_ok slurm_config d task output_dir
              list_enabled_guessers 0 w Hready) as (files & Hrun & Hscripts & Hother).
  exists (<[master := render_master (scripts ++ [singleton_output])]> files).
  split; [|split; [|split; [|split]]].
  - unfold generate_guesser_slurm, dict_get. run. rewrite Hdefault.
    unfold for_, enumerate. rewrite Hrun. done.
  - apply NoDup_app. split; [|split].
    + apply NoDup_fmap_2; [apply slurm_file_inj | apply NoDup_seq].
    + intros p (i & -> & _)%list_elem_of_fmap Heq%list_elem_of_singleton.
      by apply (slurm_file_not_master output_dir i).
    + apply NoDup_singleton.
  - apply Forall2_same_length_lookup_2.
    { unfold scripts. by rewrite length_fmap, length_seq. }
    intros i gs p Hgs Hp. unfold scripts in Hp.
    rewrite list_lookup_fmap in Hp.
    destruct (seq 0 (length list_enabled_guessers) !! i) as [j|] eqn:Hj; [|done].
    apply lookup_seq in Hj as [-> _]. injection Hp as <-.
    rewrite Forall_forall in Hready.
    destruct (Hready gs) as [_ [script Hscript]];
      [by apply list_elem_of_lookup_2 in Hgs|].
    exists script. split; [done|].
    rewrite lookup_insert_ne by (symmetry; apply slurm_file_not_master).
    rewrite <-Hscript. apply (Hscripts i gs Hgs).
  - by rewrite lookup_insert_eq.
  - intros p Hp. rewrite not_elem_of_app, list_elem_of_singleton in Hp.
    destruct Hp as [Hp Hm]. rewrite lookup_insert_ne by done.
    apply Hother. intros i Hi ->. apply Hp, list_elem_of_fmap.
    exists i. split; [done|]. apply elem_of_seq. lia.
Qed.

(** X16: [generate_guesser_slurm] fails with [KeyError] and does nothing
    when the YAML file has no default entry; at an ElasticSearchGuesser it
    fails with [ValueError] after the scripts of the guessers before it are
    written, and writes nothing more: no later script, no master, no [cp]. *)
Theorem generate_guesser_slurm_failures slurm_config task output_dir w :
  (slurm_config !! "default" = None →
     generate_guesser_slurm slurm_config task output_dir w
     = (Raise (KeyError (StrKey "default")), w)) ∧
  (∀ d pre gs post,
     slurm_config !! "default" = Some d →
     list_enabled_guessers = pre ++ gs :: post →
     Forall (slurm_ready slurm_config d task) pre →
     guesser_class gs = "ElasticSearchGuesser" →
     ∃ files,
       generate_guesser_slurm slurm_config task output_dir w
       = (Raise ValueError,
          {| cli_files := files; cli_shell := cli_shell w |}) ∧
       (∀ i gs', pre !! i = Some gs' →
          files !! slurm_file output_dir i
          = guesser_script slurm_config d task gs') ∧
       (∀ p, (∀ i, i < length pre → p ≠ slurm_file output_dir i) →
          files !! p = cli_files w !! p)).
Proof.
  split.
  - intros Hnone. unfold generate_guesser_slurm, dict_get. run. by rewrite Hnone.
  - intros d pre gs post Hdefault Hsplit Hready Hes.
    destruct (write_scripts_ok slurm_config d task output_dir pre 0 w Hready)
      as (files & Hrun & Hscripts & Hother).
    exists files. split; [|split; [exact Hscripts | exact Hother]].
    unfold generate_guesser_slurm, dict_get. run. rewrite Hdefault.
    unfold for_, enumerate. rewrite Hsplit, enumerate_from_app, foldM_app, Hrun.
    change (zip (seq (0 + length pre) (length (gs :: post))) (gs :: post))
      with ((0 + length pre, gs)
            :: zip (seq (S (0 + length pre)) (length post)) post).
    by rewrite foldM_cons, write_guesser_script_es.
Qed.

End Slurm_properties.

(** ** run_guesser *)


Lemma run_guesser_loop workers cls (l : list Z) w :
  for_return l (λ _,
    if negb (str_contains "qanta.guesser" cls) then mret Return
    else
      shell "rm -rf /tmp/qanta";;
      shell ("rm -rf output/guesser/" +:+ cls);;
      shell ("luigi --local-scheduler --module qanta.pipeline.guesser --workers "
             +:+ pretty workers +:+ " AllSingleGuesserReports");;
      mret Continue) w
  = (Ok tt,
     {| cli_files := cli_files w;
        cli_shell := cli_shell w ++
          if str_contains "qanta.guesser" cls
          then concat (replicate (length l) (guesser_commands workers cls))
          else [] |}).
Proof.
  destruct (str_contains "qanta.guesser" cls) eqn:Hc; simpl.
  - revert w; induction l as [|x l IH]; intros w.
    + simpl. rewrite app_nil_r. by destruct w.
    + simpl. run. unfold shell. simpl. rewrite IH. simpl.
      by rewrite <-!app_assoc.
  - rewrite app_nil_r. destruct l; destruct w; done.
Qed.

(** X17: [run_guesser] never fails and writes no file; it issues its three
    commands [n_times] times in a row when the class name contains
    [qanta.guesser], and no command when it does not or [n_times] is not
    positive. *)
Theorem run_guesser_commands n_times workers cls w :
  ∃ commands,
    run_guesser n_times workers cls w
    = (Ok tt, {| cli_files := cli_files w;
                 cli_shell := cli_shell w ++ commands |}) ∧
    ((∃ pre post, cls = pre +:+ "qanta.guesser" +:+ post) →
       commands
       = concat (replicate (Z.to_nat n_times) (guesser_commands workers cls))) ∧
    ((¬ ∃ pre post, cls = pre +:+ "qanta.guesser" +:+ post) → commands = []) ∧
    ((n_times ≤ 0)%Z → commands = []).
Proof.
  eexists. split; [apply run_guesser_loop|].
  unfold range. rewrite length_fmap, length_seq.
  destruct (str_contains "qanta.guesser" cls) eqn:Hc.
  - split; [done|]. split.
    + intros Hno. exfalso. by apply Hno, str_contains_spec.
    + intros Hn. by replace (Z.to_nat n_times) with 0 by lia.
  - split; [|done]. intros Hyes%str_contains_spec. congruence.
Qed.


Lemma mapR_index {A} (l : list A) : ∀ pre,
  mapR (λ i, list_get (pre ++ l) i) (seq (length pre) (length l)) = Ok l.
Proof.
  induction l as [|x l IH]; intros pre; [done|].
  simpl. unfold list_get at 1. rewrite list_lookup_middle by done.
  specialize (IH (pre ++ [x])). rewrite <-app_assoc, length_app in IH.
  simpl in IH. rewrite Nat.add_1_r in IH. by rewrite IH.
Qed.

Lemma to_example_ok question : to_example question = Ok (example_of question).
Proof.
  unfold to_example. pose proof (mapR_index (q_text question) []) as Hm.
  simpl in Hm. by rewrite Hm.
Qed.

Lemma mapR_to_example (qs : list Question) :
  mapR to_example qs = Ok (example_of <$> qs).
Proof.
  induction qs as [|q qs IH]; [done|].
  simpl. by rewrite to_example_ok, IH.
Qed.

Lemma quiz_bowl_paths_NoDup output_dir :
  NoDup [os_path_join output_dir "quiz-bowl.train.json";
         os_path_join output_dir "quiz-bowl.val.json";
         os_path_join output_dir "quiz-bowl.dev.json"].
Proof.
  rewrite !os_path_join_relative by done.
  apply (NoDup_fmap_2 (String.app (dir_prefix output_dir))
           ["quiz-bowl.train.json"; "quiz-bowl.val.json"; "quiz-bowl.dev.json"]).
  apply (bool_decide_unpack
           (NoDup ["quiz-bowl.train.json"; "quiz-bowl.val.json";
                   "quiz-bowl.dev.json"])).
  by vm_compute.
Qed.

Section Export_properties.

Variable db_location : string.
Variable all_questions_values : list Question.
Variable train_test_split :
  list QuestionExample → Z → result (list QuestionExample * list QuestionExample).

Implicit Types (fold : list string) (fs : gmap string json_file).
Implicit Types (output_dir : string) (random_state : Z).

Local Abbreviation export_db :=
  (export_db db_location all_questions_values train_test_split).
Local Abbreviation selected := (selected all_questions_values).
Local Abbreviation train_pool := (train_pool all_questions_values).
Local Abbreviation dev_examples := (dev_examples all_questions_values).


Lemma selected_filter fold :
  filter (λ q, q_fold q ∈ (list_to_set fold : gset string)) all_questions_values
  = selected fold.
Proof.
  unfold selected. apply list_filter_iff. intros q.
  by rewrite elem_of_list_to_set.
Qed.

Lemma export_db_run fold merged_output random_state output_dir fs :
  export_db fold merged_output random_state output_dir fs =
  if negb (str_endswith "non_naqt.db" db_location) then (Raise ValueError, fs)
  else if merged_output then
    (Ok tt,
     <[os_path_join output_dir "quiz-bowl.all.json"
         := JsonQuestions (example_of <$> selected fold)]>
       (<[os_path_join output_dir "quiz-bowl.all.json" := JsonEmpty]> fs))
  else
    match train_test_split (train_pool fold) random_state with
    | Raise e => (Raise e, fs)
    | Ok (train, val) =>
        (Ok tt,
         <[os_path_join output_dir "quiz-bowl.dev.json"
             := JsonQuestions (dev_examples fold)]>
         (<[os_path_join output_dir "quiz-bowl.dev.json" := JsonEmpty]>
         (<[os_path_join output_dir "quiz-bowl.val.json" := JsonQuestions val]>
         (<[os_path_join output_dir "quiz-bowl.val.json" := JsonEmpty]>
         (<[os_path_join output_dir "quiz-bowl.train.json" := JsonQuestions train]>
         (<[os_path_join output_dir "quiz-bowl.train.json" := JsonEmpty]> fs))))))
    end.
Proof.
  unfold export_db, train_pool, dev_examples.
  destruct (negb (str_endswith "non_naqt.db" db_location)); [done|].
  rewrite selected_filter. destruct merged_output.
  - run. unfold safe_open_w, json_dump. by rewrite mapR_to_example.
  - run. rewrite !mapR_to_example.
    destruct (train_test_split _ random_state) as [[train val]|e]; [|done].
    done.
Qed.

(** X21: [export_db] fails with [ValueError] and writes nothing unless the
    database location ends with [non_naqt.db]; a file it changes is
    [quiz-bowl.all.json] of the output directory in a merged export and one
    of the train, val and dev files otherwise. *)
Theorem export_db_writes_only fold merged_output random_state output_dir fs :
  ((¬ ∃ pre, db_location = pre +:+ "non_naqt.db") →
     export_db fold merged_output random_state output_dir fs
     = (Raise ValueError, fs)) ∧
  (∀ p,
     (export_db fold merged_output random_state output_dir fs).2 !! p ≠ fs !! p →
     (∃ pre, db_location = pre +:+ "non_naqt.db") ∧
     if merged_output then p = os_path_join output_dir "quiz-bowl.all.json"
     else p ∈ [os_path_join output_dir "quiz-bowl.train.json";
               os_path_join output_dir "quiz-bowl.val.json";
               os_path_join output_dir "quiz-bowl.dev.json"]).
Proof.
  rewrite export_db_run.
  destruct (str_endswith "non_naqt.db" db_location) eqn:Hend; simpl.
  - apply str_endswith_spec in Hend. split; [by intros []|].
    intros p Hp. split; [done|]. destruct merged_output.
    + simpl in Hp. destruct (decide (os_path_join output_dir "quiz-bowl.all.json" = p));
        [done|]. by rewrite !lookup_insert_ne in Hp.
    + destruct (train_test_split _ random_state) as [[train val]|e]; [|done].
      simpl in Hp.
      destruct (decide (p ∈ [os_path_join output_dir "quiz-bowl.train.json";
                            os_path_join output_dir "quiz-bowl.val.json";
                            os_path_join output_dir "quiz-bowl.dev.json"]))
        as [|Hnin]; [done|].
      rewrite !not_elem_of_cons in Hnin. destruct Hnin as (? & ? & ? & _).
      by rewrite !lookup_insert_ne in Hp.
  - split; [done|]. intros p Hp. done.
Qed.

(** X22: a merged export writes the questions whose fold is one of the
    requested folds, in database order, each with its qnum, page, fold and
    its sentences as they are; no index lookup of [to_example] fails. *)
Theorem export_db_merged fold random_state output_dir fs :
  (∃ pre, db_location = pre +:+ "non_naqt.db") →
  ∃ fs',
    export_db fold true random_state output_dir fs = (Ok tt, fs') ∧
    fs' !! os_path_join output_dir "quiz-bowl.all.json"
    = Some (JsonQuestions (example_of <$> selected fold)) ∧
    Forall2 (λ q ex, ex_qnum ex = q_qnum q ∧ ex_sentences ex = q_text q ∧
                     ex_page ex = q_page q ∧ ex_fold ex = q_fold q)
            (selected fold) (example_of <$> selected fold) ∧
    (∀ q, q ∈ selected fold ↔ q ∈ all_questions_values ∧ q_fold q ∈ fold).
Proof.
  intros Hend%str_endswith_spec. eexists. split; [|split; [|split]].
  - rewrite export_db_run, Hend. done.
  - by rewrite lookup_insert_eq.
  - apply Forall2_fmap_r, Forall_Forall2_diag, Forall_forall. done.
  - intros q. unfold selected. rewrite list_elem_of_filter. tauto.
Qed.

Lemma elem_of_train_pool fold ex :
  ex ∈ train_pool fold → ∃ pre post, ex_fold ex = pre +:+ "train" +:+ post.
Proof.
  unfold train_pool. intros (q & -> & Hq)%list_elem_of_fmap.
  apply list_elem_of_filter in Hq as [Hq _].
  by apply Is_true_true, str_contains_spec in Hq.
Qed.

Lemma elem_of_dev_examples fold ex :
  ex ∈ dev_examples fold ↔
  ∃ q, ex = example_of q ∧ q ∈ all_questions_values ∧ q_fold q ∈ fold ∧
       ∃ pre post, q_fold q = pre +:+ "dev" +:+ post.
Proof.
  unfold dev_examples, selected. rewrite list_elem_of_fmap. split.
  - intros (q & -> & [Hdev [Hsel Hq]%list_elem_of_filter]%list_elem_of_filter).
    exists q. repeat split; try done. by apply str_contains_spec, Is_true_true.
  - intros (q & -> & Hq & Hsel & Hdev). exists q. split; [done|].
    apply list_elem_of_filter. split.
    + by apply Is_true_true, str_contains_spec.
    + by apply list_elem_of_filter.
Qed.

(** X23: in a split export a failure of [train_test_split] leaves the
    store as it was; otherwise the three files hold the two parts of the
    split and the dev examples, and if the split returns only examples it
    was given, every example written has [train] or [dev] in its fold name:
    a selected question with neither is written nowhere. *)
Theorem export_db_split fold random_state output_dir fs :
  (∃ pre, db_location = pre +:+ "non_naqt.db") →
  (∀ e, train_test_split (train_pool fold) random_state = Raise e →
     export_db fold false random_state output_dir fs = (Raise e, fs)) ∧
  (∀ train val,
     train_test_split (train_pool fold) random_state = Ok (train, val) →
     ∃ fs',
       export_db fold false random_state output_dir fs = (Ok tt, fs') ∧
       fs' !! os_path_join output_dir "quiz-bowl.train.json"
         = Some (JsonQuestions train) ∧
       fs' !! os_path_join output_dir "quiz-bowl.val.json"
         = Some (JsonQuestions val) ∧
       fs' !! os_path_join output_dir "quiz-bowl.dev.json"
         = Some (JsonQuestions (dev_examples fold)) ∧
       ((∀ ex, ex ∈ train ++ val → ex ∈ train_pool fold) →
        ∀ ex, ex ∈ train ++ val ++ dev_examples fold →
          (∃ pre post, ex_fold ex = pre +:+ "train" +:+ post) ∨
          (∃ pre post, ex_fold ex = pre +:+ "dev" +:+ post))).
Proof.
  intros Hend%str_endswith_spec. split.
  - intros e Hsplit. by rewrite export_db_run, Hend, Hsplit.
  - intros train val Hsplit. eexists. split; [|split; [|split; [|split]]].
    + rewrite export_db_run, Hend, Hsplit. done.
    + pose proof (quiz_bowl_paths_NoDup output_dir) as Hnd.
      apply NoDup_cons in Hnd as [Hnin _]. rewrite !not_elem_of_cons in Hnin.
      destruct Hnin as (? & ? & _).
      rewrite !(lookup_insert_ne _ (os_path_join output_dir "quiz-bowl.dev.json"))
        by done.
      rewrite !(lookup_insert_ne _ (os_path_join output_dir "quiz-bowl.val.json"))
        by done.
      by rewrite lookup_insert_eq.
    + pose proof (quiz_bowl_paths_NoDup output_dir) as Hnd.
      apply NoDup_cons in Hnd as [_ Hnd].
      apply NoDup_cons in Hnd as [Hnin _]. rewrite !not_elem_of_cons in Hnin.
      destruct Hnin as (? & _).
      rewrite !(lookup_insert_ne _ (os_path_join output_dir "quiz-bowl.dev.json"))
        by done.
      by rewrite lookup_insert_eq.
    + by rewrite lookup_insert_eq.
    + intros Hsound ex. rewrite app_assoc, elem_of_app.
      intros [Hex%Hsound|Hex].
      * left. by apply (elem_of_train_pool fold).
      * right. apply elem_of_dev_examples in Hex as (q & -> & _ & _ & Hdev). done.
Qed.

End Export_properties.

(** ** The further properties at the example data *)

Lemma generate_guesses_unknown_fold_witness :
  generate_guesses example_partials example_questions_by_fold 5
    (["dev"] ++ "guesstrain" :: ["dev"])
    {| self := Mute; guess_calls := [] |}
  = (Raise (KeyError (StrKey "guesstrain")),
     {| self := Mute; guess_calls := [] |}).
Proof.
  apply (generate_guesses_unknown_fold example_partials
           example_questions_by_fold ["dev"] "guesstrain" ["dev"] 5 Mute []).
  - exact example_folds_known.
  - reflexivity.
Defined.

Lemma generate_guesses_rows_from_questions_witness :
  ∃ df st',
    generate_guesses example_partials example_questions_by_fold 5 ["dev"]
      {| self := {| canned_answers := [("Napoleon", 9%Z)];
                    canned_name := "canned" |};
         guess_calls := [] |}
    = (Ok df, st') ∧
    row_guesser (stamp "canned"
                   {| p_fold := "dev"; p_qnum := 7; p_sentence := 0;
                      p_token := 1; p_text := "This" |} ("Napoleon", 9%Z))
    = display_name (self st').
Proof.
  eexists _, _. split; [reflexivity|].
  eapply (generate_guesses_rows_from_questions example_partials
            example_questions_by_fold 5 ["dev"]
            {| canned_answers := [("Napoleon", 9%Z)]; canned_name := "canned" |}
            []).
  - reflexivity.
  - left.
Defined.

Lemma load_guesses_unsaved_fold_witness :
  load_guesses "out" (["dev"] ++ "guesstrain" :: [])
    (save_guesses example_table "out" ∅).2
  = (Raise (FileNotFoundError (guess_path "out" "guesstrain")),
     (save_guesses example_table "out" ∅).2).
Proof.
  apply (load_guesses_unsaved_fold example_table "out" ["dev"] "guesstrain" [] ∅).
  - apply (bool_decide_unpack (["dev"] ⊆ save_folds)). by vm_compute.
  - apply (bool_decide_unpack ("guesstrain" ∉ save_folds)). by vm_compute.
  - apply lookup_empty.
Defined.

Lemma files_distinct_witness :
  NoDup (files ["model.pickle"; "vocab.txt"] "output/guesser/A").
Proof.
  apply (files_distinct ["model.pickle"; "vocab.txt"] "output/guesser/A").
  - apply (bool_decide_unpack (NoDup ["model.pickle"; "vocab.txt"])).
    by vm_compute.
  - by repeat constructor.
Defined.

Lemma example_qnums_known :
  ∀ r, r ∈ example_combined → is_Some (example_question_map !! row_qnum r).
Proof.
  intros r Hr. unfold example_combined in Hr.
  repeat (apply elem_of_cons in Hr as [->|Hr]; [by eexists|]).
  by apply elem_of_nil in Hr.
Qed.

Lemma aggregate_succeeds_iff_witness :
  ∃ q, aggregate (Score := Z) ∅ example_combined = Raise (KeyError (IntKey q)) ∧
       (q ≤ 7)%Z.
Proof.
  destruct (aggregate_succeeds_iff (Score := Z) ∅ example_combined)
    as [[Hok _] Hfail].
  destruct (aggregate ∅ example_combined) as [[gm tasks]|e].
  - destruct (Hok (ex_intro _ gm (ex_intro _ tasks eq_refl))
                  (example_row "Napoleon" 9 "dev" "A")) as [q Hq]; [left|].
    by rewrite lookup_empty in Hq.
  - destruct (Hfail e eq_refl) as (q & -> & _ & _ & Hmin).
    exists q. split; [reflexivity|].
    apply (Hmin (example_row "Napoleon" 9 "dev" "A")); [left | apply lookup_empty].
Defined.

Lemma aggregate_coverage_exact_witness :
  ∃ gm tasks,
    aggregate example_question_map example_combined = Ok (gm, tasks) ∧
    ∀ g, gm !! g =
      if decide (g ∈ row_guesser <$> example_combined)
      then Some (list_to_set ((λ r, (position r, row_guess r))
                   <$> filter (λ r, row_guesser r = g) example_combined))
      else None.
Proof.
  destruct (aggregate_total example_question_map example_combined
              example_qnums_known) as (gm & tasks & Hagg).
  exists gm, tasks. split; [exact Hagg|].
  exact (aggregate_coverage_exact example_question_map example_combined
           gm tasks Hagg).
Defined.

Lemma aggregate_tasks_sorted_witness :
  ∃ gm tasks keys,
    aggregate example_question_map example_combined = Ok (gm, tasks) ∧
    length tasks = length keys ∧
    StronglySorted (λ a b, Z3_le a b ∧ a ≠ b) keys.
Proof.
  destruct (aggregate_total example_question_map example_combined
              example_qnums_known) as (gm & tasks & Hagg).
  destruct (aggregate_tasks_sorted example_question_map example_combined
              gm tasks Hagg) as (keys & Hall & Hsorted & _).
  exists gm, tasks, keys. split; [exact Hagg|]. split; [|exact Hsorted].
  symmetry. exact (Forall2_length _ _ _ Hall).
Defined.

Lemma aggregate_task_rows_witness :
  ∃ gm tasks,
    aggregate example_question_map example_combined = Ok (gm, tasks) ∧
    length (concat (guess_df <$> tasks)) ≤ 3.
Proof.
  destruct (aggregate_total example_question_map example_combined
              example_qnums_known) as (gm & tasks & Hagg).
  exists gm, tasks. split; [exact Hagg|].
  exact (proj2 (aggregate_task_rows example_question_map example_combined
                  gm tasks Hagg)).
Defined.

Lemma preprocess_all_guesses_load_failures_witness :
  ∃ e,
    preprocess_all_guesses ["dev"; "test"] example_GUESSER_LIST "output/guesser"
      "output/guesser_index.pickle" "output/guess_tasks.pickle"
      example_question_map example_store
    = (Raise e, example_store).
Proof.
  destruct (preprocess_all_guesses_load_failures ["dev"; "test"]
              example_GUESSER_LIST "output/guesser" "output/guesser_index.pickle"
              "output/guess_tasks.pickle" example_question_map example_store)
    as (_ & _ & Hmissing).
  apply (Hmissing "A" tt "test").
  - left.
  - right; left.
  - reflexivity.
Defined.

Lemma example_store_tables :
  ∀ guesser_class cfg fold,
    (guesser_class, cfg) ∈ example_GUESSER_LIST → fold ∈ ["dev"] →
    example_store !! guess_path (os_path_join "output/guesser" guesser_class) fold
    = Some (PyDataFrame (example_tables guesser_class fold)).
Proof.
  intros guesser_class cfg fold Hg ->%list_elem_of_singleton.
  unfold example_GUESSER_LIST in Hg.
  repeat (apply elem_of_cons in Hg as [[= -> ->]|Hg]; [by vm_compute|]).
  by apply elem_of_nil in Hg.
Qed.

Lemma preprocess_all_guesses_success_witness :
  ∃ gm tasks,
    preprocess_all_guesses ["dev"] example_GUESSER_LIST "output/guesser"
      "output/guesser_index.pickle" "output/guess_tasks.pickle"
      example_question_map example_store
    = (Ok tt, <["output/guess_tasks.pickle" := PyTasks tasks]>
                (<["output/guesser_index.pickle" := PyGuessMap gm]>
                   example_store)).
Proof.
  destruct (preprocess_all_guesses_success ["dev"] example_GUESSER_LIST
              "output/guesser" "output/guesser_index.pickle"
              "output/guess_tasks.pickle" example_question_map
              example_tables example_store)
    as (gm & tasks & _ & Hrun).
  - discriminate.
  - discriminate.
  - exact example_store_tables.
  - intros guesser_class cfg fold r _ _ Hr. unfold example_tables in Hr.
    case_bool_decide;
      repeat (apply elem_of_cons in Hr as [->|Hr]; [by eexists|]);
      by apply elem_of_nil in Hr.
  - by exists gm, tasks.
Defined.

Lemma latex_escape_escapes_witness : ∃ pre', "a\" = pre' +:+ "\".
Proof.
  apply (latex_escape_escapes "a_b" "a\" "_"%char "b").
  - reflexivity.
  - right; right; reflexivity.
Defined.

Lemma latex_escape_inj_witness :
  latex_escape "a_{b}" = "a\_\{b\}" ∧ "a_{b}" = "a_{b}".
Proof.
  split; [reflexivity|].
  apply (latex_escape_inj "a_{b}" "a_{b}"). reflexivity.
Defined.

Lemma example_default_complete :
  ∀ name, name ∈ ["partition"; "qos"; "mem_per_cpu"; "gres"; "max_time"] →
          is_Some (example_default_slurm !! name).
Proof.
  intros name Hn.
  repeat (apply elem_of_cons in Hn as [->|Hn]; [by eexists|]).
  by apply elem_of_nil in Hn.
Qed.

Lemma generate_guesser_slurm_success_witness :
  ∃ files,
    generate_guesser_slurm id ["DanGuesser"; "TfidfGuesser"]
      example_render_script example_render_master example_slurm_config
      "GuesserPerformance" "slurm" {| cli_files := ∅; cli_shell := [] |}
    = (Ok tt,
       {| cli_files := files;
          cli_shell := ["cp qanta/slurm/templates/guesser-singleton.sh "
                        +:+ os_path_join "slurm" "guesser-singleton.sh"] |}) ∧
    files !! os_path_join "slurm" "slurm-master.sh"
    = Some (example_render_master
              ((slurm_file "slurm" <$> seq 0 2)
               ++ [os_path_join "slurm" "guesser-singleton.sh"])).
Proof.
  destruct (generate_guesser_slurm_success id ["DanGuesser"; "TfidfGuesser"]
              example_render_script example_render_master example_slurm_config
              example_default_slurm "GuesserPerformance" "slurm"
              {| cli_files := ∅; cli_shell := [] |})
    as (files & Hrun & _ & _ & Hmaster & _).
  - reflexivity.
  - exact example_default_complete.
  - by repeat constructor.
  - exists files. split; [exact Hrun | exact Hmaster].
Defined.

Lemma generate_guesser_slurm_failures_witness :
  ∃ files,
    generate_guesser_slurm id ["DanGuesser"; "ElasticSearchGuesser"]
      example_render_script example_render_master example_slurm_config
      "GuesserPerformance" "slurm" {| cli_files := ∅; cli_shell := [] |}
    = (Raise ValueError, {| cli_files := files; cli_shell := [] |}) ∧
    files !! slurm_file "slurm" 0
    = guesser_script id example_render_script example_slurm_config
        example_default_slurm "GuesserPerformance" "DanGuesser".
Proof.
  destruct (generate_guesser_slurm_failures id
              ["DanGuesser"; "ElasticSearchGuesser"]
              example_render_script example_render_master example_slurm_config
              "GuesserPerformance" "slurm" {| cli_files := ∅; cli_shell := [] |})
    as [_ Hes].
  destruct (Hes example_default_slurm ["DanGuesser"] "ElasticSearchGuesser" [])
    as (files & Hrun & Hscripts & _).
  - reflexivity.
  - reflexivity.
  - constructor; [|constructor].
    apply slurm_ready_default; [discriminate | exact example_default_complete].
  - reflexivity.
  - exists files. split; [exact Hrun|]. by apply (Hscripts 0 "DanGuesser").
Defined.

Lemma export_db_merged_witness :
  ∃ fs',
    export_db "data/non_naqt.db" example_questions example_split
      ["guesstrain"; "dev"] true 0 "out" ∅
    = (Ok tt, fs') ∧
    fs' !! os_path_join "out" "quiz-bowl.all.json"
    = Some (JsonQuestions
              (example_of <$> selected example_questions ["guesstrain"; "dev"])).
Proof.
  destruct (export_db_merged "data/non_naqt.db" example_questions example_split
              ["guesstrain"; "dev"] 0 "out" ∅)
    as (fs' & Hrun & Hfile & _).
  - by exists "data/".
  - by exists fs'.
Defined.

Lemma export_db_split_witness :
  ∃ fs',
    export_db "data/non_naqt.db" example_questions example_split
      ["guesstrain"; "dev"; "test"] false 0 "out" ∅
    = (Ok tt, fs') ∧
    fs' !! os_path_join "out" "quiz-bowl.dev.json"
    = Some (JsonQuestions
              (dev_examples example_questions ["guesstrain"; "dev"; "test"])).
Proof.
  destruct (export_db_split "data/non_naqt.db" example_questions example_split
              ["guesstrain"; "dev"; "test"] 0 "out" ∅) as [_ Hok].
  - by exists "data/".
  - destruct (Hok (train_pool example_questions ["guesstrain"; "dev"; "test"]) [])
      as (fs' & Hrun & _ & _ & Hdev & _); [reflexivity|].
    by exists fs'.
Defined.
